(** * PSD grading tool: document analysis and scoring engine

    A shallow embedding of the grading core of the repository:
    - [src/public/utils/file-processor.js] (class [FileProcessor]): the header
      reader, the decode ladder, the layer extractor, the scorer and the
      filename checker;
    - [server.js]: the font rule and the Canvas (LMS) filename decoder;
    - the front-end utilities ([FilenamePatterns]).

    JavaScript values are modelled as follows.  Strings are [string]s of
    8-bit code units; integers are [Z]; a [Uint8Array] is a [list byte];
    [undefined]/[null] is [None]; a thrown exception is the [Throw] case of a
    completion record.  Bitwise operators work on 32-bit signed integers and
    their wrap-around is written out; the quotient and the product behind a
    percentage are doubles, rounded as IEEE 754 rounds them. *)

From Stdlib Require Import ZArith List String Ascii Bool Lia.
From Stdlib.Strings Require Import Byte.
From Stdlib Require Import DecimalString.
From Stdlib.Floats Require SpecFloat.
Import ListNotations.

Set Implicit Arguments.
Local Set Warnings "-register-all".

Local Open Scope string_scope.
Local Open Scope list_scope.

(** ** JavaScript primitives *)

Module Js.

(** Exceptions: [new Error(msg)] and the [RangeError] of [DataView]. *)
Inductive Exception : Type :=
| Error (message : string)
| RangeError (message : string).

Definition message (e : Exception) : string :=
  match e with Error m => m | RangeError m => m end.

(** The completion of a call: a value or a thrown exception. *)
Inductive Completion (A : Type) : Type :=
| Normal (a : A)
| Throw (e : Exception).

Arguments Normal {A} a.
Arguments Throw {A} e.

(** [ToInt32]: the wrap-around of the bitwise operators. *)
Definition ToInt32 (z : Z) : Z :=
  ((z + 2147483648) mod 4294967296 - 2147483648)%Z.

(** [a << n] and [a | b] on numbers. *)
Definition shl (a n : Z) : Z := ToInt32 (Z.shiftl (ToInt32 a) n).
Definition bor (a b : Z) : Z := ToInt32 (Z.lor (ToInt32 a) (ToInt32 b)).

(** Decimal rendering of an integer, as in [`${n}`] or [n + 'px']. *)
Definition string_of_Z (z : Z) : string := NilZero.string_of_int (Z.to_int z).

(** [x || d] on numbers: [0] is falsy. *)
Definition or_num (x d : Z) : Z := if (x =? 0)%Z then d else x.

(** [x || d] on possibly missing numbers ([undefined], [null], [NaN], [0]). *)
Definition or_default (x : option Z) (d : Z) : Z :=
  match x with Some n => or_num n d | None => d end.

(** [s || d] on possibly missing strings: the empty string is falsy. *)
Definition or_string (x : option string) (d : string) : string :=
  match x with
  | Some s => if String.eqb s "" then d else s
  | None => d
  end.

(** Truthiness of a possibly missing string and number. *)
Definition truthy_string (x : option string) : bool :=
  match x with Some s => negb (String.eqb s "") | None => false end.

Definition truthy_num (x : option Z) : bool :=
  match x with Some n => negb (n =? 0)%Z | None => false end.

(** Lookup in an object literal with numeric keys. *)
Fixpoint lookup (table : list (Z * string)) (k : Z) : option string :=
  match table with
  | [] => None
  | (k', v) :: rest => if (k =? k')%Z then Some v else lookup rest k
  end.

End Js.

Import Js.

(** ** Numbers

    Scores are integers, but [/] and [*] are the operations of IEEE 754
    binary64: the quotient of two integers is rounded to the nearest
    double, ties to even, and so is its product by 100.  The exponent is
    not bounded here: the model covers the doubles that are neither
    subnormal nor infinite, which is where the quotients and products of
    integers below [2 ^ 53] lie. *)

Module Number.

Local Open Scope Z_scope.

(** A finite double: the value [mantissa * 2 ^ exponent]. *)
Record Double : Type := { mantissa : Z; exponent : Z }.

Definition zero : Double := {| mantissa := 0; exponent := 0 |}.

(** The integer nearest to [a / b], for [0 < b]; of two that are equally
    near, the even one. *)
Definition nearest_even (a b : Z) : Z :=
  let q := a / b in
  let r := a mod b in
  if 2 * r <? b then q
  else if b <? 2 * r then q + 1
  else if Z.even q then q else q + 1.

(** [a / b] divided by [2 ^ e], as a fraction. *)
Definition scaled (a b e : Z) : Z * Z :=
  if 0 <=? e then (a, b * 2 ^ e) else (a * 2 ^ (- e), b).

(** The double nearest to [a / b], for [0 < a] and [0 < b]: the exponent
    [e] is the one with [2 ^ 52 <= (a / b) / 2 ^ e < 2 ^ 53], and the
    mantissa is that quotient rounded to the nearest integer, ties to
    even. *)
Definition positive_nearest (a b : Z) : Double :=
  let e0 := Z.log2 a - Z.log2 b - 53 in
  let '(n, d) := scaled a b e0 in
  let e := if n <? 2 ^ 53 * d then e0 else e0 + 1 in
  let '(n, d) := scaled a b e in
  {| mantissa := nearest_even n d; exponent := e |}.

(** The double nearest to the fraction [a / b], for [b <> 0]. *)
Definition nearest (a b : Z) : Double :=
  let sign := Z.sgn a * Z.sgn b in
  if sign =? 0 then zero
  else
    let r := positive_nearest (Z.abs a) (Z.abs b) in
    {| mantissa := sign * mantissa r; exponent := exponent r |}.

(** [x / y] for integers [x] and [y <> 0] that doubles hold exactly. *)
Definition div (x y : Z) : Double := nearest x y.

(** [x * k] for a double [x] and an integer [k] that doubles hold
    exactly. *)
Definition mul (x : Double) (k : Z) : Double :=
  if 0 <=? exponent x then nearest (mantissa x * 2 ^ exponent x * k) 1
  else nearest (mantissa x * k) (2 ^ (- exponent x)).

(** [Math.round(x)]: the integer nearest to [x], the larger of two that
    are equally near. *)
Definition round (x : Double) : Z :=
  if 0 <=? exponent x then mantissa x * 2 ^ exponent x
  else (2 * mantissa x + 2 ^ (- exponent x)) / 2 ^ (1 - exponent x).

End Number.

(** ** Strings

    The string methods the grading code calls.  Letters are the ASCII
    letters: the model covers file names and patterns written in ASCII. *)

Module JsString.

Definition is_upper (c : ascii) : bool :=
  let n := nat_of_ascii c in (65 <=? n)%nat && (n <=? 90)%nat.

Definition is_lower (c : ascii) : bool :=
  let n := nat_of_ascii c in (97 <=? n)%nat && (n <=? 122)%nat.

Definition is_digit (c : ascii) : bool :=
  let n := nat_of_ascii c in (48 <=? n)%nat && (n <=? 57)%nat.

(** White space of [trim] and of the class [\s]. *)
Definition is_space (c : ascii) : bool :=
  let n := nat_of_ascii c in
  ((9 <=? n)%nat && (n <=? 13)%nat) || (n =? 32)%nat || (n =? 160)%nat.

Definition lower (c : ascii) : ascii :=
  if is_upper c then ascii_of_nat (nat_of_ascii c + 32) else c.

Definition upper (c : ascii) : ascii :=
  if is_lower c then ascii_of_nat (nat_of_ascii c - 32) else c.

(** The strings the model covers: every code unit is below 128. *)
Fixpoint isAscii (s : string) : bool :=
  match s with
  | EmptyString => true
  | String c s' => (nat_of_ascii c <? 128)%nat && isAscii s'
  end.

(** [s.toLowerCase()] on an ASCII string.  Outside ASCII the built-in
    follows the Unicode case mapping, which also depends on the context of
    a letter; a statement that depends on the mapping is about ASCII
    strings ([isAscii]). *)
Fixpoint toLowerCase (s : string) : string :=
  match s with
  | EmptyString => EmptyString
  | String c s' => String (lower c) (toLowerCase s')
  end.

(** [p] is a prefix of [s], letters compared through [f]. *)
Fixpoint prefix_by (f : ascii -> ascii) (p s : string) : bool :=
  match p, s with
  | EmptyString, _ => true
  | String a p', String b s' => Ascii.eqb (f a) (f b) && prefix_by f p' s'
  | String _ _, EmptyString => false
  end.

Definition startsWith (s p : string) : bool := prefix_by (fun c => c) p s.

(** [s.includes(p)] *)
Fixpoint includes (s p : string) : bool :=
  startsWith s p
  || match s with
     | EmptyString => false
     | String _ s' => includes s' p
     end.

(** The string without its first [n] characters. *)
Fixpoint drop (n : nat) (s : string) : string :=
  match n, s with
  | O, _ => s
  | S n', String _ s' => drop n' s'
  | S _, EmptyString => EmptyString
  end.

(** [s.replace(/needle/gi, repl)] for a literal [needle] ([ci = true]) and
    [s.replace(/needle/g, repl)] ([ci = false]); [repl] has no [$].  [skip]
    counts the characters of the current match still to be passed over. *)
Fixpoint replace_from (ci : bool) (needle repl : string) (skip : nat)
  (s : string) : string :=
  match s with
  | EmptyString => EmptyString
  | String c s' =>
      match skip with
      | S k => replace_from ci needle repl k s'
      | O =>
          if prefix_by (if ci then lower else fun x => x) needle s
          then (repl ++ replace_from ci needle repl
                          (String.length needle - 1) s')%string
          else String c (replace_from ci needle repl 0 s')
      end
  end.

Definition replaceAll (ci : bool) (needle repl s : string) : string :=
  replace_from ci needle repl 0 s.

(** [s.split(sep)] for a separator of one character. *)
Fixpoint split (sep : ascii) (s : string) : list string :=
  match s with
  | EmptyString => [EmptyString]
  | String c s' =>
      if Ascii.eqb c sep then EmptyString :: split sep s'
      else match split sep s' with
           | seg :: rest => String c seg :: rest
           | [] => [String c EmptyString]
           end
  end.

(** [parts.join(sep)] *)
Fixpoint join (sep : string) (parts : list string) : string :=
  match parts with
  | [] => EmptyString
  | [p] => p
  | p :: rest => (p ++ sep ++ join sep rest)%string
  end.

(** [array.pop()] as an expression: the last element. *)
Definition pop (parts : list string) : string := last parts EmptyString.

Fixpoint trimStart (s : string) : string :=
  match s with
  | String c s' => if is_space c then trimStart s' else s
  | EmptyString => EmptyString
  end.

Fixpoint trimEnd (s : string) : string :=
  match s with
  | EmptyString => EmptyString
  | String c s' =>
      match trimEnd s' with
      | EmptyString => if is_space c then EmptyString else String c EmptyString
      | t => String c t
      end
  end.

Definition trim (s : string) : string := trimEnd (trimStart s).

(** [s.replace(/suffix$/i, '')] for a literal [suffix]: a final occurrence
    is removed, whatever its case. *)
Fixpoint stripSuffix (suffix s : string) : string :=
  match s with
  | EmptyString => EmptyString
  | String c s' =>
      if (String.length s =? String.length suffix)%nat
         && prefix_by lower suffix s
      then EmptyString
      else String c (stripSuffix suffix s')
  end.

(** [s.replace(/\{([^}]+)\}/g, '<$1>')]: a brace group with a non-empty
    body becomes an angle group.  [body] looks for the closing brace. *)
Fixpoint brace_body (s : string) : option (string * string) :=
  match s with
  | EmptyString => None
  | String c s' =>
      if Ascii.eqb c "}" then Some (EmptyString, s')
      else match brace_body s' with
           | Some (b, rest) => Some (String c b, rest)
           | None => None
           end
  end.

Fixpoint angle_from (skip : nat) (s : string) : string :=
  match s with
  | EmptyString => EmptyString
  | String c s' =>
      match skip with
      | S k => angle_from k s'
      | O =>
          if Ascii.eqb c "{" then
            match brace_body s' with
            | Some (String b bs, _) =>
                ("<" ++ String b bs ++ ">"
                 ++ angle_from (S (String.length bs) + 1) s')%string
            | _ => String c (angle_from 0 s')
            end
          else String c (angle_from 0 s')
      end
  end.

Definition bracesToAngles (s : string) : string := angle_from 0 s.

(** [s.endsWith(suffix)] *)
Fixpoint endsWith (s suffix : string) : bool :=
  String.eqb s suffix
  || match s with
     | EmptyString => false
     | String _ s' => endsWith s' suffix
     end.

End JsString.

(** ** Regular expressions

    A model of the built-in [RegExp], without the [u] flag, for what [test]
    answers: whether some substring of the subject is matched.  Captures
    play no part in that answer unless the pattern refers back to them, so
    matching works on sets of positions.  The parser covers characters,
    [.], escapes, classes, groups, alternatives, the quantifiers, the
    anchors, word boundaries and look-around.  Left out are the references
    to a group ([\1] .. [\9], [\k]), the octal escapes, [\c] before
    anything but a letter, [\u] beyond the code unit 255 and a group name
    used twice: on a pattern with one of these, as on a pattern the
    constructor refuses with a [SyntaxError], [compile] answers [None], so
    [test] stands for the built-in on the patterns without them. *)

Module RegExp.

Import JsString.

Inductive ClassItem : Type :=
| One (c : ascii)
| Range (lo hi : ascii)
| Digit (neg : bool)      (* \d \D *)
| Space (neg : bool)      (* \s \S *)
| Word (neg : bool).      (* \w \W *)

Inductive Regex : Type :=
| Eps
| Class (neg : bool) (items : list ClassItem)
| Dot
| Seq (r1 r2 : Regex)
| Alt (r1 r2 : Regex)
| Repeat (min : nat) (max : option nat) (r : Regex)
| Bol
| Eol
| Boundary (neg : bool)                      (* \b \B *)
| Look (behind neg : bool) (r : Regex)       (* (?=r) (?!r) (?<=r) (?<!r) *)
| Named (name : string) (r : Regex).         (* (?<name>r) *)

Definition is_word (c : ascii) : bool :=
  is_upper c || is_lower c || is_digit c || Ascii.eqb c "_".

Definition in_range (lo hi c : ascii) : bool :=
  (nat_of_ascii lo <=? nat_of_ascii c)%nat
  && (nat_of_ascii c <=? nat_of_ascii hi)%nat.

(** Does the item contain a character equal to [c], up to case when the
    flag [i] is set? *)
Definition item_matches (ci : bool) (c : ascii) (it : ClassItem) : bool :=
  match it with
  | One a => if ci then Ascii.eqb (upper a) (upper c) else Ascii.eqb a c
  | Range lo hi =>
      in_range lo hi c
      || (ci && (in_range lo hi (upper c) || in_range lo hi (lower c)))
  | Digit neg => xorb neg (is_digit c)
  | Space neg => xorb neg (is_space c)
  | Word neg => xorb neg (is_word c)
  end.

Definition class_matches (ci neg : bool) (items : list ClassItem) (c : ascii)
  : bool :=
  xorb neg (existsb (item_matches ci c) items).

Definition is_line_terminator (c : ascii) : bool :=
  let n := nat_of_ascii c in (n =? 10)%nat || (n =? 13)%nat.

(** *** Matching

    A set of positions of the subject is a list of flags, one per position
    [0 .. n].  [advance f P s]: the positions reached from [P] by reading one
    character that satisfies [f]. *)

Fixpoint zip_and (f : ascii -> bool) (P : list bool) (s : list ascii)
  : list bool :=
  match P, s with
  | b :: P', c :: s' => (b && f c) :: zip_and f P' s'
  | _, _ => []
  end.

Definition advance (f : ascii -> bool) (P : list bool) (s : list ascii)
  : list bool :=
  false :: zip_and f P s.

Fixpoint union (P Q : list bool) : list bool :=
  match P, Q with
  | a :: P', b :: Q' => (a || b) :: union P' Q'
  | [], Q => Q
  | P, [] => P
  end.

Definition only_first (P : list bool) : list bool :=
  match P with
  | b :: P' => b :: map (fun _ => false) P'
  | [] => []
  end.

Fixpoint only_last (P : list bool) : list bool :=
  match P with
  | [] => []
  | [b] => [b]
  | _ :: P' => false :: only_last P'
  end.

(** [iterate k step P]: [P] and what [step] reaches from it in at most [k]
    rounds. *)
Fixpoint iterate (k : nat) (step : list bool -> list bool) (P : list bool)
  : list bool :=
  match k with
  | O => P
  | S k' => union P (iterate k' step (step P))
  end.

Fixpoint power (k : nat) (step : list bool -> list bool) (P : list bool)
  : list bool :=
  match k with
  | O => P
  | S k' => power k' step (step P)
  end.

Fixpoint inter (P Q : list bool) : list bool :=
  match P, Q with
  | a :: P', b :: Q' => (a && b) :: inter P' Q'
  | _, _ => []
  end.

(** Position by position: is exactly one of the characters before and
    after it a word character?  [before] tells it of the character before
    the first position. *)
Fixpoint boundaries (before : bool) (s : list ascii) : list bool :=
  match s with
  | [] => [before]
  | c :: s' => xorb before (is_word c) :: boundaries (is_word c) s'
  end.

(** The set that holds position [i] alone, among [0 .. n]. *)
Definition single (n i : nat) : list bool :=
  map (fun j => (j =? i)%nat) (seq 0 (S n)).

(** The positions where a match of [r] that starts in [P] can end. *)
Fixpoint run (ci : bool) (s : list ascii) (r : Regex) (P : list bool)
  : list bool :=
  match r with
  | Eps => P
  | Class neg items => advance (class_matches ci neg items) P s
  | Dot => advance (fun c => negb (is_line_terminator c)) P s
  | Seq r1 r2 => run ci s r2 (run ci s r1 P)
  | Alt r1 r2 => union (run ci s r1 P) (run ci s r2 P)
  | Repeat min max r' =>
      let P' := power min (run ci s r') P in
      match max with
      | Some m => iterate (m - min) (run ci s r') P'
      | None => iterate (S (List.length s)) (run ci s r') P'
      end
  | Bol => only_first P
  | Eol => only_last P
  | Boundary neg => inter P (map (xorb neg) (boundaries false s))
  | Look false neg r' =>
      (* does a match of [r'] start here? *)
      let n := List.length s in
      inter P
        (map (fun i =>
                xorb neg (existsb (fun b => b) (run ci s r' (single n i))))
           (seq 0 (S n)))
  | Look true neg r' =>
      (* does a match of [r'] end here? *)
      inter P
        (map (xorb neg) (run ci s r' (true :: map (fun _ => true) s)))
  | Named _ r' => run ci s r' P
  end.

(** The names of the groups of an expression. *)
Fixpoint names (r : Regex) : list string :=
  match r with
  | Seq r1 r2 | Alt r1 r2 => names r1 ++ names r2
  | Repeat _ _ r' | Look _ _ r' => names r'
  | Named name r' => name :: names r'
  | _ => []
  end.

Fixpoint distinct (l : list string) : bool :=
  match l with
  | [] => true
  | x :: l' => negb (existsb (String.eqb x) l') && distinct l'
  end.

(** [regex.test(subject)]: a match may start anywhere. *)
Definition matches (ci : bool) (r : Regex) (subject : string) : bool :=
  let s := list_ascii_of_string subject in
  existsb (fun b => b) (run ci s r (true :: map (fun _ => true) s)).

(** *** Parsing *)

Definition digit_value (c : ascii) : nat := nat_of_ascii c - 48.

(** A run of decimal digits: its value and the rest. *)
Fixpoint number (acc : nat) (seen : bool) (s : list ascii)
  : option (nat * list ascii) :=
  match s with
  | c :: s' =>
      if is_digit c then number (10 * acc + digit_value c) true s'
      else if seen then Some (acc, s) else None
  | [] => if seen then Some (acc, s) else None
  end.

(** The quantifier at the head of [s], if there is one: bounds and rest.
    A brace that does not open a quantifier is an ordinary character. *)
Definition quantifier (s : list ascii)
  : option (nat * option nat * list ascii) :=
  let lazy (q : nat * option nat) (rest : list ascii) :=
    match rest with
    | "?"%char :: rest' => Some (q, rest')
    | _ => Some (q, rest)
    end in
  match s with
  | "*"%char :: rest => lazy (0, None) rest
  | "+"%char :: rest => lazy (1, None) rest
  | "?"%char :: rest => lazy (0, Some 1) rest
  | "{"%char :: rest =>
      match number 0 false rest with
      | Some (lo, "}"%char :: rest') => lazy (lo, Some lo) rest'
      | Some (lo, ","%char :: "}"%char :: rest') => lazy (lo, None) rest'
      | Some (lo, ","%char :: rest') =>
          match number 0 false rest' with
          | Some (hi, "}"%char :: rest'') => lazy (lo, Some hi) rest''
          | _ => None
          end
      | _ => None
      end
  | _ => None
  end.

Definition hex_value (c : ascii) : option nat :=
  let n := nat_of_ascii c in
  if is_digit c then Some (n - 48)
  else if (97 <=? n)%nat && (n <=? 102)%nat then Some (n - 87)
  else if (65 <=? n)%nat && (n <=? 70)%nat then Some (n - 55)
  else None.

(** The character or class an escape stands for, in a class and as an atom
    alike: [s] is what follows the backslash.  Without the [u] flag a
    character with no meaning of its own stands for itself, and so do [x]
    and [u] when no hexadecimal digits follow.  [None] for the escapes left
    out. *)
Definition escape (s : list ascii) : option (ClassItem * list ascii) :=
  match s with
  | [] => None
  | c :: rest =>
      match c with
      | "d"%char => Some (Digit false, rest)
      | "D"%char => Some (Digit true, rest)
      | "s"%char => Some (Space false, rest)
      | "S"%char => Some (Space true, rest)
      | "w"%char => Some (Word false, rest)
      | "W"%char => Some (Word true, rest)
      | "n"%char => Some (One (ascii_of_nat 10), rest)
      | "r"%char => Some (One (ascii_of_nat 13), rest)
      | "t"%char => Some (One (ascii_of_nat 9), rest)
      | "v"%char => Some (One (ascii_of_nat 11), rest)
      | "f"%char => Some (One (ascii_of_nat 12), rest)
      | "k"%char => None
      | "c"%char =>
          match rest with
          | l :: rest' =>
              if is_upper l || is_lower l
              then Some (One (ascii_of_nat (nat_of_ascii l mod 32)), rest')
              else None
          | [] => None
          end
      | "x"%char =>
          match rest with
          | h1 :: h2 :: rest' =>
              match hex_value h1, hex_value h2 with
              | Some a, Some b => Some (One (ascii_of_nat (16 * a + b)), rest')
              | _, _ => Some (One c, rest)
              end
          | _ => Some (One c, rest)
          end
      | "u"%char =>
          match rest with
          | h1 :: h2 :: h3 :: h4 :: rest' =>
              match hex_value h1, hex_value h2, hex_value h3, hex_value h4 with
              | Some 0, Some 0, Some a, Some b =>
                  Some (One (ascii_of_nat (16 * a + b)), rest')
              | Some _, Some _, Some _, Some _ => None
              | _, _, _, _ => Some (One c, rest)
              end
          | _ => Some (One c, rest)
          end
      | "0"%char =>
          match rest with
          | d :: _ => if is_digit d then None
                      else Some (One (ascii_of_nat 0), rest)
          | [] => Some (One (ascii_of_nat 0), rest)
          end
      | _ => if is_digit c then None else Some (One c, rest)
      end
  end.

(** An atom of a class: a character or an escape; in a class [\b] is the
    backspace. *)
Definition class_atom (s : list ascii) : option (ClassItem * list ascii) :=
  match s with
  | "\"%char :: "b"%char :: rest => Some (One (ascii_of_nat 8), rest)
  | "\"%char :: rest => escape rest
  | c :: rest => Some (One c, rest)
  | [] => None
  end.

(** The items of a class up to its closing bracket.  An atom, a dash and an
    atom make a range when both atoms are characters, and stand for
    themselves otherwise; a dash before the closing bracket is a dash. *)
Fixpoint class_items (fuel : nat) (s : list ascii)
  : option (list ClassItem * list ascii) :=
  match fuel with
  | O => None
  | S fuel' =>
      match s with
      | [] => None
      | "]"%char :: rest => Some ([], rest)
      | _ =>
          match class_atom s with
          | Some (first, "-"%char :: rest) =>
              match rest with
              | "]"%char :: _ =>
                  match class_items fuel' ("-"%char :: rest) with
                  | Some (its, rest') => Some (first :: its, rest')
                  | None => None
                  end
              | _ =>
                  match first, class_atom rest with
                  | One lo, Some (One hi, rest') =>
                      if (nat_of_ascii lo <=? nat_of_ascii hi)%nat then
                        match class_items fuel' rest' with
                        | Some (its, rest'') => Some (Range lo hi :: its, rest'')
                        | None => None
                        end
                      else None
                  | _, Some (second, rest') =>
                      match class_items fuel' rest' with
                      | Some (its, rest'') =>
                          Some (first :: One "-"%char :: second :: its, rest'')
                      | None => None
                      end
                  | _, None => None
                  end
              end
          | Some (first, rest) =>
              match class_items fuel' rest with
              | Some (its, rest') => Some (first :: its, rest')
              | None => None
              end
          | None => None
          end
      end
  end.

(** The name of a group, up to the closing [>]: an identifier. *)
Fixpoint name_rest (s : list ascii) : option (string * list ascii) :=
  match s with
  | ">"%char :: rest => Some (EmptyString, rest)
  | c :: rest =>
      if is_word c || Ascii.eqb c "$" then
        match name_rest rest with
        | Some (name, rest') => Some (String c name, rest')
        | None => None
        end
      else None
  | [] => None
  end.

Definition group_name (s : list ascii) : option (string * list ascii) :=
  match s with
  | c :: _ =>
      if is_digit c || Ascii.eqb c ">" then None else name_rest s
  | [] => None
  end.

(** How a group opens, and its body: [wrap] is what the group makes of the
    expression of its body, [quantifiable] whether a quantifier may
    follow. *)
Record Opening : Type := {
  wrap : Regex -> Regex;
  quantifiable : bool;
  body : list ascii
}.

Definition group_prefix (s : list ascii) : option Opening :=
  let plain rest :=
    Some {| wrap := fun r => r; quantifiable := true; body := rest |} in
  match s with
  | "?"%char :: ":"%char :: rest => plain rest
  | "?"%char :: "="%char :: rest =>
      Some {| wrap := Look false false; quantifiable := true; body := rest |}
  | "?"%char :: "!"%char :: rest =>
      Some {| wrap := Look false true; quantifiable := true; body := rest |}
  | "?"%char :: "<"%char :: "="%char :: rest =>
      Some {| wrap := Look true false; quantifiable := false; body := rest |}
  | "?"%char :: "<"%char :: "!"%char :: rest =>
      Some {| wrap := Look true true; quantifiable := false; body := rest |}
  | "?"%char :: "<"%char :: rest =>
      match group_name rest with
      | Some (name, rest') =>
          Some {| wrap := Named name; quantifiable := true; body := rest' |}
      | None => None
      end
  | "?"%char :: _ => None
  | _ => plain s
  end.

Definition quantified (r : Regex) (s : list ascii)
  : option (Regex * list ascii) :=
  match quantifier s with
  | Some (lo, Some hi, rest) =>
      if (lo <=? hi)%nat then Some (Repeat lo (Some hi) r, rest) else None
  | Some (lo, None, rest) => Some (Repeat lo None r, rest)
  | None => Some (r, s)
  end.

(** Alternatives, sequences and quantified atoms. *)
Fixpoint disjunction (fuel : nat) (s : list ascii)
  : option (Regex * list ascii) :=
  match fuel with
  | O => None
  | S fuel' =>
      match alternative fuel' s with
      | Some (r1, "|"%char :: rest) =>
          match disjunction fuel' rest with
          | Some (r2, rest') => Some (Alt r1 r2, rest')
          | None => None
          end
      | other => other
      end
  end

with alternative (fuel : nat) (s : list ascii)
  : option (Regex * list ascii) :=
  match fuel with
  | O => None
  | S fuel' =>
      match s with
      | [] => Some (Eps, s)
      | "|"%char :: _ => Some (Eps, s)
      | ")"%char :: _ => Some (Eps, s)
      | _ =>
          match term fuel' s with
          | Some (r1, rest) =>
              match alternative fuel' rest with
              | Some (r2, rest') => Some (Seq r1 r2, rest')
              | None => None
              end
          | None => None
          end
      end
  end

with term (fuel : nat) (s : list ascii) : option (Regex * list ascii) :=
  match fuel with
  | O => None
  | S fuel' =>
      match s with
      | [] => None
      | "^"%char :: rest => Some (Bol, rest)
      | "$"%char :: rest => Some (Eol, rest)
      | "*"%char :: _ => None
      | "+"%char :: _ => None
      | "?"%char :: _ => None
      | "."%char :: rest => quantified Dot rest
      | "("%char :: rest =>
          match group_prefix rest with
          | Some opening =>
              match disjunction fuel' (body opening) with
              | Some (r, ")"%char :: rest') =>
                  if quantifiable opening
                  then quantified (wrap opening r) rest'
                  else Some (wrap opening r, rest')
              | _ => None
              end
          | None => None
          end
      | "["%char :: "^"%char :: rest =>
          match class_items (S (List.length rest)) rest with
          | Some (items, rest') => quantified (Class true items) rest'
          | None => None
          end
      | "["%char :: rest =>
          match class_items (S (List.length rest)) rest with
          | Some (items, rest') => quantified (Class false items) rest'
          | None => None
          end
      | "\"%char :: "b"%char :: rest => Some (Boundary false, rest)
      | "\"%char :: "B"%char :: rest => Some (Boundary true, rest)
      | "\"%char :: rest =>
          match escape rest with
          | Some (it, rest') => quantified (Class false [it]) rest'
          | None => None
          end
      | "{"%char :: rest =>
          match quantifier s with
          | Some _ => None
          | None => quantified (Class false [One "{"%char]) rest
          end
      | c :: rest => quantified (Class false [One c]) rest
      end
  end.

(** [new RegExp(pattern, flags)] *)
Definition compile (pattern : string) : option Regex :=
  let s := list_ascii_of_string pattern in
  match disjunction (4 * List.length s + 4) s with
  | Some (r, []) => if distinct (names r) then Some r else None
  | _ => None
  end.

(** [new RegExp(pattern, ignoreCase ? 'i' : '').test(subject)]; [None]
    when the constructor throws. *)
Definition test (pattern : string) (ignoreCase : bool) (subject : string)
  : option bool :=
  match compile pattern with
  | Some r => Some (matches ignoreCase r subject)
  | None => None
  end.

End RegExp.

(** ** Header Reader: [extractBasicPSDInfo]

    The reader is written in a small monad that threads the list of byte
    positions read so far, so that the accesses of a run can be inspected. *)

Module Header.

Record BasicInfo : Type := {
  width : Z;
  height : Z;
  bitDepth : Z;
  colorMode : string;
  version : Z;
  rawColorMode : Z
}.

Definition colorModes : list (Z * string) :=
  [ (0, "Bitmap"); (1, "Grayscale"); (2, "Indexed"); (3, "RGB");
    (4, "CMYK"); (7, "Multichannel"); (8, "Duotone"); (9, "Lab") ]%Z.

Definition byte_value (b : byte) : Z := Z.of_N (Byte.to_N b).

(** An operand of a bitwise operator: [undefined] converts to [0]. *)
Definition operand (b : option byte) : Z :=
  match b with Some x => byte_value x | None => 0%Z end.

(** A computation that reads the buffer: the log of positions read so far
    goes in and comes out, also when the computation throws. *)
Definition Access (A : Type) : Type := list nat -> Completion A * list nat.

Definition ret {A} (a : A) : Access A := fun log => (Normal a, log).

Definition throw {A} (e : Exception) : Access A := fun log => (Throw e, log).

Definition bind {A B} (m : Access A) (k : A -> Access B) : Access B :=
  fun log =>
    match m log with
    | (Normal a, log') => k a log'
    | (Throw e, log') => (Throw e, log')
    end.

(** [try { body } catch (error) { handler }] *)
Definition try_catch {A} (body : Access A) (handler : Exception -> Access A)
  : Access A :=
  fun log =>
    match body log with
    | (Normal a, log') => (Normal a, log')
    | (Throw e, log') => handler e log'
    end.

Notation "x <- m ;; k" := (bind m (fun x => k))
  (at level 61, m at next level, right associativity).

Section Reader.

Variable data : list byte.

(** [data[i]]: the element, or [undefined] past the end. *)
Definition index (i : nat) : Access (option byte) :=
  fun log => (Normal (nth_error data i), log ++ [i]).

(** [data.slice(start, end)]: the end is clamped to the length. *)
Definition slice (start stop : nat) : Access (list byte) :=
  fun log =>
    let stop' := Nat.min stop (List.length data) in
    (Normal (firstn (stop' - start) (skipn start data)),
     log ++ seq start (stop' - start)).

(** Big-endian value of a run of bytes. *)
Definition big_endian (bs : list byte) : Z :=
  fold_left (fun acc b => (acc * 256 + byte_value b)%Z) bs 0%Z.

(** [view.getUintN(offset, false)] on [new DataView(data.buffer,
    data.byteOffset)], [size] bytes wide.  The view starts where [data]
    starts; a read that does not fit throws [RangeError]. *)
Definition getUint (size offset : nat) : Access Z :=
  fun log =>
    if (offset + size <=? List.length data)%nat
    then (Normal (big_endian (firstn size (skipn offset data))),
          log ++ seq offset size)
    else (Throw (RangeError "Offset is outside the bounds of the DataView"),
          log).

Definition getUint16 := getUint 2.
Definition getUint32 := getUint 4.

(** [String.fromCharCode(...bytes)] *)
Definition fromCharCode (bs : list byte) : string := string_of_list_byte bs.

Definition extractBasicPSDInfo_reads : Access BasicInfo :=
  if (List.length data <? 26)%nat then
    throw (Error "File too small to be a PSD")
  else
    try_catch
      (sig <- slice 0 4 ;;
       if negb (String.eqb (fromCharCode sig) "8BPS") then
         throw (Error "Invalid PSD signature")
       else
         version <- getUint16 4 ;;
         height <- getUint32 14 ;;
         width <- getUint32 18 ;;
         depth <- getUint16 22 ;;
         colorMode <- getUint16 24 ;;
         if ((width <=? 0) || (height <=? 0)
             || (width >? 30000) || (height >? 30000))%Z then
           throw (Error "Invalid dimensions detected")
         else if (negb (depth =? 1) && negb (depth =? 8)
                  && negb (depth =? 16) && negb (depth =? 32))%Z then
           throw (Error "Invalid bit depth detected")
         else
           ret {| width := width;
                  height := height;
                  bitDepth := depth;
                  colorMode :=
                    match lookup colorModes colorMode with
                    | Some name => name
                    | None => ("Unknown (" ++ string_of_Z colorMode ++ ")")%string
                    end;
                  version := version;
                  rawColorMode := colorMode |})
      (fun error =>
         b18 <- index 18 ;; b19 <- index 19 ;;
         b20 <- index 20 ;; b21 <- index 21 ;;
         let width :=
           bor (bor (bor (shl (operand b18) 24) (shl (operand b19) 16))
                    (shl (operand b20) 8)) (operand b21) in
         b14 <- index 14 ;; b15 <- index 15 ;;
         b16 <- index 16 ;; b17 <- index 17 ;;
         let height :=
           bor (bor (bor (shl (operand b14) 24) (shl (operand b15) 16))
                    (shl (operand b16) 8)) (operand b17) in
         b22 <- index 22 ;; b23 <- index 23 ;;
         let depth := bor (shl (operand b22) 8) (operand b23) in
         b24 <- index 24 ;; b25 <- index 25 ;;
         let colorMode := bor (shl (operand b24) 8) (operand b25) in
         if ((width >? 0) && (height >? 0)
             && (width <? 30000) && (height <? 30000))%Z then
           ret {| width := width;
                  height := height;
                  bitDepth := or_num depth 8;
                  colorMode :=
                    match lookup colorModes colorMode with
                    | Some name => name
                    | None => "RGB"
                    end;
                  version := 1;
                  rawColorMode := colorMode |}
         else
           throw error).

(** The result of the call, and the positions it read. *)
Definition extractBasicPSDInfo : Completion BasicInfo :=
  fst (extractBasicPSDInfo_reads []).

Definition positions_read : list nat :=
  snd (extractBasicPSDInfo_reads []).

End Reader.

(** The three error kinds of the reader, by the message thrown. *)
Definition TooSmall : Exception := Error "File too small to be a PSD".
Definition InvalidSignature : Exception := Error "Invalid PSD signature".

Definition InvalidHeader (e : Exception) : Prop :=
  e = Error "Invalid dimensions detected"
  \/ e = Error "Invalid bit depth detected".

(** Test buffers are written as lists of byte values. *)
Definition bytes (l : list N) : list byte :=
  map (fun n => match Byte.of_N n with Some b => b | None => x00 end) l.

End Header.

(** ** The parsed document tree

    What the external decoder ([readPsd] of ag-psd) returns, restricted to
    the properties the grading code looks at.  A property that may be absent
    is an [option]; an object that is only tested for presence is a [bool].
    Numbers are integral. *)

Module Psd.

Record TextStyle : Type := {
  font : option string;
  fontSize : option Z;
  fontName : option string;
  fillColor : option string;
  fontFamily : option string
}.

Record StyleSheetData : Type := {
  Font : option string;
  FontSize : option Z
}.

(** An entry of [EngineDict.StyleRun.RunArray]: [run.StyleSheet] and
    [run.StyleSheet.StyleSheetData] may each be absent. *)
Record Run : Type := {
  StyleSheet : option (option StyleSheetData)
}.

Record LayerText : Type := {
  text_text : option string;
  style : option TextStyle;
  (** [document.engineData.EngineDict.StyleRun.RunArray]; [None] when a link
      of the chain is missing. *)
  RunArray : option (list Run);
  styles : option (list TextStyle)
}.

Inductive Layer : Type := mkLayer {
  name : option string;
  hidden : option bool;
  opacity : option Z;
  blendMode : option string;
  text : option LayerText;
  adjustment : option (list string);   (* the keys of the object *)
  effects : option (list string);      (* the keys of the object *)
  mask : bool;
  placedLayer : bool;
  vectorMask : bool;
  vectorStroke : bool;
  children : option (list Layer)
}.

Record ResolutionInfo : Type := {
  horizontalResolution : option Z
}.

(** The root object of a decoded document, [Children] being what is known
    of its [children] property. *)
Record PsdOf (Children : Type) : Type := {
  psd_width : option Z;
  psd_height : option Z;
  psd_colorMode : option Z;
  bitsPerChannel : option Z;
  channels : option Z;
  psd_children : Children;
  (** [imageResources.resolutionInfo], when both are present *)
  resolutionInfo : option ResolutionInfo;
  (** [thumbnail] and [imageData]: the [length] of the datum when present *)
  thumbnail : option (option Z);
  (** [canvas]: the outcome of its [toDataURL('image/png')] *)
  canvas : option (Completion string);
  imageData : option (option Z)
}.

(** A document whose layers can be walked to the end: [children] is absent
    or an array of layers, and every property that the walk reads is
    there to be read. *)
Definition Psd : Type := PsdOf (option (list Layer)).

(** What is read of the [children] of a document whose walk has thrown:
    whether the property is truthy, whether it has a [map] method, and
    what reading the [name] of each entry gives (an entry that is [null]
    throws). *)
Inductive Entries : Type :=
| Absent
| Listed (names : list (Completion (option string)))
| Unlistable (e : Exception).

(** What [readPsd] returns: a document that [extractLayers] walks to the
    end, or one on which the walk throws [layerError] (an entry of a
    [styles] array that is [null], a [children] that is no array, ...). *)
Inductive Decoded : Type :=
| Tree (psd : Psd)
| Unwalkable (layerError : Exception) (psd : PsdOf Entries).

(** The options object passed to [readPsd]; an absent flag is [false]. *)
Record ReadOptions : Type := {
  skipLayerImageData : bool;
  skipCompositeImageData : bool;
  skipThumbnail : bool;
  skipLayers : bool;
  logMissingFeatures : bool;
  logDevFeatures : bool;
  throwForMissingFeatures : bool
}.

End Psd.

(** ** [file-processor.js]: analysis *)

Module FileProcessor.

Import Header JsString.

Inductive LayerType : Type :=
| text | adjustment | smartObject | shape | group | raster | unknown.

(** An entry of the extracted layer sequence.  The properties the code adds
    only on some paths are [option]s or flags that default to [false]. *)
Record LayerInfo : Type := {
  name : string;
  type : LayerType;
  visible : bool;
  opacity : option Z;
  blendMode : option string;
  depth : option nat;
  isText : bool;
  textContent : option string;
  fontSize : option Z;
  fontName : option string;
  fontColor : option string;
  fontFamily : option string;
  fontPostScriptName : option string;
  fontSizePoints : option Z;
  isAdjustment : bool;
  adjustmentType : option string;
  hasEffects : bool;
  effects : option (list string);
  hasMask : bool;
  isSmartObject : bool;
  isVector : bool
}.

Record Analysis : Type := {
  filename : string;
  originalFilename : string;
  width : Z;
  height : Z;
  colorMode : string;
  bitDepth : Z;
  resolution : Z;
  hasTransparency : bool;
  layerCount : nat;
  layerNames : list string;
  layers : list LayerInfo;
  fileSize : nat;
  parseNote : option string;
  thumbnail : option string;
  (** absent ([None]) on every path but the header-only one *)
  isLimitedParse : option bool
}.

Definition createFallbackAnalysis
  (basicInfo : BasicInfo) (filename : string) (fileSize : nat) (note : string)
  : Analysis :=
  {| filename := filename;
     originalFilename := filename;
     width := Header.width basicInfo;
     height := Header.height basicInfo;
     colorMode := Header.colorMode basicInfo;
     bitDepth := Header.bitDepth basicInfo;
     resolution := 72;
     hasTransparency :=
       if String.eqb (Header.colorMode basicInfo) "CMYK" then false else true;
     layerCount := 1;
     layerNames := ["Background"];
     layers :=
       [ {| name := "Background"; type := raster; visible := true;
            opacity := Some 255%Z; blendMode := Some "normal";
            depth := None; isText := false; textContent := None;
            fontSize := None; fontName := None; fontColor := None;
            fontFamily := None; fontPostScriptName := None;
            fontSizePoints := None; isAdjustment := false;
            adjustmentType := None; hasEffects := false; effects := None;
            hasMask := false; isSmartObject := false; isVector := false |} ];
     fileSize := fileSize;
     parseNote := Some note;
     thumbnail := None;
     isLimitedParse := Some true |}.

Definition is_some {A} (o : option A) : bool :=
  match o with Some _ => true | None => false end.

Definition getLayerType (layer : Psd.Layer) : LayerType :=
  if is_some (Psd.text layer) then text
  else if is_some (Psd.adjustment layer) then adjustment
  else if Psd.placedLayer layer then smartObject
  else if Psd.vectorMask layer || Psd.vectorStroke layer then shape
  else if is_some (Psd.children layer) then group
  else raster.

(** [if (v) x = v]: a truthy value overrides, a falsy one leaves [x]. *)
Definition override_string (v x : option string) : option string :=
  if truthy_string v then v else x.

Definition override_num (v x : option Z) : option Z :=
  if truthy_num v then v else x.

(** The first style of the engine data: [styleRun[0].StyleSheet.
    StyleSheetData]; reading through an absent link throws, and the
    surrounding [try] swallows it, leaving both properties unset. *)
Definition firstStyle (runs : option (list Psd.Run)) : option Psd.StyleSheetData :=
  match runs with
  | Some (run :: _) =>
      match Psd.StyleSheet run with
      | Some (Some data) => Some data
      | _ => None
      end
  | _ => None
  end.

(** The record [processLayer] pushes for one layer. *)
Definition layerInfo (layer : Psd.Layer) (depth : nat) : LayerInfo :=
  let t := Psd.text layer in
  let st := match t with Some t => Psd.style t | None => None end in
  let fs := match t with Some t => firstStyle (Psd.RunArray t) | None => None end in
  let s0 := match t with
            | Some t => match Psd.styles t with
                        | Some (s :: _) => Some s
                        | _ => None
                        end
            | None => None
            end in
  let from {A B} (o : option A) (f : A -> option B) : option B :=
    match o with Some x => f x | None => None end in
  {| name := or_string (Psd.name layer) "Unnamed Layer";
     type := getLayerType layer;
     visible := match Psd.hidden layer with Some true => false | _ => true end;
     opacity := Some (or_default (Psd.opacity layer) 255);
     blendMode := Some (or_string (Psd.blendMode layer) "normal");
     depth := Some depth;
     isText := is_some t;
     textContent :=
       match t with
       | Some t => Some (or_string (Psd.text_text t) "")
       | None => None
       end;
     fontSize := override_num (from s0 Psd.fontSize) (from st Psd.fontSize);
     fontName := override_string (from s0 Psd.font) (from st Psd.fontName);
     fontColor := from st Psd.fillColor;
     fontFamily :=
       override_string (from s0 Psd.fontFamily) (from st Psd.fontFamily);
     fontPostScriptName := override_string (from fs Psd.Font) None;
     fontSizePoints := override_num (from fs Psd.FontSize) None;
     isAdjustment := is_some (Psd.adjustment layer);
     adjustmentType :=
       match Psd.adjustment layer with
       | Some (key :: _) => Some key
       | _ => None
       end;
     hasEffects := is_some (Psd.effects layer);
     effects := Psd.effects layer;
     hasMask := Psd.mask layer;
     isSmartObject := Psd.placedLayer layer;
     isVector := Psd.vectorMask layer || Psd.vectorStroke layer |}.

(** [processLayer(layer, depth)]: the records pushed on [layers], in the
    order of the pushes: the layer itself, then its children in order. *)
Fixpoint processLayer (layer : Psd.Layer) (depth : nat) : list LayerInfo :=
  layerInfo layer depth ::
  match Psd.children layer with
  | Some cs => flat_map (fun child => processLayer child (S depth)) cs
  | None => []
  end.

Definition extractLayers (psd : Psd.Psd) : list LayerInfo :=
  let layers :=
    match Psd.psd_children psd with
    | Some cs => flat_map (fun layer => processLayer layer 0) cs
    | None => []
    end in
  rev layers.

Definition pngPlaceholder : string :=
  "data:image/png;base64,iVBORw0KGgoAAAANSUhEUgAAAAEAAAABCAYAAAAfFcSJAAAADUlEQVR42mNkYPhfDwAChwGA60e6kgAAAABJRU5ErkJggg==".

(** [imageDataToBase64]: the datum is truthy here; [length > 0] decides. *)
Definition imageDataToBase64 (len : option Z) : option string :=
  match len with
  | Some n => if (n >? 0)%Z then Some pngPlaceholder else None
  | None => None
  end.

Definition canvasToBase64 (c : Completion string) : option string :=
  match c with Normal url => Some url | Throw _ => None end.

Definition generateThumbnail (Children : Type) (psd : Psd.PsdOf Children)
  : option string :=
  match Psd.thumbnail psd with
  | Some len => imageDataToBase64 len
  | None =>
      match Psd.canvas psd with
      | Some c => canvasToBase64 c
      | None =>
          match Psd.imageData psd with
          | Some len => imageDataToBase64 len
          | None => None
          end
      end
  end.

(** The record that the second half of [analyzePSDData] returns, once
    [layers] and [layerNames] are settled. *)
Definition analysisWith (Children : Type) (psd : Psd.PsdOf Children)
  (layers : list LayerInfo) (layerNames : list string)
  (filename : string) (fileSize : nat) (parseError : option string)
  : Analysis :=
  let colorMode :=
    match Psd.psd_colorMode psd with
    | Some code =>
        match lookup colorModes code with
        | Some m => m
        | None => ("Unknown (" ++ string_of_Z code ++ ")")%string
        end
    | None => "Unknown (undefined)"
    end in
  {| filename := filename;
     originalFilename := filename;
     width := or_default (Psd.psd_width psd) 0;
     height := or_default (Psd.psd_height psd) 0;
     colorMode := colorMode;
     bitDepth := or_default (Psd.bitsPerChannel psd) 8;
     resolution :=
       match Psd.resolutionInfo psd with
       | Some info => or_default (Psd.horizontalResolution info) 72
       | None => 72%Z
       end;
     hasTransparency :=
       match Psd.channels psd with
       | Some n => (n >=? 4)%Z
       | None => false
       end;
     layerCount := List.length layers;
     layerNames := layerNames;
     layers := layers;
     fileSize := fileSize;
     parseNote := parseError;
     thumbnail := generateThumbnail psd;
     isLimitedParse := None |}.

(** The analysis built from a decoded tree: the second half of
    [analyzePSDData] when the walk of the layers completes. *)
Definition analysisOfPsd
  (psd : Psd.Psd) (filename : string) (fileSize : nat)
  (parseError : option string) : Analysis :=
  let layers := extractLayers psd in
  let layerNames :=
    map (fun layer => if String.eqb (name layer) "" then "Unnamed Layer"
                      else name layer) layers in
  analysisWith psd layers layerNames filename fileSize parseError.

(** The [catch (layerError)] path.
    [psd.children.map((layer, index) => layer.name || `Layer ${index + 1}`)],
    from [index] on: the first entry whose [name] cannot be read ends the
    call. *)
Fixpoint fallbackNames (index : nat)
  (entries : list (Completion (option string)))
  : Completion (list string) :=
  match entries with
  | [] => Normal []
  | Throw e :: _ => Throw e
  | Normal name :: rest =>
      match fallbackNames (S index) rest with
      | Normal names =>
          Normal (or_string name
                    ("Layer " ++ string_of_Z (Z.of_nat (index + 1)))%string
                  :: names)
      | Throw e => Throw e
      end
  end.

(** [{ name: layer.name || 'Unnamed Layer', type: 'unknown', visible: true }] *)
Definition unknownLayer (name : option string) : LayerInfo :=
  {| name := or_string name "Unnamed Layer"; type := unknown;
     visible := true; opacity := None; blendMode := None; depth := None;
     isText := false; textContent := None; fontSize := None;
     fontName := None; fontColor := None; fontFamily := None;
     fontPostScriptName := None; fontSizePoints := None;
     isAdjustment := false; adjustmentType := None; hasEffects := false;
     effects := None; hasMask := false; isSmartObject := false;
     isVector := false |}.

Fixpoint fallbackLayers (entries : list (Completion (option string)))
  : Completion (list LayerInfo) :=
  match entries with
  | [] => Normal []
  | Throw e :: _ => Throw e
  | Normal name :: rest =>
      match fallbackLayers rest with
      | Normal layers => Normal (unknownLayer name :: layers)
      | Throw e => Throw e
      end
  end.

(** The second half of [analyzePSDData], from the object the ladder ends
    with.  What is thrown outside the inner [try] blocks is wrapped by the
    outer [catch]. *)
Definition analysisOfDecoded
  (decoded : Psd.Decoded) (filename : string) (fileSize : nat)
  (parseError : option string) : Completion Analysis :=
  match decoded with
  | Psd.Tree psd => Normal (analysisOfPsd psd filename fileSize parseError)
  | Psd.Unwalkable layerError psd =>
      let failed (error : Exception) : Completion Analysis :=
        Throw (Error ("Failed to extract PSD metadata: "
                      ++ message error)%string) in
      match Psd.psd_children psd with
      | Psd.Absent =>
          Normal (analysisWith psd [] [] filename fileSize parseError)
      | Psd.Unlistable error => failed error
      | Psd.Listed entries =>
          match fallbackNames 0 entries with
          | Throw error => failed error
          | Normal layerNames =>
              match fallbackLayers entries with
              | Throw error => failed error
              | Normal layers =>
                  Normal (analysisWith psd layers layerNames filename
                            fileSize parseError)
              end
          end
      end
  end.

Section Ladder.

(** The external full decoder. *)
Variable readPsd : list byte -> Psd.ReadOptions -> Completion Psd.Decoded.

Definition parseAttempts (uint8Data : list byte)
  : list (unit -> Completion Psd.Decoded) :=
  [ (fun _ => readPsd uint8Data
       {| Psd.skipLayerImageData := true;
          Psd.skipCompositeImageData := false;
          Psd.skipThumbnail := false;
          Psd.skipLayers := false;
          Psd.logMissingFeatures := false;
          Psd.logDevFeatures := false;
          Psd.throwForMissingFeatures := false |});
    (fun _ => readPsd uint8Data
       {| Psd.skipLayerImageData := true;
          Psd.skipCompositeImageData := true;
          Psd.skipThumbnail := true;
          Psd.skipLayers := false;
          Psd.logMissingFeatures := false;
          Psd.logDevFeatures := false;
          Psd.throwForMissingFeatures := false |});
    (fun _ => readPsd uint8Data
       {| Psd.skipLayerImageData := true;
          Psd.skipCompositeImageData := true;
          Psd.skipThumbnail := true;
          Psd.skipLayers := true;
          Psd.logMissingFeatures := false;
          Psd.logDevFeatures := false;
          Psd.throwForMissingFeatures := false |}) ].

(** How the [for] loop over the attempts ends. *)
Inductive LoopExit : Type :=
| Break (psd : Psd.Decoded) (parseError : option string)
| Return (analysis : Analysis)
| Raise (e : Exception)
| Done (parseError : option string).

(** The loop from index [i] on, [rest] being the attempts not yet made. *)
Fixpoint ladder
  (basicInfo : option BasicInfo) (filename : string) (fileSize : nat)
  (rest : list (unit -> Completion Psd.Decoded)) (i : nat)
  (parseError : option string) : LoopExit :=
  match rest with
  | [] => Done parseError
  | attempt :: rest' =>
      match attempt tt with
      | Normal psd =>
          Break psd
            (if (0 <? i)%nat
             then Some ("Used fallback parsing method "
                        ++ string_of_Z (Z.of_nat (i + 1)))%string
             else parseError)
      | Throw error =>
          let parseError := message error in
          match rest' with
          | [] =>
              match basicInfo with
              | Some info =>
                  Return (createFallbackAnalysis info filename fileSize
                            (Header.colorMode info
                             ++ " file - header analysis only")%string)
              | None =>
                  Raise (Error ("Unable to analyze PSD file: "
                                ++ parseError)%string)
              end
          | _ :: _ =>
              ladder basicInfo filename fileSize rest' (S i) (Some parseError)
          end
      end
  end.

Definition analyzePSDData (psdData : list byte) (filename : string)
  : Completion Analysis :=
  let uint8Data := psdData in
  let basicInfo :=
    match extractBasicPSDInfo uint8Data with
    | Normal info => Some info
    | Throw _ => None
    end in
  match ladder basicInfo filename (List.length uint8Data)
          (parseAttempts uint8Data) 0 None with
  | Return analysis => Normal analysis
  | Raise e => Throw e
  | Done _ => Throw (Error "Failed to parse PSD file: No data extracted")
  | Break psd parseError =>
      analysisOfDecoded psd filename (List.length psdData) parseError
  end.

End Ladder.

(** *** Filename check and scoring *)

(** [s.replace(/[.*+?^${}()|\[\]\\]/g, '\\$&')] *)
Definition is_special (c : ascii) : bool :=
  existsb (Ascii.eqb c)
    (list_ascii_of_string ".*+?^${}()|[]\").

Fixpoint escapeRegExp (s : string) : string :=
  match s with
  | EmptyString => EmptyString
  | String c s' =>
      if is_special c then String "\" (String c (escapeRegExp s'))
      else String c (escapeRegExp s')
  end.

(** The first [replace] chain of the placeholder branch. *)
Definition protectPlaceholders (checkPattern : string) : string :=
  replaceAll true "{ANY}" "<<<ANY>>>"
    (replaceAll true "{NUMBER}" "<<<NUMBER>>>"
       (replaceAll true "{ASSIGNMENT}" "<<<ASSIGNMENT>>>"
          (replaceAll true "{FIRSTNAME}" "<<<FIRSTNAME>>>"
             (replaceAll true "{LASTNAME}" "<<<LASTNAME>>>"
                (replaceAll true "{CLASS}" "<<<CLASS>>>" checkPattern))))).

(** The second [replace] chain; the two copies of the code differ in the
    fragment for ASSIGNMENT only. *)
Definition expandPlaceholders (assignment escapedPattern : string) : string :=
  replaceAll false "<<<ANY>>>" "(.+)"
    (replaceAll false "<<<NUMBER>>>" "(\d+)"
       (replaceAll false "<<<ASSIGNMENT>>>" assignment
          (replaceAll false "<<<FIRSTNAME>>>" "([A-Za-z]+)"
             (replaceAll false "<<<LASTNAME>>>" "([A-Za-z]+)"
                (replaceAll false "<<<CLASS>>>"
                   "([A-Za-z]{2,5}[\s-]?\d{2,4})" escapedPattern))))).

(** [filename.split('/').pop().split('\\').pop()] *)
Definition baseFilename (filename : string) : string :=
  pop (split "\" (pop (split "/" filename))).

Record Criteria : Type := {
  (** [parseInt] of the property; [None] for [NaN] *)
  pointsPerCriterion : option Z;
  enableFilenameSection : bool;
  filenamePoints : option Z;
  filenamePattern : string;
  filenamePatternType : string;
  filenameCaseSensitive : string;
  reqWidth : option Z;
  reqHeight : option Z;
  reqColorMode : string;
  minLayers : option Z;
  reqLayers : option string
}.

Record CriterionCheck : Type := {
  criterion : string;
  expected : string;
  actual : string;
  passed : bool;
  points : Z;
  requiredLayers : option (list string);
  foundLayers : option (list string)
}.

Record GradingResult : Type := {
  result_filename : string;
  result_originalFilename : string;
  score : Z;
  maxScore : Z;
  percentage : Z;
  checks : list CriterionCheck;
  analysis : Analysis
}.

(** [Math.round((score / maxScore) * 100)], for [maxScore <> 0]: the
    quotient and the product are doubles, so that 23 of 40 points make 57
    percent (the product is 57.49999999999999) and not 58. *)
Definition roundedPercent (score maxScore : Z) : Z :=
  Number.round (Number.mul (Number.div score maxScore) 100).

(** The running totals of [gradeFile]: [score], [maxScore], [checks]. *)
Definition Totals : Type := (Z * Z * list CriterionCheck)%type.

(** One rule that is switched on: [maxScore += points], [if (passed) score
    += points], [checks.push(...)]. *)
Definition evaluate (pts : Z) (ok : bool) (check : Z -> CriterionCheck)
  (t : Totals) : Totals :=
  let '(score, maxScore, checks) := t in
  ((if ok then score + pts else score)%Z,
   (maxScore + pts)%Z,
   checks ++ [check (if ok then pts else 0%Z)]).

Section Checker.

(** The built-in [new RegExp(pattern, ignoreCase ? 'i' : '').test(subject)];
    [None] when the constructor throws. *)
Variable RegExp_test : string -> bool -> string -> option bool.

Definition regexTest (pattern : string) (ignoreCase : bool) (subject : string)
  : bool :=
  match RegExp_test pattern ignoreCase subject with
  | Some b => b
  | None => false
  end.

Definition checkFilename (filename pattern patternType caseSensitive : string)
  : bool :=
  let baseFilename := baseFilename filename in
  let nameWithoutExt := stripSuffix ".psd" baseFilename in
  let sensitive := String.eqb caseSensitive "yes" in
  let checkName :=
    if sensitive then nameWithoutExt else toLowerCase nameWithoutExt in
  let checkPattern := if sensitive then pattern else toLowerCase pattern in
  if String.eqb patternType "exact" then
    String.eqb checkName checkPattern
  else if String.eqb patternType "contains" then
    includes checkName checkPattern
  else if String.eqb patternType "regex" then
    regexTest pattern (negb sensitive) nameWithoutExt
  else
    let protectedPattern := protectPlaceholders checkPattern in
    let escapedPattern := escapeRegExp protectedPattern in
    let regexPattern :=
      expandPlaceholders "([A-Za-z]*\d[A-Za-z0-9]*)" escapedPattern in
    regexTest ("^" ++ regexPattern ++ "$")%string (negb sensitive) checkName.

Definition gradeFile (analysis : Analysis) (criteria : Criteria)
  : GradingResult :=
  let pointsPerCriterion := or_default (pointsPerCriterion criteria) 20 in
  let plain c e a ok p :=
    {| criterion := c; expected := e; actual := a; passed := ok;
       points := p; requiredLayers := None; foundLayers := None |} in
  let t0 : Totals := (0%Z, 0%Z, []) in
  (* Filename check *)
  let t1 :=
    if enableFilenameSection criteria then
      let filenamePoints := or_default (filenamePoints criteria) 10 in
      let ok :=
        checkFilename (originalFilename analysis) (filenamePattern criteria)
          (filenamePatternType criteria) (filenameCaseSensitive criteria) in
      let expectedDisplay :=
        if String.eqb (filenamePatternType criteria) "custom"
           || includes (filenamePatternType criteria) "_"
        then bracesToAngles (filenamePattern criteria)
        else filenamePattern criteria in
      evaluate filenamePoints ok
        (plain "Filename" expectedDisplay
           (stripSuffix ".psd" (originalFilename analysis)) ok) t0
    else t0 in
  (* Width check *)
  let t2 :=
    match reqWidth criteria with
    | Some w =>
        if negb (w =? 0)%Z then
          let ok := (width analysis =? w)%Z in
          evaluate pointsPerCriterion ok
            (plain "Width" (string_of_Z w ++ "px")%string
               (string_of_Z (width analysis) ++ "px")%string ok) t1
        else t1
    | None => t1
    end in
  (* Height check *)
  let t3 :=
    match reqHeight criteria with
    | Some h =>
        if negb (h =? 0)%Z then
          let ok := (height analysis =? h)%Z in
          evaluate pointsPerCriterion ok
            (plain "Height" (string_of_Z h ++ "px")%string
               (string_of_Z (height analysis) ++ "px")%string ok) t2
        else t2
    | None => t2
    end in
  (* Color mode check *)
  let t4 :=
    if negb (String.eqb (reqColorMode criteria) "") then
      let ok := String.eqb (colorMode analysis) (reqColorMode criteria) in
      evaluate pointsPerCriterion ok
        (plain "Color Mode" (reqColorMode criteria) (colorMode analysis) ok) t3
    else t3 in
  (* Minimum layers check *)
  let t5 :=
    match minLayers criteria with
    | Some m =>
        if negb (m =? 0)%Z then
          let ok := (Z.of_nat (layerCount analysis) >=? m)%Z in
          evaluate pointsPerCriterion ok
            (plain "Minimum Layers" (string_of_Z m ++ "+ layers")%string
               (string_of_Z (Z.of_nat (layerCount analysis)) ++ " layers")%string
               ok) t4
        else t4
    | None => t4
    end in
  (* Required layer names check *)
  let t6 :=
    match reqLayers criteria with
    | Some names =>
        if (0 <? String.length names)%nat then
          let required :=
            filter (fun s => negb (String.eqb s ""))
              (map trim (split "," names)) in
          let found :=
            filter
              (fun reqLayer =>
                 existsb
                   (fun layer =>
                      includes (toLowerCase layer) (toLowerCase reqLayer))
                   (layerNames analysis))
              required in
          let ok := (List.length found =? List.length required)%nat in
          evaluate pointsPerCriterion ok
            (fun p =>
               {| criterion := "Required Layers";
                  expected := join ", " required;
                  actual :=
                    if (0 <? List.length found)%nat then join ", " found
                    else "None found";
                  passed := ok;
                  points := p;
                  requiredLayers := Some required;
                  foundLayers := Some found |}) t5
        else t5
    | None => t5
    end in
  let '(score, maxScore, checks) := t6 in
  {| result_filename := filename analysis;
     result_originalFilename := originalFilename analysis;
     score := score;
     maxScore := maxScore;
     percentage :=
       if (maxScore >? 0)%Z then roundedPercent score maxScore else 0%Z;
     checks := checks;
     analysis := analysis |}.

End Checker.

Definition getMaxScore (criteria : Criteria) : Z :=
  let pointsPerCriterion := or_default (pointsPerCriterion criteria) 20 in
  let add (on : bool) (pts m : Z) : Z := if on then (m + pts)%Z else m in
  add (match reqLayers criteria with
       | Some names => negb (String.eqb (trim names) "")
       | None => false
       end) pointsPerCriterion
    (add (truthy_num (minLayers criteria)) pointsPerCriterion
       (add (negb (String.eqb (reqColorMode criteria) "")) pointsPerCriterion
          (add (truthy_num (reqHeight criteria)) pointsPerCriterion
             (add (truthy_num (reqWidth criteria)) pointsPerCriterion
                (add (enableFilenameSection criteria)
                   (or_default (filenamePoints criteria) 10) 0%Z))))).

(** *** System files, archives and batches *)

Definition systemFiles : list string :=
  [ ".DS_Store"; "Thumbs.db"; "desktop.ini"; ".localized";
    ".DocumentRevisions-V100"; ".fseventsd"; ".Spotlight-V100";
    ".TemporaryItems"; ".Trashes"; ".VolumeIcon.icns";
    ".com.apple.timemachine.donotpresent"; ".AppleDouble";
    ".LSOverride" ].

(** The three [match] tests are anchored literals: [/^\~\$/] is a prefix
    test, [/\.tmp$/i] and [/\.temp$/i] are suffix tests up to case. *)
Definition isSystemFile (filename : string) : bool :=
  let filenameLower := toLowerCase filename in
  if existsb (fun sf => String.eqb filenameLower (toLowerCase sf)) systemFiles
  then true
  else if startsWith filename "._"
          || includes filename "__MACOSX"
          || includes filename "/.DS_Store"
          || includes filename "\Thumbs.db"
          || startsWith filename "~$"
          || endsWith filenameLower ".tmp"
          || endsWith filenameLower ".temp"
  then true
  else false.

(** An entry of [zip.files]: its name, its directory flag and the outcome
    of [file.async('uint8array')]. *)
Record ZipEntry : Type := {
  entry_name : string;
  dir : bool;
  async : Completion (list byte)
}.

(** The record pushed when a file or an entry cannot be processed; its
    [score] and [percentage] are [0] and its [analysis] is [null]. *)
Record ErrorResult : Type := {
  error_filename : string;
  error_originalFilename : string;
  error : string;
  error_maxScore : Z
}.

Inductive FileResult : Type :=
| Graded (result : GradingResult)
| Failed (failure : ErrorResult).

(** An uploaded file: the stored name and the name it was uploaded under. *)
Record FileInfo : Type := {
  stored_filename : string;
  originalName : string
}.

Section Batch.

Variable readPsd : list byte -> Psd.ReadOptions -> Completion Psd.Decoded.
Variable RegExp_test : string -> bool -> string -> option bool.
(** [fs.readFileSync] on a path *)
Variable readFileSync : string -> Completion (list byte).
(** [JSZip.loadAsync]: the entries of [zip.files] in enumeration order *)
Variable loadAsync : list byte -> Completion (list ZipEntry).
(** [path.join(uploadsDir, name)] *)
Variable uploadPath : string -> string.

Definition errorResult (name : string) (e : Exception) (criteria : Criteria)
  : FileResult :=
  Failed {| error_filename := name;
            error_originalFilename := name;
            error := message e;
            error_maxScore := getMaxScore criteria |}.

(** One round of the loop over the entries: what it pushes on [results]. *)
Definition processEntry (criteria : Criteria) (entry : ZipEntry)
  : list FileResult :=
  let filename := entry_name entry in
  if isSystemFile filename then []
  else if endsWith (toLowerCase filename) ".psd" && negb (dir entry) then
    match async entry with
    | Throw e => [errorResult filename e criteria]
    | Normal psdData =>
        match analyzePSDData readPsd psdData filename with
        | Throw e => [errorResult filename e criteria]
        | Normal analysis =>
            [Graded (gradeFile RegExp_test analysis criteria)]
        end
    end
  else [].

Definition processEntries (criteria : Criteria) (entries : list ZipEntry)
  : list FileResult :=
  flat_map (processEntry criteria) entries.

Definition processZipFile (zipPath : string) (criteria : Criteria)
  : Completion (list FileResult) :=
  let failed (e : Exception) :=
    Throw (Error ("Failed to process ZIP file: " ++ message e)%string) in
  match readFileSync zipPath with
  | Throw e => failed e
  | Normal zipData =>
      match loadAsync zipData with
      | Throw e => failed e
      | Normal entries => Normal (processEntries criteria entries)
      end
  end.

Definition processPSDFile (filePath originalName : string)
  (criteria : Criteria) : Completion GradingResult :=
  let failed (e : Exception) :=
    Throw (Error ("Failed to process PSD file " ++ originalName ++ ": "
                  ++ message e)%string) in
  match readFileSync filePath with
  | Throw e => failed e
  | Normal psdData =>
      match analyzePSDData readPsd psdData originalName with
      | Throw e => failed e
      | Normal analysis => Normal (gradeFile RegExp_test analysis criteria)
      end
  end.

(** One round of the loop of [processFiles]. *)
Definition processFile (criteria : Criteria) (fileInfo : FileInfo)
  : list FileResult :=
  let filePath := uploadPath (stored_filename fileInfo) in
  let name := originalName fileInfo in
  if endsWith (toLowerCase name) ".zip" then
    match processZipFile filePath criteria with
    | Normal zipResults => zipResults
    | Throw e => [errorResult name e criteria]
    end
  else if endsWith (toLowerCase name) ".psd" then
    match processPSDFile filePath name criteria with
    | Normal result => [Graded result]
    | Throw e => [errorResult name e criteria]
    end
  else [].

Definition processFiles (files : list FileInfo) (criteria : Criteria)
  : list FileResult :=
  flat_map (processFile criteria) files.

End Batch.

End FileProcessor.

(** ** The front-end utilities: [FilenamePatterns] *)

Module FilenamePatterns.

Import JsString FileProcessor.

Section Patterns.

Variable RegExp_test : string -> bool -> string -> option bool.

Definition validatePlaceholderPattern
  (filename pattern : string) (caseSensitive : bool) : bool :=
  let checkName := if caseSensitive then filename else toLowerCase filename in
  let checkPattern := if caseSensitive then pattern else toLowerCase pattern in
  let protectedPattern := protectPlaceholders checkPattern in
  let escapedPattern := escapeRegExp protectedPattern in
  let regexPattern :=
    expandPlaceholders "([A-Za-z]*[\s-]?\d+)" escapedPattern in
  regexTest RegExp_test ("^" ++ regexPattern ++ "$")%string
    (negb caseSensitive) checkName.

Definition validateFilename
  (filename pattern patternType : string) (caseSensitive : bool) : bool :=
  let nameWithoutExt := stripSuffix ".psd" filename in
  let checkName :=
    if caseSensitive then nameWithoutExt else toLowerCase nameWithoutExt in
  let checkPattern := if caseSensitive then pattern else toLowerCase pattern in
  if String.eqb patternType "exact" then
    String.eqb checkName checkPattern
  else if String.eqb patternType "contains" then
    includes checkName checkPattern
  else if String.eqb patternType "regex" then
    regexTest RegExp_test pattern (negb caseSensitive) nameWithoutExt
  else
    validatePlaceholderPattern nameWithoutExt pattern caseSensitive.

End Patterns.

Definition getPatternExample (pattern patternType : string) : string :=
  if String.eqb patternType "class_name_assignment" then
    "DES222_Smith_A01.psd"
  else if String.eqb patternType "name_class_assignment" then
    "Smith_DES222_A01.psd"
  else if String.eqb patternType "assignment_name_class" then
    "A01_Smith_DES222.psd"
  else if String.eqb patternType "exact" then
    (pattern ++ ".psd")%string
  else if String.eqb patternType "contains" then
    ("MyFile_" ++ pattern ++ "_v1.psd")%string
  else if String.eqb patternType "regex" then
    "Depends on your regex pattern"
  else if String.eqb patternType "custom" then
    (replaceAll false "{ANY}" "text"
       (replaceAll false "{NUMBER}" "1"
          (replaceAll false "{ASSIGNMENT}" "A01"
             (replaceAll false "{FIRSTNAME}" "John"
                (replaceAll false "{LASTNAME}" "Smith"
                   (replaceAll false "{CLASS}" "DES222" pattern)))))
     ++ ".psd")%string
  else "example.psd".

End FilenamePatterns.

(** ** The front-end utilities: [FileValidator] and [ScoreUtils] *)

Module FileValidator.

Import JsString.

(** A browser [File]: its name and its size in bytes. *)
Record File : Type := {
  file_name : string;
  size : Z
}.

Definition isValidFile (file : File) : bool :=
  let validExtensions := [".psd"; ".zip"] in
  let fileName := toLowerCase (file_name file) in
  existsb (fun ext => endsWith fileName ext) validExtensions.

Definition isFileTooLarge (file : File) (maxSizeMB : Z) : bool :=
  let maxSizeBytes := (maxSizeMB * 1024 * 1024)%Z in
  (size file >? maxSizeBytes)%Z.

Definition getFileExtension (filename : string) : string :=
  toLowerCase (pop (split "." filename)).

Definition systemFiles : list string :=
  [ ".DS_Store"; "Thumbs.db"; "desktop.ini"; ".localized";
    ".DocumentRevisions-V100"; ".fseventsd"; ".Spotlight-V100";
    ".TemporaryItems"; ".Trashes"; ".VolumeIcon.icns" ].

Definition isSystemFile (filename : string) : bool :=
  let filenameLower := toLowerCase filename in
  if existsb (fun sf => String.eqb filenameLower (toLowerCase sf)) systemFiles
  then true
  else if startsWith filename "._"
          || includes filename "__MACOSX"
          || startsWith filename "~$"
          || endsWith filenameLower ".tmp"
  then true
  else false.

End FileValidator.

Module ScoreUtils.

(** Percentages are the integers [calculatePercentage] produces. *)
Definition calculatePercentage (score maxScore : Z) : Z :=
  if (maxScore =? 0)%Z then 0%Z
  else FileProcessor.roundedPercent score maxScore.

Definition getLetterGrade (percentage : Z) : string :=
  if (percentage >=? 97)%Z then "A+"
  else if (percentage >=? 93)%Z then "A"
  else if (percentage >=? 90)%Z then "A-"
  else if (percentage >=? 87)%Z then "B+"
  else if (percentage >=? 83)%Z then "B"
  else if (percentage >=? 80)%Z then "B-"
  else if (percentage >=? 77)%Z then "C+"
  else if (percentage >=? 73)%Z then "C"
  else if (percentage >=? 70)%Z then "C-"
  else if (percentage >=? 67)%Z then "D+"
  else if (percentage >=? 63)%Z then "D"
  else if (percentage >=? 60)%Z then "D-"
  else "F".

Definition getScoreColorClass (percentage : Z) : string :=
  if (percentage >=? 100)%Z then "score-100"
  else if (percentage >=? 90)%Z then "score-90"
  else if (percentage >=? 80)%Z then "score-80"
  else if (percentage >=? 70)%Z then "score-70"
  else if (percentage >=? 60)%Z then "score-60"
  else if (percentage >=? 50)%Z then "score-50"
  else if (percentage >=? 40)%Z then "score-40"
  else if (percentage >=? 30)%Z then "score-30"
  else if (percentage >=? 20)%Z then "score-20"
  else if (percentage >=? 10)%Z then "score-10"
  else "score-0".

(** A row of [downloadCSV]: file name, score, percentage, letter grade and
    status, before quoting. *)
Definition csvRow (filename : string) (score maxScore : Z) : list string :=
  let percentage := calculatePercentage score maxScore in
  let letterGrade := getLetterGrade percentage in
  let status := if (percentage >=? 70)%Z then "Pass" else "Needs Review" in
  [ filename; string_of_Z score; (string_of_Z percentage ++ "%")%string;
    letterGrade; status ].

End ScoreUtils.

(** ** [server.js]: the font rule and the Canvas filename decoder *)

Module Server.

Import JsString.

Record FontCriteria : Type := {
  approvedFonts : option (list string);
  requiredFonts : option (list string)
}.

Record FontDetail : Type := {
  detail_name : string;
  approved : bool
}.

Record FontResult : Type := {
  valid : bool;
  usedFonts : list string;
  violations : list string;
  fontDetails : list FontDetail;
  hasNoFonts : bool
}.

(** [usedFonts.add(font)] on a [Set], kept in insertion order. *)
Definition add (fonts : list string) (font : string) : list string :=
  if existsb (String.eqb font) fonts then fonts else fonts ++ [font].

Definition truthy (o : option string) : list string :=
  match o with
  | Some s => if String.eqb s "" then [] else [s]
  | None => []
  end.

(** The fonts one text record hands to [add], in order. *)
Definition fontsOfText (t : Psd.LayerText) : list string :=
  match Psd.style t with
  | Some st =>
      truthy (Psd.font st) ++ truthy (Psd.fontName st)
      ++ truthy (Psd.fontFamily st)
  | None => []
  end
  ++ match Psd.RunArray t with
     | Some runs =>
         flat_map
           (fun run =>
              match Psd.StyleSheet run with
              | Some (Some data) => truthy (Psd.Font data)
              | _ => []
              end) runs
     | None => []
     end.

(** [extractFonts(layers)]: the arguments of the calls of [add], in order. *)
Fixpoint fontsOfLayer (layer : Psd.Layer) : list string :=
  match Psd.text layer with
  | Some t => fontsOfText t
  | None => []
  end
  ++ match Psd.children layer with
     | Some cs => flat_map fontsOfLayer cs
     | None => []
     end.

Definition extractFonts (layers : option (list Psd.Layer)) : list string :=
  match layers with
  | Some ls => fold_left add (flat_map fontsOfLayer ls) []
  | None => []
  end.

Definition checkFontRequirements (psdData : Psd.Psd) (criteria : FontCriteria)
  : FontResult :=
  let usedFonts := extractFonts (Psd.psd_children psdData) in
  if (List.length usedFonts =? 0)%nat then
    {| valid := true; usedFonts := usedFonts; violations := [];
       fontDetails := []; hasNoFonts := true |}
  else
    let approvedList :=
      match approvedFonts criteria with
      | Some (f :: fs) => map (fun f => trim (toLowerCase f)) (f :: fs)
      | _ => []
      end in
    let isApproved (font : string) : bool :=
      match approvedList with
      | [] => true
      | _ =>
          let fontLower := toLowerCase font in
          existsb
            (fun approved =>
               includes fontLower approved || includes approved fontLower)
            approvedList
      end in
    let unapproved :=
      flat_map
        (fun font =>
           if isApproved font then []
           else [("Unapproved font: " ++ font)%string])
        usedFonts in
    let missing :=
      match requiredFonts criteria with
      | Some reqs =>
          flat_map
            (fun reqFont =>
               if existsb
                    (fun font =>
                       includes (toLowerCase font) (toLowerCase reqFont))
                    usedFonts
               then []
               else [("Missing required font: " ++ reqFont)%string])
            reqs
      | None => []
      end in
    {| valid := (List.length (unapproved ++ missing) =? 0)%nat;
       usedFonts := usedFonts;
       violations := unapproved ++ missing;
       fontDetails :=
         map (fun font => {| detail_name := font; approved := isApproved font |})
           usedFonts;
       hasNoFonts := false |}.

(** *** The server's copy of the filename validator *)

Section Patterns.

Variable RegExp_test : string -> bool -> string -> option bool.

(** Here the pattern is escaped first, and the placeholders are recognised
    in their escaped form. *)
Definition validatePlaceholderPattern
  (filename pattern : string) (caseSensitive : bool) : bool :=
  let checkName := if caseSensitive then filename else toLowerCase filename in
  let checkPattern := if caseSensitive then pattern else toLowerCase pattern in
  let regexPattern :=
    replaceAll true "\{any\}" "(.+)"
      (replaceAll true "\{number\}" "(\d+)"
         (replaceAll true "\{assignment\}" "([A-Za-z]*[\s\-]?\d+[A-Za-z]?)"
            (replaceAll true "\{firstname\}" "([A-Za-z\-]+)"
               (replaceAll true "\{lastname\}" "([A-Za-z\-]+)"
                  (replaceAll true "\{class\}"
                     "([A-Za-z]{2,5}[\s\-]?\d{2,4})"
                     (FileProcessor.escapeRegExp checkPattern)))))) in
  FileProcessor.regexTest RegExp_test ("^" ++ regexPattern ++ "$")%string
    (negb caseSensitive) checkName.

Definition validateFilenamePattern
  (filename pattern patternType : string) (caseSensitive : bool) : bool :=
  let nameWithoutExt := stripSuffix ".psd" filename in
  let checkName :=
    if caseSensitive then nameWithoutExt else toLowerCase nameWithoutExt in
  let checkPattern := if caseSensitive then pattern else toLowerCase pattern in
  if String.eqb patternType "class_name_assignment" then
    validatePlaceholderPattern nameWithoutExt
      "{CLASS}_{LASTNAME}_{ASSIGNMENT}" caseSensitive
  else if String.eqb patternType "name_class_assignment" then
    validatePlaceholderPattern nameWithoutExt
      "{LASTNAME}_{CLASS}_{ASSIGNMENT}" caseSensitive
  else if String.eqb patternType "assignment_name_class" then
    validatePlaceholderPattern nameWithoutExt
      "{ASSIGNMENT}_{LASTNAME}_{CLASS}" caseSensitive
  else if String.eqb patternType "exact" then
    String.eqb checkName checkPattern
  else if String.eqb patternType "contains" then
    includes checkName checkPattern
  else if String.eqb patternType "regex" then
    FileProcessor.regexTest RegExp_test pattern (negb caseSensitive)
      nameWithoutExt
  else
    validatePlaceholderPattern nameWithoutExt pattern caseSensitive.

End Patterns.

(** *** The Canvas filename decoder *)

Record CanvasInfo : Type := {
  studentName : string;
  isLate : bool;
  submissionStatus : string;
  userId : string;
  submissionId : string;
  originalFilename : string;
  firstName : string;
  lastName : string
}.

(** The longest prefix of lower-case letters, and the rest. *)
Fixpoint lowerRun (s : string) : string * string :=
  match s with
  | String c s' =>
      if is_lower c then let '(run, rest) := lowerRun s' in (String c run, rest)
      else (EmptyString, s)
  | EmptyString => (EmptyString, EmptyString)
  end.

(** [name.match(/^([a-z]+)([A-Z][a-z]+)?$/)]: the two groups, the second
    one possibly unset.  The classes are disjoint, so the first group is the
    longest lower-case prefix. *)
Definition nameMatch (name : string) : option (string * option string) :=
  match lowerRun name with
  | (EmptyString, _) => None
  | (first, EmptyString) => Some (first, None)
  | (first, String c rest) =>
      if is_upper c then
        match lowerRun rest with
        | (String _ _, EmptyString) => Some (first, Some (String c rest))
        | _ => None
        end
      else None
  end.

(** [parts[i]]; the length test of the caller keeps [i] in range. *)
Definition part (parts : list string) (i : nat) : string :=
  nth i parts EmptyString.

(** [filename.replace(/\.(psd|zip)$/i, '')] *)
Definition stripExtension (filename : string) : string :=
  if String.eqb (stripSuffix ".psd" filename) filename
  then stripSuffix ".zip" filename
  else stripSuffix ".psd" filename.

Definition parseCanvasFilename (filename : string) : option CanvasInfo :=
  let nameWithoutExt := stripExtension filename in
  let parts := split "_" nameWithoutExt in
  if (List.length parts <? 5)%nat then None
  else
    let isLate := String.eqb (part parts 1) "LATE" in
    let startIdx := if isLate then 2%nat else 1%nat in
    let studentName := part parts 0 in
    let names :=
      match nameMatch studentName with
      | Some (first, Some second) => (first, second)
      | Some (first, None) => (first, first)
      | None => (EmptyString, studentName)
      end in
    Some {| studentName := studentName;
            isLate := isLate;
            submissionStatus := if isLate then "LATE" else part parts 1;
            userId := part parts startIdx;
            submissionId := part parts (startIdx + 1);
            originalFilename := join "_" (skipn (startIdx + 2) parts);
            firstName := fst names;
            lastName := snd names |}.

(** *** Layer counts, layer names and the technical rules *)

(** The document the server looks at: the decoded tree and, for decoders
    that have it, a [layers] property. *)
Record PsdData : Type := {
  document : Psd.Psd;
  psd_layers : option (list Psd.Layer)
}.

(** What one round of the loop of [countInGroup] adds to [count]: the
    layer, and its children when it has some. *)
Fixpoint countInLayer (layer : Psd.Layer) : nat :=
  S (match Psd.children layer with
     | Some cs => list_sum (map countInLayer cs)
     | None => 0
     end).

Definition countInGroup (layers : list Psd.Layer) : nat :=
  list_sum (map countInLayer layers).

Definition countAllLayers (psdData : PsdData) : nat :=
  let count :=
    match Psd.psd_children (document psdData) with
    | Some (l :: ls) => countInGroup (l :: ls)
    | _ =>
        match psd_layers psdData with
        | Some (l :: ls) => countInGroup (l :: ls)
        | _ => 1
        end
    end in
  if (count =? 0)%nat then 1 else count.

(** What one round of the loop of [collectNames] pushes on [names]. *)
Fixpoint namesInLayer (layer : Psd.Layer) : list string :=
  truthy (Psd.name layer)
  ++ match Psd.children layer with
     | Some cs => flat_map namesInLayer cs
     | None => []
     end.

Definition getAllLayerNames (psdData : PsdData) : list string :=
  match Psd.psd_children (document psdData) with
  | Some (l :: ls) => flat_map namesInLayer (l :: ls)
  | _ =>
      match psd_layers psdData with
      | Some (l :: ls) => flat_map namesInLayer (l :: ls)
      | _ => []
      end
  end.

Record TechnicalCriteria : Type := {
  crit_width : option Z;
  crit_height : option Z;
  crit_colorMode : option string;
  crit_minLayers : option Z;
  crit_requiredLayers : option (list string);
  crit_resolution : option Z
}.

Record TextCheck : Type := {
  check_valid : bool;
  check_actual : string;
  check_expected : string
}.

Record LayerCountCheck : Type := {
  count_valid : bool;
  count : nat;
  minimum : Z
}.

Record RequiredLayerDetail : Type := {
  required_name : string;
  found : bool;
  actualMatch : option string
}.

Record RequiredLayersCheck : Type := {
  required_valid : bool;
  details : list RequiredLayerDetail
}.

Record ResolutionCheck : Type := {
  resolution_valid : bool;
  resolution_actual : Z;
  resolution_expected : Z
}.

(** The result object: a rule that is not configured leaves no property. *)
Record TechnicalResult : Type := {
  dimensions : option TextCheck;
  colorModeCheck : option TextCheck;
  layersCheck : option LayerCountCheck;
  requiredLayersCheck : option RequiredLayersCheck;
  resolutionCheck : option ResolutionCheck
}.

(** [`${n}`] for a possibly missing number. *)
Definition show (n : option Z) : string :=
  match n with Some z => string_of_Z z | None => "undefined" end.

(** [n || 'any'] inside a template. *)
Definition showOrAny (n : option Z) : string :=
  if truthy_num n then show n else "any".

(** [criteria.width && psdData.width !== criteria.width] *)
Definition differs (target actual : option Z) : bool :=
  match target with
  | Some t =>
      negb (t =? 0)%Z
      && match actual with
         | Some a => negb (a =? t)%Z
         | None => true
         end
  | None => false
  end.

Definition checkTechnicalRequirements
  (psdData : PsdData) (criteria : TechnicalCriteria) : TechnicalResult :=
  let doc := document psdData in
  {| dimensions :=
       if truthy_num (crit_width criteria) || truthy_num (crit_height criteria)
       then
         Some {| check_valid :=
                   negb (differs (crit_width criteria) (Psd.psd_width doc))
                   && negb (differs (crit_height criteria)
                              (Psd.psd_height doc));
                 check_actual :=
                   (show (Psd.psd_width doc) ++ "x"
                    ++ show (Psd.psd_height doc) ++ "px")%string;
                 check_expected :=
                   (showOrAny (crit_width criteria) ++ "x"
                    ++ showOrAny (crit_height criteria) ++ "px")%string |}
       else None;
     colorModeCheck :=
       match crit_colorMode criteria with
       | Some wanted =>
           if String.eqb wanted "" then None
           else
             let actualMode :=
               match Psd.psd_colorMode doc with
               | Some code =>
                   match lookup Header.colorModes code with
                   | Some m => m
                   | None => "Unknown"
                   end
               | None => "Unknown"
               end in
             Some {| check_valid := String.eqb actualMode wanted;
                     check_actual := actualMode;
                     check_expected := wanted |}
       | None => None
       end;
     layersCheck :=
       match crit_minLayers criteria with
       | Some m =>
           let layerCount := countAllLayers psdData in
           Some {| count_valid := (Z.of_nat layerCount >=? m)%Z;
                   count := layerCount;
                   minimum := m |}
       | None => None
       end;
     requiredLayersCheck :=
       match crit_requiredLayers criteria with
       | Some (r :: rs) =>
           let layerNames := getAllLayerNames psdData in
           let matches (reqLayer name : string) : bool :=
             includes (toLowerCase name) (toLowerCase reqLayer) in
           let requiredLayersDetails :=
             map (fun reqLayer =>
                    {| required_name := reqLayer;
                       found := existsb (matches reqLayer) layerNames;
                       actualMatch := find (matches reqLayer) layerNames |})
               (r :: rs) in
           Some {| required_valid := forallb found requiredLayersDetails;
                   details := requiredLayersDetails |}
       | _ => None
       end;
     resolutionCheck :=
       match crit_resolution criteria with
       | Some wanted =>
           if (wanted =? 0)%Z then None
           else
             let actualResolution :=
               match Psd.resolutionInfo doc with
               | Some info => or_default (Psd.horizontalResolution info) 72
               | None => 72%Z
               end in
             Some {| resolution_valid := (actualResolution >=? wanted)%Z;
                     resolution_actual := actualResolution;
                     resolution_expected := wanted |}
       | None => None
       end |}.

(** *** The summary of a batch

    Of each result only [score] and [maxScore] matter here.  The test
    [(score / maxScore) * 100 >= 70] is a comparison of floating-point
    numbers; it is left abstract. *)

Record Summary : Type := {
  totalFiles : nat;
  averageScore : Z;
  passedCount : nat;
  failedCount : nat
}.

Section Summarize.

Variable atLeast70 : Z -> Z -> bool.

Definition summarize (files : list (Z * Z)) : Summary :=
  let validFiles := filter (fun f => (snd f >? 0)%Z) files in
  let totalScore := fold_left (fun sum f => (sum + fst f)%Z) validFiles 0%Z in
  let totalMaxScore :=
    fold_left (fun sum f => (sum + snd f)%Z) validFiles 0%Z in
  let tally :=
    fold_left
      (fun (pf : nat * nat) (f : Z * Z) =>
         if (snd f >? 0)%Z then
           if atLeast70 (fst f) (snd f) then (S (fst pf), snd pf)
           else (fst pf, S (snd pf))
         else pf)
      files (0, 0)%nat in
  {| totalFiles := List.length files;
     averageScore :=
       match validFiles with
       | [] => 0%Z
       | _ :: _ =>
           if (totalMaxScore >? 0)%Z
           then FileProcessor.roundedPercent totalScore totalMaxScore
           else 0%Z
       end;
     passedCount := fst tally;
     failedCount := snd tally |}.

End Summarize.

End Server.

(** ** Sample inputs and the vocabulary of the statements *)

Module Statements.

Import Header JsString FileProcessor.

(** *** Header Reader *)

(** A 26-byte header: signature, version 1, six reserved bytes, three
    channels, then height, width, bit depth and colour mode. *)
Definition header (signature : string) (height width depth mode : list N)
  : list byte :=
  list_byte_of_string signature
  ++ bytes [0; 1; 0; 0; 0; 0; 0; 0; 0; 3]%N
  ++ bytes height ++ bytes width ++ bytes depth ++ bytes mode.

Definition sampleHeader : list byte :=
  (header "8BPS" [0; 0; 0; 50] [0; 0; 0; 100] [0; 8] [0; 3])%N.

(** Every position a computation adds to the log is below [n]. *)
Definition within (n : nat) {A} (m : Access A) : Prop :=
  forall log,
    Forall (fun i => (i < n)%nat) log ->
    Forall (fun i => (i < n)%nat) (snd (m log)).

(** The field a header declares at [offset], [size] bytes wide. *)
Definition declared (data : list byte) (offset size : nat) : Z :=
  big_endian (firstn size (skipn offset data)).

(** The same field as the second, byte-wise pass computes it. *)
Definition bytewise (data : list byte) (offsets : list nat) : Z :=
  match map (fun i => operand (nth_error data i)) offsets with
  | [a; b; c; d] => bor (bor (bor (shl a 24) (shl b 16)) (shl c 8)) d
  | [a; b] => bor (shl a 8) b
  | _ => 0%Z
  end.

(** The outcome of the [catch] block for a caught [error]. *)
Definition secondPass (data : list byte) (error : Exception)
  : Completion BasicInfo :=
  let width := bytewise data [18; 19; 20; 21]%nat in
  let height := bytewise data [14; 15; 16; 17]%nat in
  let depth := bytewise data [22; 23]%nat in
  let colorMode := bytewise data [24; 25]%nat in
  if ((width >? 0) && (height >? 0)
      && (width <? 30000) && (height <? 30000))%Z
  then Normal {| Header.width := width;
                 Header.height := height;
                 Header.bitDepth := or_num depth 8;
                 Header.colorMode :=
                   match lookup colorModes colorMode with
                   | Some name => name
                   | None => "RGB"
                   end;
                 Header.version := 1;
                 Header.rawColorMode := colorMode |}
  else Throw error.

(** *** Decode ladder *)

(** The synthesized layer of the header-only analysis. *)
Definition isBackgroundRaster (l : LayerInfo) : Prop :=
  name l = "Background" /\ type l = raster.

(** What C1 promises of a completed analysis. *)
Definition limitedParse (r : Completion Analysis) : Prop :=
  exists a l,
    r = Normal a /\ isLimitedParse a = Some true
    /\ layers a = [l] /\ isBackgroundRaster l.

(** The three rungs of the ladder, by position. *)
Definition rung (readPsd : list byte -> Psd.ReadOptions -> Completion Psd.Decoded)
  (data : list byte) (i : nat) : option (Completion Psd.Decoded) :=
  match nth_error (parseAttempts readPsd data) i with
  | Some attempt => Some (attempt tt)
  | None => None
  end.

Definition fails {A} (r : option (Completion A)) : Prop :=
  exists e, r = Some (Throw e).

Definition succeeds {A} (r : option (Completion A)) : Prop :=
  exists a, r = Some (Normal a).

(** A decoded tree without layers. *)
Definition bareTree : Psd.Psd :=
  {| Psd.psd_width := Some 100%Z; Psd.psd_height := Some 50%Z;
     Psd.psd_colorMode := Some 3%Z; Psd.bitsPerChannel := Some 8%Z;
     Psd.channels := Some 3%Z; Psd.psd_children := None;
     Psd.resolutionInfo := None; Psd.thumbnail := None;
     Psd.canvas := None; Psd.imageData := None |}.

(** A decoder that refuses everything but the minimal, layer-skipping
    call, for which it returns [bareTree]. *)
Definition minimalOnly (data : list byte) (options : Psd.ReadOptions)
  : Completion Psd.Decoded :=
  if Psd.skipLayers options then Normal (Psd.Tree bareTree)
  else Throw (Error "Invalid layer record").

(** A decoder that refuses every call. *)
Definition refuseAll (data : list byte) (options : Psd.ReadOptions)
  : Completion Psd.Decoded :=
  Throw (Error "Invalid layer record").

(** *** Layer trees *)

Definition leafLayer (name : string) : Psd.Layer :=
  {| Psd.name := Some name; Psd.hidden := None; Psd.opacity := None;
     Psd.blendMode := None; Psd.text := None; Psd.adjustment := None;
     Psd.effects := None; Psd.mask := false; Psd.placedLayer := false;
     Psd.vectorMask := false; Psd.vectorStroke := false;
     Psd.children := None |}.

Definition groupLayer (name : string) (children : list Psd.Layer)
  : Psd.Layer :=
  {| Psd.name := Some name; Psd.hidden := None; Psd.opacity := None;
     Psd.blendMode := None; Psd.text := None; Psd.adjustment := None;
     Psd.effects := None; Psd.mask := false; Psd.placedLayer := false;
     Psd.vectorMask := false; Psd.vectorStroke := false;
     Psd.children := Some children |}.

(** A text layer that names its font in the direct style attribute. *)
Definition textLayer (name fontName : string) : Psd.Layer :=
  {| Psd.name := Some name; Psd.hidden := None; Psd.opacity := None;
     Psd.blendMode := None;
     Psd.text :=
       Some {| Psd.text_text := Some "Hello";
               Psd.style :=
                 Some {| Psd.font := None; Psd.fontSize := Some 12%Z;
                         Psd.fontName := Some fontName;
                         Psd.fillColor := None; Psd.fontFamily := None |};
               Psd.RunArray := None; Psd.styles := None |};
     Psd.adjustment := None; Psd.effects := None; Psd.mask := false;
     Psd.placedLayer := false; Psd.vectorMask := false;
     Psd.vectorStroke := false; Psd.children := None |}.

Definition treeOf (layers : list Psd.Layer) : Psd.Psd :=
  {| Psd.psd_width := Some 100%Z; Psd.psd_height := Some 50%Z;
     Psd.psd_colorMode := Some 3%Z; Psd.bitsPerChannel := Some 8%Z;
     Psd.channels := Some 3%Z; Psd.psd_children := Some layers;
     Psd.resolutionInfo := None; Psd.thumbnail := None;
     Psd.canvas := None; Psd.imageData := None |}.

(** A layer without child layers: [children] absent or empty. *)
Definition childless (layer : Psd.Layer) : Prop :=
  Psd.children layer = None \/ Psd.children layer = Some [].

(** *** Filenames and scoring *)

Fixpoint hasChar (c : ascii) (s : string) : bool :=
  match s with
  | EmptyString => false
  | String x s' => Ascii.eqb x c || hasChar c s'
  end.



(** Criteria with the width rule alone, at 20 points. *)
Definition widthOnly : Criteria :=
  {| pointsPerCriterion := Some 20%Z; enableFilenameSection := false;
     filenamePoints := None; filenamePattern := "";
     filenamePatternType := "custom"; filenameCaseSensitive := "no";
     reqWidth := Some 1920%Z; reqHeight := None; reqColorMode := "";
     minLayers := Some 0%Z; reqLayers := Some "" |}.

Definition sampleAnalysis : Analysis :=
  createFallbackAnalysis
    {| Header.width := 1920; Header.height := 1080; Header.bitDepth := 8;
       Header.colorMode := "RGB"; Header.version := 1;
       Header.rawColorMode := 3 |}
    "poster.psd" 26 "RGB file - header analysis only".

(** *** Fonts and submissions *)

Definition strictFonts : Server.FontCriteria :=
  {| Server.approvedFonts := Some ["Helvetica"; "Arial"];
     Server.requiredFonts := Some ["Garamond"] |}.

(** The segments of a submission name. *)
Definition segments (filename : string) : list string :=
  split "_" (Server.stripExtension filename).

(** *** Further samples and vocabulary *)


(** A decoder that accepts every call. *)
Definition decodeAll (data : list byte) (options : Psd.ReadOptions)
  : Completion Psd.Decoded := Normal (Psd.Tree bareTree).

(** A decoder that returns a tree with a group. *)
Definition decodeNested (data : list byte) (options : Psd.ReadOptions)
  : Completion Psd.Decoded :=
  Normal (Psd.Tree (treeOf [groupLayer "A" [leafLayer "A1"]; leafLayer "B"])).

(** A document on which the walk of the layers throws, with the entries
    [names] at its root. *)
Definition unwalkable (names : list (Completion (option string)))
  : Psd.Decoded :=
  Psd.Unwalkable (Error "Cannot read properties of null (reading 'font')")
    {| Psd.psd_width := Some 100%Z; Psd.psd_height := Some 50%Z;
       Psd.psd_colorMode := Some 3%Z; Psd.bitsPerChannel := Some 8%Z;
       Psd.channels := Some 3%Z; Psd.psd_children := Psd.Listed names;
       Psd.resolutionInfo := None; Psd.thumbnail := None;
       Psd.canvas := None; Psd.imageData := None |}.

(** A decoder whose document has an entry without a name and an entry
    named "Logo", and cannot be walked. *)
Definition decodeUnwalkable (data : list byte) (options : Psd.ReadOptions)
  : Completion Psd.Decoded :=
  Normal (unwalkable [Normal None; Normal (Some "Logo")]).

(** The same with an entry that is [null]. *)
Definition decodeNullEntry (data : list byte) (options : Psd.ReadOptions)
  : Completion Psd.Decoded :=
  Normal (unwalkable
            [Normal (Some "Logo");
             Throw (Error "Cannot read properties of null (reading 'name')")]).

(** A decoder that refuses every call, with a message per rung. *)
Definition refuseByStage (data : list byte) (options : Psd.ReadOptions)
  : Completion Psd.Decoded :=
  if Psd.skipLayers options then Throw (Error "bad header")
  else if Psd.skipThumbnail options then Throw (Error "bad resources")
  else Throw (Error "bad layers").

(** Criteria with the filename rule at 23 points and the width rule at 17:
    [sampleAnalysis] has the name and not the width. *)
Definition nameAndWidth : Criteria :=
  {| pointsPerCriterion := Some 17%Z; enableFilenameSection := true;
     filenamePoints := Some 23%Z; filenamePattern := "Poster";
     filenamePatternType := "exact"; filenameCaseSensitive := "no";
     reqWidth := Some 1000%Z; reqHeight := None; reqColorMode := "";
     minLayers := None; reqLayers := None |}.

(** The product [(s / m) * 100] by the specification of binary64 of the
    Standard Library. *)
Definition binary64 (z : Z) : SpecFloat.spec_float :=
  SpecFloat.binary_normalize 53 1024 z 0 false.

Definition specifiedProduct (s m : Z) : SpecFloat.spec_float :=
  SpecFloat.SFmul 53 1024
    (SpecFloat.SFdiv 53 1024 (binary64 s) (binary64 m)) (binary64 100).

(** Do a double of the model and a float of the specification have the
    same value? *)
Definition sameValue (x : Number.Double) (f : SpecFloat.spec_float) : bool :=
  match f with
  | SpecFloat.S754_zero _ => (Number.mantissa x =? 0)%Z
  | SpecFloat.S754_finite negative m e =>
      let v := if negative then Z.neg m else Z.pos m in
      let low := Z.min e (Number.exponent x) in
      (v * 2 ^ (e - low) =? Number.mantissa x * 2 ^ (Number.exponent x - low))%Z
  | _ => false
  end.

(** The pairs [(s, m)] with [0 <= s <= m] and [1 <= m <= n]. *)
Definition pairsUpTo (n : nat) : list (Z * Z) :=
  flat_map (fun m => map (fun s => (Z.of_nat s, Z.of_nat m)) (seq 0 (S m)))
    (seq 1 n).

(** Sum of a list of integers. *)
Definition sumZ (l : list Z) : Z := fold_right Z.add 0%Z l.

(** A required-layers field made of white space only. *)
Definition blank (names : string) : bool :=
  negb (String.eqb names "") && String.eqb (trim names) "".

(** Invariants of the running totals of [gradeFile]. *)
Definition bounded (t : Totals) : Prop :=
  let '(score, maxScore, _) := t in (0 <= score <= maxScore)%Z.

Definition itemised (t : Totals) : Prop :=
  let '(score, _, checks) := t in
  score = sumZ (map points checks)
  /\ Forall (fun c => passed c = false -> points c = 0%Z) checks.

Definition maxOf (t : Totals) : Z := snd (fst t).

(** The name a record of a batch is filed under. *)
Definition recordName (r : FileResult) : string :=
  match r with
  | Graded g => result_originalFilename g
  | Failed e => error_originalFilename e
  end.

(** An entry that [processZipFile] hands to the analysis. *)
Definition isDocumentEntry (e : ZipEntry) : bool :=
  negb (isSystemFile (entry_name e))
  && endsWith (toLowerCase (entry_name e)) ".psd"
  && negb (dir e).

Definition sampleArchive : list ZipEntry :=
  [ {| entry_name := "__MACOSX/._poster.psd"; dir := false;
       async := Normal (bytes [0; 5; 22]%N) |};
    {| entry_name := "poster.psd"; dir := false;
       async := Normal sampleHeader |};
    {| entry_name := "notes.txt"; dir := false; async := Normal [] |};
    {| entry_name := "broken.PSD"; dir := false;
       async := Throw (Error "Corrupted zip: CRC32 mismatch") |} ].

(** An upload directory that holds one readable file. *)
Definition sampleUploadPath (name : string) : string :=
  ("uploads/" ++ name)%string.

Definition sampleDisk (path : string) : Completion (list byte) :=
  if String.eqb path "uploads/u1" then Normal sampleHeader
  else if String.eqb path "uploads/u3" then Normal (bytes [80; 75]%N)
  else Throw (Error "ENOENT: no such file or directory").

(** An archive reader that finds no archive. *)
Definition brokenZip (data : list byte) : Completion (list ZipEntry) :=
  Throw (Error "Can't find end of central directory").

(** The name Canvas gives a submission. *)
Definition submissionName (late : bool) (student uid sid original : string)
  : string :=
  (student ++ "_" ++ (if late then "LATE_" else "") ++ uid ++ "_" ++ sid
   ++ "_" ++ original)%string.

Definition bareDocument : Server.PsdData :=
  {| Server.document := bareTree; Server.psd_layers := None |}.


Definition oneLayerAtLeast : Server.TechnicalCriteria :=
  {| Server.crit_width := None; Server.crit_height := None;
     Server.crit_colorMode := None; Server.crit_minLayers := Some 1%Z;
     Server.crit_requiredLayers := None; Server.crit_resolution := None |}.



(** The 70 percent test on exact quotients. *)
Definition exactAtLeast70 (score maxScore : Z) : bool :=
  (100 * score >=? 70 * maxScore)%Z.

End Statements.

(** * Properties *)

(** ** Header Reader *)

Module HeaderFacts.

Import Header Statements.

(** The example of the specification: 100 x 50, 8 bits, RGB. *)
Lemma extractBasicPSDInfo_example :
  extractBasicPSDInfo
    (header "8BPS" [0; 0; 0; 50] [0; 0; 0; 100] [0; 8] [0; 3])%N
  = Normal {| width := 100; height := 50; bitDepth := 8; colorMode := "RGB";
              version := 1; rawColorMode := 3 |}.
Proof. reflexivity. Qed.

(** *** Positions read *)

Lemma within_ret n A (a : A) : within n (ret a).
Proof. intros log H; exact H. Qed.

Lemma within_throw n A e : within n (@throw A e).
Proof. intros log H; exact H. Qed.

Lemma within_bind n A B (m : Access A) (k : A -> Access B) :
  within n m -> (forall a, within n (k a)) -> within n (bind m k).
Proof.
  intros Hm Hk log Hlog. unfold bind.
  specialize (Hm log Hlog).
  destruct (m log) as [[a | e] log']; simpl in *.
  - apply Hk; assumption.
  - assumption.
Qed.

Lemma within_try_catch n A (body : Access A) handler :
  within n body -> (forall e, within n (handler e)) ->
  within n (try_catch body handler).
Proof.
  intros Hb Hh log Hlog. unfold try_catch.
  specialize (Hb log Hlog).
  destruct (body log) as [[a | e] log']; simpl in *.
  - assumption.
  - apply Hh; assumption.
Qed.

Lemma seq_below start len n :
  (start + len <= n)%nat -> Forall (fun i => (i < n)%nat) (seq start len).
Proof.
  intros H. apply Forall_forall. intros i Hi.
  apply in_seq in Hi. lia.
Qed.

Section Data.

Variable data : list byte.

Lemma within_index i :
  (i < List.length data)%nat -> within (List.length data) (index data i).
Proof.
  intros Hi log Hlog. unfold index; simpl.
  apply Forall_app; split; [assumption|].
  constructor; [assumption | constructor].
Qed.

Lemma within_slice start stop :
  within (List.length data) (slice data start stop).
Proof.
  intros log Hlog. unfold slice; cbn [snd].
  apply Forall_app; split; [assumption|].
  apply Forall_forall. intros i Hi. apply in_seq in Hi.
  pose proof (Nat.le_min_r stop (List.length data)). lia.
Qed.

Lemma within_getUint size offset :
  within (List.length data) (getUint data size offset).
Proof.
  intros log Hlog. unfold getUint.
  destruct (offset + size <=? List.length data)%nat eqn:E; simpl.
  - apply Forall_app; split; [assumption|].
    apply seq_below. apply Nat.leb_le in E. exact E.
  - assumption.
Qed.

Lemma within_extractBasicPSDInfo :
  within (List.length data) (extractBasicPSDInfo_reads data).
Proof.
  unfold extractBasicPSDInfo_reads.
  destruct (List.length data <? 26)%nat eqn:Hlen.
  - apply within_throw.
  - apply Nat.ltb_ge in Hlen.
    apply within_try_catch.
    + apply within_bind; [apply within_slice | intros sig].
      destruct (negb _); [apply within_throw|].
      unfold getUint16, getUint32.
      repeat (apply within_bind; [apply within_getUint | intros ?]).
      repeat (match goal with
              | |- within _ (if ?c then _ else _) => destruct c
              end);
        first [apply within_throw | apply within_ret].
    + intros error.
      repeat (apply within_bind; [apply within_index; lia | intros ?]).
      match goal with
      | |- within _ (if ?c then _ else _) => destruct c
      end; [apply within_ret | apply within_throw].
Qed.

(** *** The reader in closed form

    On a buffer of at least 26 bytes no [DataView] read fails, and the
    result is decided by the signature, the declared fields and, after any
    validation error, the second pass. *)
Lemma extractBasicPSDInfo_long :
  (26 <= List.length data)%nat ->
  extractBasicPSDInfo data =
    if negb (String.eqb (fromCharCode (firstn 4 data)) "8BPS") then
      secondPass data (Error "Invalid PSD signature")
    else
      let width := declared data 18 4 in
      let height := declared data 14 4 in
      let depth := declared data 22 2 in
      let colorMode := declared data 24 2 in
      if ((width <=? 0) || (height <=? 0)
          || (width >? 30000) || (height >? 30000))%Z
      then secondPass data (Error "Invalid dimensions detected")
      else if (negb (depth =? 1) && negb (depth =? 8)
               && negb (depth =? 16) && negb (depth =? 32))%Z
      then secondPass data (Error "Invalid bit depth detected")
      else Normal {| width := width; height := height; bitDepth := depth;
                     colorMode :=
                       match lookup colorModes colorMode with
                       | Some name => name
                       | None =>
                           ("Unknown (" ++ string_of_Z colorMode ++ ")")%string
                       end;
                     version := declared data 4 2;
                     rawColorMode := colorMode |}.
Proof.
  intros Hlen.
  assert (Hle : forall k, (k <= 26)%nat -> (k <=? List.length data)%nat = true)
    by (intros k Hk; apply Nat.leb_le; lia).
  assert (Hlt : (List.length data <? 26)%nat = false)
    by (apply Nat.ltb_ge; lia).
  unfold extractBasicPSDInfo, extractBasicPSDInfo_reads.
  rewrite Hlt.
  unfold try_catch, bind, slice, getUint16, getUint32, getUint, index,
    ret, throw.
  rewrite !Hle by (simpl; lia).
  replace (Nat.min 4 (List.length data) - 0)%nat with 4%nat by lia.
  change (skipn 0 data) with data.
  unfold secondPass, bytewise, declared. cbn [map].
  destruct (negb (fromCharCode (firstn 4 data) =? "8BPS")).
  - cbv zeta. destruct (_ && _ && _ && _)%bool; reflexivity.
  - cbv zeta.
    destruct (_ || _ || _ || _)%bool.
    + destruct (_ && _ && _ && _)%bool; reflexivity.
    + destruct (negb _ && _ && _ && _)%bool.
      * destruct (_ && _ && _ && _)%bool; reflexivity.
      * reflexivity.
Qed.

End Data.

(** C5: a buffer shorter than 26 bytes is refused with the "too small"
    error, and whatever the buffer, its length and its contents, every
    byte position the reader touches lies inside the buffer. *)
Theorem C5_too_small_and_reads_in_bounds (data : list byte) :
  ((List.length data < 26)%nat -> extractBasicPSDInfo data = Throw TooSmall)
  /\ Forall (fun i => (i < List.length data)%nat) (positions_read data).
Proof.
  split.
  - intros H. unfold extractBasicPSDInfo, extractBasicPSDInfo_reads.
    apply Nat.ltb_lt in H. rewrite H. reflexivity.
  - unfold positions_read. apply within_extractBasicPSDInfo. constructor.
Qed.

Lemma C5_witness :
  (List.length (bytes [56; 66; 80; 83; 0; 1]%N) < 26)%nat
  /\ extractBasicPSDInfo (bytes [56; 66; 80; 83; 0; 1]%N) = Throw TooSmall.
Proof.
  split.
  - simpl; lia.
  - apply (C5_too_small_and_reads_in_bounds (bytes [56; 66; 80; 83; 0; 1]%N)).
    simpl; lia.
Defined.

(** The reads of a long enough buffer do happen: the log of a header that
    fails validation and falls into the byte-wise second pass. *)
Lemma positions_read_example :
  positions_read (header "8BPS" [0; 0; 0; 50] [0; 0; 0; 100] [0; 3] [0; 3])%N
  = [0; 1; 2; 3; 4; 5; 14; 15; 16; 17; 18; 19; 20; 21; 22; 23; 24; 25;
     18; 19; 20; 21; 14; 15; 16; 17; 22; 23; 24; 25]%nat.
Proof. reflexivity. Qed.

(** *** Validation errors and the second pass *)

Lemma byte_value_range b : (0 <= byte_value b < 256)%Z.
Proof.
  unfold byte_value. pose proof (Byte.to_N_bounded b). lia.
Qed.

Lemma operand_range o : (0 <= operand o < 256)%Z.
Proof. destruct o; simpl; [apply byte_value_range | lia]. Qed.

(** A declared 32-bit field in terms of the four bytes read one by one. *)
Lemma declared_32 data offset :
  (offset + 4 <= List.length data)%nat ->
  declared data offset 4
  = (((operand (nth_error data offset) * 256
       + operand (nth_error data (offset + 1))) * 256
      + operand (nth_error data (offset + 2))) * 256
     + operand (nth_error data (offset + 3)))%Z.
Proof.
  intros H. unfold declared.
  pose proof (length_skipn offset data) as Hl.
  rewrite <- (Nat.add_0_r offset) at 2.
  rewrite <- !nth_error_skipn.
  destruct (skipn offset data) as [|a [|b [|c [|d rest]]]];
    simpl in Hl; try lia.
  unfold big_endian. cbn [firstn fold_left nth_error operand Nat.add].
  lia.
Qed.

(** A buffer with a wrong signature is handed to the second pass: it is
    refused with the signature error only if the second pass refuses it. *)
Lemma wrong_signature_outcome data :
  (26 <= List.length data)%nat ->
  fromCharCode (firstn 4 data) <> "8BPS" ->
  extractBasicPSDInfo data = secondPass data InvalidSignature.
Proof.
  intros Hlen Hsig. rewrite (extractBasicPSDInfo_long data Hlen).
  apply String.eqb_neq in Hsig. rewrite Hsig. reflexivity.
Qed.

(** The width half of C4 holds for every signed buffer: a declared width
    of 0 or of 40000 is refused, by the first pass and by the second. *)
Lemma invalid_width_is_refused data :
  (26 <= List.length data)%nat ->
  firstn 4 data = list_byte_of_string "8BPS" ->
  declared data 18 4 = 0%Z \/ declared data 18 4 = 40000%Z ->
  extractBasicPSDInfo data = Throw (Error "Invalid dimensions detected").
Proof.
  intros Hlen Hsig Hw.
  rewrite (extractBasicPSDInfo_long data Hlen), Hsig.
  change (negb (fromCharCode (list_byte_of_string "8BPS") =? "8BPS"))
    with false.
  cbv iota zeta.
  pose proof (declared_32 data 18 ltac:(lia)) as Hd.
  pose proof (operand_range (nth_error data 18)) as R18.
  pose proof (operand_range (nth_error data (18 + 1))) as R19.
  pose proof (operand_range (nth_error data (18 + 2))) as R20.
  pose proof (operand_range (nth_error data (18 + 3))) as R21.
  unfold secondPass, bytewise. cbn [map].
  change (18 + 1)%nat with 19%nat in *.
  change (18 + 2)%nat with 20%nat in *.
  change (18 + 3)%nat with 21%nat in *.
  destruct Hw as [Hw | Hw]; rewrite Hw in *.
  - assert (E18 : operand (nth_error data 18) = 0%Z) by lia.
    assert (E19 : operand (nth_error data 19) = 0%Z) by lia.
    assert (E20 : operand (nth_error data 20) = 0%Z) by lia.
    assert (E21 : operand (nth_error data 21) = 0%Z) by lia.
    rewrite E18, E19, E20, E21. reflexivity.
  - assert (E18 : operand (nth_error data 18) = 0%Z) by lia.
    assert (E19 : operand (nth_error data 19) = 0%Z) by lia.
    assert (E20 : operand (nth_error data 20) = 156%Z) by lia.
    assert (E21 : operand (nth_error data 21) = 64%Z) by lia.
    rewrite E18, E19, E20, E21.
    change (bor (bor (bor (shl 0 24) (shl 0 16)) (shl 156 8)) 64)
      with 40000%Z.
    change (40000 <=? 0)%Z with false.
    change (40000 >? 30000)%Z with true.
    change (40000 >? 0)%Z with true.
    change (40000 <? 30000)%Z with false.
    destruct (declared data 14 4 <=? 0)%Z; cbn [orb];
      (destruct (_ >? 0)%Z; reflexivity).
Qed.

(** C3 (the code departs from the claim): a 26-byte buffer whose first four
    bytes are not the signature, but whose bytes 14..21 spell plausible
    dimensions, is accepted: the signature error thrown inside the [try] is
    caught by the [catch] meant for [DataView] failures, and the byte-wise
    second pass returns a record. *)
Theorem C3_unsigned_buffer_is_accepted :
  let data :=
    (header "XXXX" [0; 0; 0; 50] [0; 0; 0; 100] [0; 8] [0; 3])%N in
  List.length data = 26%nat
  /\ firstn 4 data <> list_byte_of_string "8BPS"
  /\ extractBasicPSDInfo data
     = Normal {| width := 100; height := 50; bitDepth := 8;
                 colorMode := "RGB"; version := 1; rawColorMode := 3 |}.
Proof.
  cbv zeta. split; [reflexivity|]. split; [discriminate | reflexivity].
Qed.

(** C4 (the code departs from the claim): a correctly signed header that
    declares bit depth 3 with valid dimensions is accepted, through the same
    [catch]; the record even carries the bit depth 3. *)
Theorem C4_bit_depth_3_is_accepted :
  let data :=
    (header "8BPS" [0; 0; 0; 50] [0; 0; 0; 100] [0; 3] [0; 3])%N in
  List.length data = 26%nat
  /\ firstn 4 data = list_byte_of_string "8BPS"
  /\ declared data 22 2 = 3%Z
  /\ extractBasicPSDInfo data
     = Normal {| width := 100; height := 50; bitDepth := 3;
                 colorMode := "RGB"; version := 1; rawColorMode := 3 |}.
Proof. cbv zeta. repeat split. Qed.

End HeaderFacts.

(** ** Decode ladder and layer extraction *)

Module AnalysisFacts.

Import Header FileProcessor Statements.

(** When the third rung decodes, the loop breaks with its tree: the result
    is the ordinary analysis of that tree, noted as method 3. *)
Lemma third_rung_result readPsd data filename e1 e2 psd :
  rung readPsd data 0 = Some (Throw e1) ->
  rung readPsd data 1 = Some (Throw e2) ->
  rung readPsd data 2 = Some (Normal (Psd.Tree psd)) ->
  analyzePSDData readPsd data filename
  = Normal (analysisOfPsd psd filename (List.length data)
              (Some "Used fallback parsing method 3")).
Proof.
  unfold rung, analyzePSDData, parseAttempts; simpl.
  intros H1 H2 H3.
  injection H1 as H1; injection H2 as H2; injection H3 as H3.
  rewrite H1, H2, H3. reflexivity.
Qed.

(** C1, as stated, fails: with the two richer rungs failing and the third,
    header-and-resources-only rung succeeding (the header reader succeeds
    too), the analysis carries no [isLimitedParse] and no layer at all. *)
Lemma C1_third_rung_is_not_limited :
  fails (rung minimalOnly sampleHeader 0)
  /\ fails (rung minimalOnly sampleHeader 1)
  /\ succeeds (rung minimalOnly sampleHeader 2)
  /\ (exists info, extractBasicPSDInfo sampleHeader = Normal info)
  /\ ~ limitedParse (analyzePSDData minimalOnly sampleHeader "a.psd").
Proof.
  split; [eexists; reflexivity|].
  split; [eexists; reflexivity|].
  split; [eexists; reflexivity|].
  split; [eexists; reflexivity|].
  intros (a & l & Ha & Hlim & _).
  vm_compute in Ha. injection Ha as <-. discriminate Hlim.
Qed.

(** C1, amended: when all three rungs fail and the header reader succeeds,
    the analysis is the header-only one: [isLimitedParse = true] and exactly
    one layer, named "Background", of raster type. *)
Theorem C1_header_only_fallback readPsd data filename info :
  fails (rung readPsd data 0) ->
  fails (rung readPsd data 1) ->
  fails (rung readPsd data 2) ->
  extractBasicPSDInfo data = Normal info ->
  limitedParse (analyzePSDData readPsd data filename)
  /\ analyzePSDData readPsd data filename
     = Normal (createFallbackAnalysis info filename (List.length data)
                 (Header.colorMode info ++ " file - header analysis only")%string).
Proof.
  unfold fails, rung, analyzePSDData, parseAttempts; simpl.
  intros [e1 H1] [e2 H2] [e3 H3] Hinfo.
  injection H1 as H1; injection H2 as H2; injection H3 as H3.
  rewrite H1, H2, H3, Hinfo.
  split; [|reflexivity].
  eexists; eexists.
  split; [reflexivity|].
  repeat split.
Qed.

Lemma C1_witness :
  limitedParse (analyzePSDData refuseAll sampleHeader "a.psd").
Proof.
  apply (@C1_header_only_fallback refuseAll sampleHeader "a.psd"
           {| Header.width := 100; Header.height := 50; Header.bitDepth := 8;
              Header.colorMode := "RGB"; Header.version := 1;
              Header.rawColorMode := 3 |});
    try (eexists; reflexivity); reflexivity.
Defined.

(** *** Layer order *)

Lemma processLayer_childless layer depth :
  childless layer -> processLayer layer depth = [layerInfo layer depth].
Proof.
  intros [H | H]; destruct layer; simpl in *; rewrite H; reflexivity.
Qed.

(** The extractor reverses the sequence of the walks of the top-level
    layers, whatever their number. *)
Lemma extractLayers_top_level psd tops :
  Psd.psd_children psd = Some tops ->
  extractLayers psd
  = flat_map (fun layer => rev (processLayer layer 0)) (rev tops).
Proof.
  unfold extractLayers. intros ->.
  induction tops as [|t tops IH]; [reflexivity|].
  simpl. rewrite rev_app_distr, IH.
  rewrite flat_map_app. simpl. rewrite app_nil_r. reflexivity.
Qed.

(** C6, as stated, fails on a tree with a group: for top-level layers
    [A; B; C] where A is a group holding A1, the output has four entries,
    C, B, A1, A. *)
Lemma C6_group_adds_entries :
  let A := groupLayer "A" [leafLayer "A1"] in
  let B := leafLayer "B" in
  let C := leafLayer "C" in
  Psd.psd_children (treeOf [A; B; C]) = Some [A; B; C]
  /\ map name (extractLayers (treeOf [A; B; C])) = ["C"; "B"; "A1"; "A"]
  /\ extractLayers (treeOf [A; B; C])
     <> [layerInfo C 0; layerInfo B 0; layerInfo A 0].
Proof.
  cbv zeta. split; [reflexivity|]. split; [reflexivity|].
  intros H. apply (f_equal (@List.length _)) in H. discriminate H.
Qed.

(** C6, amended: for top-level layers [A; B; C] in source order the output
    is the walk of C, then of B, then of A, each walk reversed (so the
    descendants of a group come before it); when the three layers have no
    child layers the output is exactly [C; B; A]. *)
Theorem C6_layer_order_reversed psd A B C :
  Psd.psd_children psd = Some [A; B; C] ->
  extractLayers psd
  = rev (processLayer C 0) ++ rev (processLayer B 0) ++ rev (processLayer A 0)
  /\ (childless A -> childless B -> childless C ->
      extractLayers psd = [layerInfo C 0; layerInfo B 0; layerInfo A 0]).
Proof.
  intros H. rewrite (extractLayers_top_level psd H). simpl.
  rewrite app_nil_r. split; [reflexivity|].
  intros HA HB HC.
  rewrite (processLayer_childless 0 HA), (processLayer_childless 0 HB),
    (processLayer_childless 0 HC).
  reflexivity.
Qed.

Lemma C6_witness :
  extractLayers (treeOf [leafLayer "A"; leafLayer "B"; leafLayer "C"])
  = [layerInfo (leafLayer "C") 0; layerInfo (leafLayer "B") 0;
     layerInfo (leafLayer "A") 0].
Proof.
  apply (@C6_layer_order_reversed
           (treeOf [leafLayer "A"; leafLayer "B"; leafLayer "C"])
           (leafLayer "A") (leafLayer "B") (leafLayer "C"));
    try reflexivity; left; reflexivity.
Defined.

End AnalysisFacts.

(** ** Filename check and scoring *)

Module ScoringFacts.

Import JsString FileProcessor Statements.

(** *** Splitting and the last segment *)

Lemma split_not_nil c s : split c s <> [].
Proof.
  destruct s as [|x s]; simpl; [discriminate|].
  destruct (Ascii.eqb x c); [discriminate|].
  destruct (split c s); discriminate.
Qed.

Lemma split_without c s : hasChar c s = false -> split c s = [s].
Proof.
  induction s as [|x s IH]; simpl; [reflexivity|].
  intros H. apply orb_false_iff in H as [Hx Hs].
  rewrite Hx, (IH Hs). reflexivity.
Qed.

Lemma last_cons_not_nil (x : string) l d : l <> [] -> last (x :: l) d = last l d.
Proof. destruct l; [contradiction | reflexivity]. Qed.

(** The last segment of a string, one character at a time. *)
Lemma pop_split_cons c x s :
  pop (split c (String x s))
  = if hasChar c s then pop (split c s)
    else if Ascii.eqb x c then s else String x s.
Proof.
  unfold pop. simpl.
  destruct (hasChar c s) eqn:Hs.
  - destruct (Ascii.eqb x c).
    + apply last_cons_not_nil, split_not_nil.
    + destruct (split c s) as [|seg rest] eqn:E.
      * exfalso; exact (split_not_nil _ _ E).
      * destruct rest as [|r rest]; [|reflexivity].
        (* a single segment: no separator in [s] *)
        exfalso. clear -E Hs.
        revert seg E Hs. induction s as [|y s IH]; simpl; intros seg E Hs;
          [discriminate|].
        destruct (Ascii.eqb y c) eqn:Hy.
        -- destruct (split c s) eqn:E'; [exact (split_not_nil _ _ E')|].
           discriminate.
        -- simpl in Hs. destruct (split c s) as [|seg' rest'] eqn:E';
             [exact (split_not_nil _ _ E')|].
           injection E as _ Hrest. subst rest'.
           exact (IH seg' eq_refl Hs).
  - rewrite (split_without _ _ Hs).
    destruct (Ascii.eqb x c); reflexivity.
Qed.

Lemma pop_split_without c s : hasChar c s = false -> pop (split c s) = s.
Proof. intros H. rewrite (split_without _ _ H). reflexivity. Qed.

Lemma hasChar_app c a b : hasChar c (a ++ b) = hasChar c a || hasChar c b.
Proof.
  induction a as [|x a IH]; simpl; [reflexivity|].
  rewrite IH, orb_assoc. reflexivity.
Qed.

Lemma pop_split_app c a b :
  pop (split c (a ++ b))
  = if hasChar c b then pop (split c b) else (pop (split c a) ++ b)%string.
Proof.
  induction a as [|x a IH].
  - simpl. destruct (hasChar c b) eqn:Hb; [reflexivity|].
    apply pop_split_without, Hb.
  - change (String x a ++ b)%string with (String x (a ++ b)).
    rewrite !pop_split_cons, hasChar_app, IH.
    destruct (hasChar c b) eqn:Hb.
    + rewrite orb_true_r. reflexivity.
    + rewrite orb_false_r.
      destruct (hasChar c a); [reflexivity|].
      destruct (Ascii.eqb x c); reflexivity.
Qed.

Lemma pop_split_after c a b :
  pop (split c (a ++ String c b)) = pop (split c b).
Proof.
  rewrite pop_split_app.
  replace (hasChar c (String c b)) with true
    by (simpl; rewrite Ascii.eqb_refl; reflexivity).
  rewrite pop_split_cons, Ascii.eqb_refl.
  destruct (hasChar c b) eqn:Hb; [reflexivity|].
  symmetry. apply pop_split_without, Hb.
Qed.

Lemma baseFilename_slash dir name :
  baseFilename (dir ++ "/" ++ name) = baseFilename name.
Proof.
  unfold baseFilename.
  change ("/" ++ name)%string with (String "/" name).
  rewrite pop_split_after. reflexivity.
Qed.

Lemma baseFilename_backslash dir name :
  baseFilename (dir ++ "\" ++ name) = baseFilename name.
Proof.
  unfold baseFilename.
  change ("\" ++ name)%string with (String "\" name).
  rewrite pop_split_app. simpl hasChar.
  destruct (hasChar "/" name) eqn:Hn.
  - rewrite pop_split_cons, Hn. reflexivity.
  - rewrite pop_split_after, (pop_split_without _ _ Hn). reflexivity.
Qed.

Lemma baseFilename_plain name :
  hasChar "/" name = false -> hasChar "\" name = false ->
  baseFilename name = name.
Proof.
  intros Hs Hb. unfold baseFilename.
  rewrite (pop_split_without _ _ Hs). apply pop_split_without, Hb.
Qed.

Lemma stripSuffix_psd name : stripSuffix ".psd" (name ++ ".psd") = name.
Proof.
  assert (Hlen : forall s, String.length (s ++ ".psd") = (String.length s + 4)%nat).
  { induction s as [|c s IH]; simpl; [reflexivity | rewrite IH; reflexivity]. }
  induction name as [|c name IH]; [reflexivity|].
  simpl append. cbn [stripSuffix].
  replace (String.length (String c (name ++ ".psd")) =? String.length ".psd")%nat
    with false.
  - simpl. f_equal. exact IH.
  - symmetry. apply Nat.eqb_neq. simpl. rewrite Hlen. lia.
Qed.

(** C10: in every mode the checker works on the base name only: whatever
    the pattern, its type, the case switch and the regular-expression
    engine, a candidate [dir/Name] (or [dir\Name]) is accepted exactly when
    [Name] is.  The base name is the last segment: for a [Name] without
    separator, what is kept of [dir/Name] and of [dir\Name] is [Name]
    itself, and in the exact, case-sensitive mode [dir/Name.psd] is
    accepted exactly when [Name] is the pattern. *)
Theorem C10_directory_is_stripped
  (RegExp_test : string -> bool -> string -> option bool)
  (dir name pattern patternType caseSensitive : string) :
  baseFilename (dir ++ "/" ++ name) = baseFilename name
  /\ checkFilename RegExp_test (dir ++ "/" ++ name) pattern patternType
       caseSensitive
     = checkFilename RegExp_test name pattern patternType caseSensitive
  /\ checkFilename RegExp_test (dir ++ "\" ++ name) pattern patternType
       caseSensitive
     = checkFilename RegExp_test name pattern patternType caseSensitive
  /\ (hasChar "/" name = false -> hasChar "\" name = false ->
      baseFilename (dir ++ "/" ++ name) = name
      /\ baseFilename (dir ++ "\" ++ name) = name
      /\ checkFilename RegExp_test (dir ++ "/" ++ name ++ ".psd") pattern
           "exact" "yes"
         = String.eqb name pattern).
Proof.
  split; [apply baseFilename_slash|].
  split; [|split].
  - unfold checkFilename. rewrite baseFilename_slash. reflexivity.
  - unfold checkFilename. rewrite baseFilename_backslash. reflexivity.
  - intros Hs Hb.
    split; [rewrite baseFilename_slash; apply baseFilename_plain; assumption|].
    split;
      [rewrite baseFilename_backslash; apply baseFilename_plain; assumption|].
    unfold checkFilename. cbv zeta.
    rewrite baseFilename_slash, baseFilename_plain.
    + rewrite stripSuffix_psd. reflexivity.
    + rewrite hasChar_app, Hs. reflexivity.
    + rewrite hasChar_app, Hb. reflexivity.
Qed.

Lemma C10_witness :
  baseFilename ("week1" ++ "/" ++ "Poster") = "Poster"
  /\ baseFilename ("week1" ++ "\" ++ "Poster") = "Poster"
  /\ checkFilename RegExp.test ("week1" ++ "/" ++ "Poster" ++ ".psd") "Poster"
       "exact" "yes"
     = true.
Proof.
  destruct (C10_directory_is_stripped RegExp.test "week1" "Poster" "Poster"
              "exact" "yes") as (_ & _ & _ & H).
  destruct H as (H1 & H2 & H3); [reflexivity | reflexivity |].
  split; [exact H1|]. split; [exact H2 | exact H3].
Defined.

(** C7: the template [{CLASS}_{LASTNAME}_{ASSIGNMENT}], case-insensitive,
    accepts [DES222_Smith_A01] and refuses [DES222Smith_A01], in the checker
    of the grader, in the front-end validator and in the server's validator
    alike. *)
Theorem C7_template_match :
  checkFilename RegExp.test "DES222_Smith_A01.psd"
    "{CLASS}_{LASTNAME}_{ASSIGNMENT}" "custom" "no" = true
  /\ checkFilename RegExp.test "DES222Smith_A01.psd"
       "{CLASS}_{LASTNAME}_{ASSIGNMENT}" "custom" "no" = false
  /\ FilenamePatterns.validateFilename RegExp.test "DES222_Smith_A01.psd"
       "{CLASS}_{LASTNAME}_{ASSIGNMENT}" "custom" false = true
  /\ FilenamePatterns.validateFilename RegExp.test "DES222Smith_A01.psd"
       "{CLASS}_{LASTNAME}_{ASSIGNMENT}" "custom" false = false
  /\ FilenamePatterns.validatePlaceholderPattern RegExp.test
       "DES222_Smith_A01" "{CLASS}_{LASTNAME}_{ASSIGNMENT}" false = true
  /\ FilenamePatterns.validatePlaceholderPattern RegExp.test
       "DES222Smith_A01" "{CLASS}_{LASTNAME}_{ASSIGNMENT}" false = false
  /\ Server.validateFilenamePattern RegExp.test "DES222_Smith_A01.psd"
       "{CLASS}_{LASTNAME}_{ASSIGNMENT}" "custom" false = true
  /\ Server.validateFilenamePattern RegExp.test "DES222Smith_A01.psd"
       "{CLASS}_{LASTNAME}_{ASSIGNMENT}" "custom" false = false.
Proof. vm_compute. repeat split. Qed.

(** The regular expression the template compiles to. *)
Lemma template_regex :
  expandPlaceholders "([A-Za-z]*\d[A-Za-z0-9]*)"
    (escapeRegExp
       (protectPlaceholders (toLowerCase "{CLASS}_{LASTNAME}_{ASSIGNMENT}")))
  = "([A-Za-z]{2,5}[\s-]?\d{2,4})_([A-Za-z]+)_([A-Za-z]*\d[A-Za-z0-9]*)".
Proof. reflexivity. Qed.

(** *** Scoring *)



(** The maximum that error records carry agrees on these criteria. *)
Lemma getMaxScore_widthOnly : getMaxScore widthOnly = 20%Z.
Proof. reflexivity. Qed.

End ScoringFacts.

(** ** Font rule and submission decoder *)

Module ServerFacts.

Import JsString Server Statements.

(** C9: a document in which no font is found passes the font rule, whatever
    the approved and required lists. *)
Theorem C9_no_fonts_passes (psdData : Psd.Psd) (criteria : FontCriteria) :
  extractFonts (Psd.psd_children psdData) = [] ->
  valid (checkFontRequirements psdData criteria) = true
  /\ usedFonts (checkFontRequirements psdData criteria) = []
  /\ violations (checkFontRequirements psdData criteria) = [].
Proof.
  intros H. unfold checkFontRequirements. rewrite H. simpl.
  repeat split.
Qed.

Lemma C9_witness :
  let psdData :=
    treeOf [leafLayer "Background"] in
  approvedFonts strictFonts <> Some []
  /\ valid (checkFontRequirements psdData strictFonts) = true.
Proof.
  cbv zeta. split; [discriminate|].
  apply (@C9_no_fonts_passes
           (treeOf [leafLayer "Background"])
           strictFonts).
  reflexivity.
Defined.

(** With a font in use the lists do matter. *)
Lemma unapproved_font_fails :
  let result :=
    checkFontRequirements (treeOf [textLayer "Title" "Comic Sans"])
      strictFonts in
  usedFonts result = ["Comic Sans"]
  /\ valid result = false
  /\ violations result
     = ["Unapproved font: Comic Sans"; "Missing required font: Garamond"].
Proof. vm_compute. repeat split. Qed.

(** C8: the sample name decodes to a late submission of user 12345,
    submission 67890, original file name [MyFile]; and in general, for a
    name of at least five segments, the user id, the submission id and the
    original name sit at segments 2, 3 and 4.. when segment 1 is [LATE], and
    at segments 1, 2 and 3.. otherwise. *)
Theorem C8_canvas_filename :
  (exists info,
     parseCanvasFilename "johnSmith_LATE_12345_67890_MyFile.psd" = Some info
     /\ isLate info = true /\ userId info = "12345"
     /\ submissionId info = "67890" /\ originalFilename info = "MyFile")
  /\ forall filename,
       (5 <= List.length (segments filename))%nat ->
       exists info start,
         parseCanvasFilename filename = Some info
         /\ (isLate info = true <-> nth_error (segments filename) 1 = Some "LATE")
         /\ start = (if isLate info then 2 else 1)%nat
         /\ nth_error (segments filename) start = Some (userId info)
         /\ nth_error (segments filename) (start + 1)
            = Some (submissionId info)
         /\ originalFilename info
            = join "_" (skipn (start + 2) (segments filename)).
Proof.
  split.
  - eexists. split; [reflexivity|]. repeat split.
  - intros filename Hlen. unfold parseCanvasFilename.
    fold (segments filename).
    assert (Hlt : (List.length (segments filename) <? 5)%nat = false)
      by (apply Nat.ltb_ge; exact Hlen).
    rewrite Hlt.
    eexists. exists (if String.eqb (part (segments filename) 1) "LATE"
                     then 2%nat else 1%nat).
    split; [reflexivity|].
    cbn [isLate userId submissionId originalFilename].
    split.
    { unfold part. split.
      - intros H. apply String.eqb_eq in H. rewrite <- H.
        apply nth_error_nth'. lia.
      - intros H. apply String.eqb_eq.
        apply (nth_error_nth _ _ EmptyString) in H. exact H. }
    split; [reflexivity|].
    unfold part.
    destruct (String.eqb (nth 1 (segments filename) EmptyString) "LATE");
      (split; [apply nth_error_nth'; lia|]);
      (split; [apply nth_error_nth'; cbn [Nat.add]; lia | reflexivity]).
Qed.

Lemma C8_witness :
  (5 <= List.length (segments "ada_98765_43210_Poster_v2.psd"))%nat
  /\ exists info,
       parseCanvasFilename "ada_98765_43210_Poster_v2.psd" = Some info
       /\ isLate info = false /\ userId info = "98765"
       /\ submissionId info = "43210" /\ originalFilename info = "Poster_v2".
Proof.
  split; [vm_compute; lia|].
  destruct C8_canvas_filename as [_ H].
  destruct (H "ada_98765_43210_Poster_v2.psd") as (info & start & Hp & _);
    [vm_compute; lia|].
  exists info. split; [exact Hp|].
  vm_compute in Hp. injection Hp as <-. repeat split.
Defined.

End ServerFacts.

(** * Further properties *)

(** ** Header Reader *)

Module HeaderExtra.

Import Header Statements.

Local Unset Implicit Arguments.

Lemma secondPass_dimensions data error info :
  secondPass data error = Normal info ->
  (0 < width info < 30000 /\ 0 < height info < 30000)%Z.
Proof.
  unfold secondPass. cbv zeta.
  generalize (bytewise data [18; 19; 20; 21]%nat),
    (bytewise data [14; 15; 16; 17]%nat),
    (bytewise data [22; 23]%nat), (bytewise data [24; 25]%nat).
  intros w h d c.
  destruct ((w >? 0) && (h >? 0) && (w <? 30000) && (h <? 30000))%Z eqn:E;
    [|discriminate].
  intros H. injection H as <-. cbn [width height].
  repeat (apply andb_true_iff in E as [E ?]).
  lia.
Qed.

(** X1: whenever the reader returns a record, the buffer had at least 26
    bytes and the width and the height of the record lie in 1..30000; this
    holds on the first pass and on the byte-wise second pass alike. *)
Theorem returned_dimensions_in_range (data : list byte) (info : BasicInfo) :
  extractBasicPSDInfo data = Normal info ->
  (26 <= List.length data)%nat
  /\ (0 < width info <= 30000)%Z /\ (0 < height info <= 30000)%Z.
Proof.
  intros H.
  destruct (List.length data <? 26)%nat eqn:Hlen.
  - unfold extractBasicPSDInfo, extractBasicPSDInfo_reads in H.
    rewrite Hlen in H. discriminate H.
  - apply Nat.ltb_ge in Hlen. split; [exact Hlen|].
    rewrite (HeaderFacts.extractBasicPSDInfo_long data Hlen) in H.
    destruct (negb _) in H.
    { apply secondPass_dimensions in H. lia. }
    cbv zeta in H.
    destruct (_ || _ || _ || _)%bool eqn:E in H.
    { apply secondPass_dimensions in H. lia. }
    destruct (negb _ && _ && _ && _)%bool in H.
    { apply secondPass_dimensions in H. lia. }
    injection H as <-. cbn [width height].
    repeat (apply orb_false_iff in E as [E ?]).
    lia.
Qed.

Lemma returned_dimensions_witness :
  exists info,
    extractBasicPSDInfo sampleHeader = Normal info
    /\ (0 < width info <= 30000)%Z /\ (0 < height info <= 30000)%Z.
Proof.
  eexists. split; [reflexivity|].
  apply (returned_dimensions_in_range sampleHeader). reflexivity.
Defined.

Lemma declared_app header rest offset size :
  (offset + size <= List.length header)%nat ->
  declared (header ++ rest) offset size = declared header offset size.
Proof.
  intros H. unfold declared.
  rewrite skipn_app.
  replace (offset - List.length header)%nat with 0%nat by lia.
  rewrite firstn_app.
  rewrite length_skipn.
  replace (size - (List.length header - offset))%nat with 0%nat by lia.
  simpl. rewrite app_nil_r. reflexivity.
Qed.

Lemma bytewise_app header rest offsets :
  Forall (fun i => (i < List.length header)%nat) offsets ->
  bytewise (header ++ rest) offsets = bytewise header offsets.
Proof.
  intros H. unfold bytewise.
  replace (map (fun i => operand (nth_error (header ++ rest) i)) offsets)
    with (map (fun i => operand (nth_error header i)) offsets);
    [reflexivity|].
  apply map_ext_in. intros i Hi.
  rewrite Forall_forall in H. specialize (H i Hi).
  rewrite nth_error_app1 by exact H. reflexivity.
Qed.

Lemma secondPass_app header rest error :
  (26 <= List.length header)%nat ->
  secondPass (header ++ rest) error = secondPass header error.
Proof.
  intros H. unfold secondPass.
  rewrite !bytewise_app; [reflexivity | ..];
    repeat (constructor; [lia|]); constructor.
Qed.

(** X2: the reader looks at the first 26 bytes only: whatever follows a
    header of at least 26 bytes, the result is the same. *)
Theorem trailing_bytes_are_ignored (header rest : list byte) :
  (26 <= List.length header)%nat ->
  extractBasicPSDInfo (header ++ rest) = extractBasicPSDInfo header.
Proof.
  intros H.
  assert (H' : (26 <= List.length (header ++ rest))%nat)
    by (rewrite length_app; lia).
  rewrite (HeaderFacts.extractBasicPSDInfo_long _ H'),
    (HeaderFacts.extractBasicPSDInfo_long _ H).
  rewrite !secondPass_app by exact H.
  rewrite !declared_app by lia.
  rewrite firstn_app.
  replace (4 - List.length header)%nat with 0%nat by lia.
  simpl firstn at 2. rewrite app_nil_r. reflexivity.
Qed.

Lemma trailing_bytes_witness :
  extractBasicPSDInfo (sampleHeader ++ bytes [1; 2; 3]%N)
  = extractBasicPSDInfo sampleHeader.
Proof.
  apply (trailing_bytes_are_ignored sampleHeader (bytes [1; 2; 3]%N)).
  simpl; lia.
Defined.

(** X3: a signed header whose declared width and height lie in 1..30000
    and whose declared bit depth is 1, 8, 16 or 32 is accepted, and the
    record carries the declared fields, big-endian, and the name of the
    declared colour mode when the table has one. *)
Theorem valid_header_fields (data : list byte) :
  (26 <= List.length data)%nat ->
  firstn 4 data = list_byte_of_string "8BPS" ->
  (0 < declared data 18 4 <= 30000)%Z ->
  (0 < declared data 14 4 <= 30000)%Z ->
  In (declared data 22 2) [1; 8; 16; 32]%Z ->
  exists info,
    extractBasicPSDInfo data = Normal info
    /\ width info = declared data 18 4
    /\ height info = declared data 14 4
    /\ bitDepth info = declared data 22 2
    /\ version info = declared data 4 2
    /\ rawColorMode info = declared data 24 2
    /\ (forall name,
          lookup colorModes (declared data 24 2) = Some name ->
          colorMode info = name).
Proof.
  intros Hlen Hsig Hw Hh Hd.
  rewrite (HeaderFacts.extractBasicPSDInfo_long data Hlen), Hsig.
  change (negb (fromCharCode (list_byte_of_string "8BPS") =? "8BPS"))
    with false.
  cbv iota zeta.
  replace ((declared data 18 4 <=? 0) || (declared data 14 4 <=? 0)
           || (declared data 18 4 >? 30000)
           || (declared data 14 4 >? 30000))%Z with false.
  2:{ symmetry. repeat (apply orb_false_iff; split); lia. }
  replace (negb (declared data 22 2 =? 1) && negb (declared data 22 2 =? 8)
           && negb (declared data 22 2 =? 16)
           && negb (declared data 22 2 =? 32))%Z with false.
  2:{ simpl in Hd.
      destruct Hd as [<- | [<- | [<- | [<- | []]]]]; reflexivity. }
  eexists. split; [reflexivity|]. cbn [width height bitDepth version rawColorMode colorMode].
  repeat split. intros name ->. reflexivity.
Qed.

Lemma valid_header_witness :
  exists info,
    extractBasicPSDInfo sampleHeader = Normal info
    /\ width info = 100%Z /\ height info = 50%Z /\ bitDepth info = 8%Z.
Proof.
  assert (H18 : declared sampleHeader 18 4 = 100%Z) by reflexivity.
  assert (H14 : declared sampleHeader 14 4 = 50%Z) by reflexivity.
  assert (H22 : declared sampleHeader 22 2 = 8%Z) by reflexivity.
  destruct (valid_header_fields sampleHeader) as (info & H & Hw & Hh & Hd & _).
  - simpl; lia.
  - reflexivity.
  - rewrite H18; lia.
  - rewrite H14; lia.
  - rewrite H22; simpl; auto.
  - exists info. split; [exact H|].
    rewrite Hw, Hh, Hd, H18, H14, H22. repeat split.
Defined.

End HeaderExtra.

(** ** Analysis *)

Module AnalysisExtra.

Import Header FileProcessor Statements.

(** Induction on a layer tree: the children of a layer come first. *)
Section LayerInduction.

Variable P : Psd.Layer -> Prop.

Hypothesis step :
  forall layer,
    (forall cs, Psd.children layer = Some cs -> Forall P cs) -> P layer.

Lemma layer_tree_ind : forall layer, P layer.
Proof.
  fix IH 1. intros layer. apply step.
  destruct layer as [n h o b t a e m pl vm vs cs]. simpl.
  destruct cs as [cs|]; intros cs' E; [|discriminate E].
  injection E as <-.
  induction cs as [|c cs IHcs]; constructor.
  - apply IH.
  - exact IHcs.
Qed.

End LayerInduction.

Lemma length_flat_map_sum {A B} (f : A -> list B) (g : A -> nat) l :
  Forall (fun x => List.length (f x) = g x) l ->
  List.length (flat_map f l) = list_sum (map g l).
Proof.
  induction 1 as [|x l Hx Hl IH]; simpl; [reflexivity|].
  rewrite length_app, Hx, IH. reflexivity.
Qed.

Lemma processLayer_count layer :
  forall depth,
    List.length (processLayer layer depth) = Server.countInLayer layer.
Proof.
  induction layer as [layer IH] using layer_tree_ind. intros depth.
  destruct layer as [n h o b t a e m pl vm vs cs]; simpl in *.
  f_equal.
  destruct cs as [cs|]; [|reflexivity].
  apply length_flat_map_sum.
  specialize (IH cs eq_refl).
  eapply Forall_impl; [|exact IH]. intros c Hc. apply Hc.
Qed.

(** One entry per layer of the tree, at any depth. *)
Lemma extractLayers_count (psd : Psd.Psd) :
  List.length (extractLayers psd)
  = match Psd.psd_children psd with
    | Some tops => Server.countInGroup tops
    | None => 0%nat
    end.
Proof.
  unfold extractLayers. rewrite length_rev.
  destruct (Psd.psd_children psd) as [tops|]; [|reflexivity].
  apply length_flat_map_sum.
  apply Forall_forall. intros l _. apply processLayer_count.
Qed.

(** X7: the server's layer counter never answers zero, and on a tree with
    at least one top-level layer it agrees with the number of entries the
    extractor of the grader produces. *)
Theorem countAllLayers_agrees (psdData : Server.PsdData) :
  (1 <= Server.countAllLayers psdData)%nat
  /\ (forall l ls,
        Psd.psd_children (Server.document psdData) = Some (l :: ls) ->
        Server.countAllLayers psdData
        = List.length (extractLayers (Server.document psdData))).
Proof.
  split.
  - unfold Server.countAllLayers.
    destruct (_ =? 0)%nat eqn:E; [lia|]. apply Nat.eqb_neq in E. lia.
  - intros l ls H. rewrite extractLayers_count.
    unfold Server.countAllLayers. rewrite H.
    destruct (_ =? 0)%nat eqn:E; [|reflexivity].
    apply Nat.eqb_eq in E. unfold Server.countInGroup in E.
    simpl in E. destruct l; simpl in E. discriminate E.
Qed.

Lemma countAllLayers_witness :
  Server.countAllLayers
    {| Server.document :=
         treeOf [groupLayer "A" [leafLayer "A1"]; leafLayer "B"];
       Server.psd_layers := None |}
  = List.length
      (extractLayers (treeOf [groupLayer "A" [leafLayer "A1"]; leafLayer "B"])).
Proof.
  destruct (countAllLayers_agrees
              {| Server.document :=
                   treeOf [groupLayer "A" [leafLayer "A1"]; leafLayer "B"];
                 Server.psd_layers := None |}) as [_ H].
  apply (H (groupLayer "A" [leafLayer "A1"]) [leafLayer "B"]). reflexivity.
Defined.

(** Every extracted entry has a name. *)
Lemma or_string_not_empty o d : d <> "" -> or_string o d <> "".
Proof.
  intros Hd. unfold or_string. destruct o as [s|]; [|exact Hd].
  destruct (String.eqb s "") eqn:E; [exact Hd|].
  apply String.eqb_neq. exact E.
Qed.

Lemma processLayer_named layer :
  forall depth, Forall (fun l => name l <> "") (processLayer layer depth).
Proof.
  induction layer as [layer IH] using layer_tree_ind. intros depth.
  destruct layer as [n h o b t a e m pl vm vs cs]; simpl in *.
  constructor.
  - apply or_string_not_empty. discriminate.
  - destruct cs as [cs|]; [|constructor].
    specialize (IH cs eq_refl).
    apply Forall_flat_map.
    eapply Forall_impl; [|exact IH]. intros c Hc. apply Hc.
Qed.

Lemma extractLayers_named psd :
  Forall (fun l => name l <> "") (extractLayers psd).
Proof.
  unfold extractLayers. apply Forall_rev.
  destruct (Psd.psd_children psd) as [tops|]; [|constructor].
  apply Forall_flat_map. apply Forall_forall. intros l _.
  apply processLayer_named.
Qed.

(** The two lists of the [catch (layerError)] path have one entry per
    entry of [children], and its layers are of unknown type. *)
Lemma fallback_lists entries :
  forall index names layers,
    fallbackNames index entries = Normal names ->
    fallbackLayers entries = Normal layers ->
    List.length names = List.length layers
    /\ Forall (fun l => type l = unknown) layers.
Proof.
  induction entries as [|entry entries IH]; intros index names layers.
  - simpl. intros Hn Hl. injection Hn as <-. injection Hl as <-.
    split; [reflexivity | constructor].
  - destruct entry as [name | e]; simpl; [|discriminate].
    destruct (fallbackNames (S index) entries) as [names' | e] eqn:En;
      [|discriminate].
    destruct (fallbackLayers entries) as [layers' | e] eqn:El;
      [|discriminate].
    intros Hn Hl. injection Hn as <-. injection Hl as <-.
    destruct (IH (S index) names' layers' En eq_refl) as [Hlen Hall].
    split; [simpl; rewrite Hlen; reflexivity|].
    constructor; [reflexivity | exact Hall].
Qed.

Lemma analyzePSDData_coherent readPsd data filename a :
  analyzePSDData readPsd data filename = Normal a ->
  layerCount a = List.length (layers a)
  /\ List.length (layerNames a) = List.length (layers a)
  /\ FileProcessor.filename a = filename
  /\ originalFilename a = filename
  /\ fileSize a = List.length data
  /\ (layerNames a = map name (layers a)
      \/ Forall (fun l => type l = unknown) (layers a)).
Proof.
  unfold analyzePSDData.
  assert (Hnormal : forall decoded note r,
            analysisOfDecoded decoded filename (List.length data) note
            = Normal r ->
            layerCount r = List.length (layers r)
            /\ List.length (layerNames r) = List.length (layers r)
            /\ FileProcessor.filename r = filename
            /\ originalFilename r = filename
            /\ fileSize r = List.length data
            /\ (layerNames r = map name (layers r)
                \/ Forall (fun l => type l = unknown) (layers r))).
  { intros [psd | layerError psd] note r; unfold analysisOfDecoded.
    - intros H. injection H as <-. unfold analysisOfPsd. cbn.
      assert (Hnames :
                map (fun layer => if String.eqb (name layer) ""
                                  then "Unnamed Layer" else name layer)
                  (extractLayers psd)
                = map name (extractLayers psd)).
      { apply map_ext_in. intros l Hl.
        pose proof (extractLayers_named psd) as Hn.
        rewrite Forall_forall in Hn. specialize (Hn l Hl).
        apply String.eqb_neq in Hn. rewrite Hn. reflexivity. }
      repeat split; [|left; exact Hnames].
      rewrite Hnames, length_map. reflexivity.
    - cbv zeta. destruct (Psd.psd_children psd) as [|entries|e];
        [| |discriminate].
      + intros H. injection H as <-. cbn.
        repeat split. left; reflexivity.
      + destruct (fallbackNames 0 entries) as [names | e] eqn:En;
          [|discriminate].
        destruct (fallbackLayers entries) as [layers | e] eqn:El;
          [|discriminate].
        intros H. injection H as <-. cbn.
        destruct (fallback_lists entries 0 En El) as [Hlen Hall].
        repeat split; [exact Hlen | right; exact Hall]. }
  set (info := match extractBasicPSDInfo data with
               | Normal i => Some i
               | Throw _ => None
               end).
  unfold parseAttempts. simpl.
  repeat match goal with
         | |- context [match readPsd ?d ?o with _ => _ end] =>
             destruct (readPsd d o)
         end;
    try (intros H; apply (Hnormal _ _ _ H)).
  destruct info; intros H; [|discriminate H].
  injection H as <-. repeat split. left; reflexivity.
Qed.

(** X6: whatever rung or fallback produced it, an analysis is coherent:
    [layerCount] is the number of entries of [layers], [layerNames] has as
    many entries, both file names are the name given, and [fileSize] is the
    length of the buffer.  [layerNames] lists the names of [layers] in
    order, except where the walk of the layers has thrown: the layers are
    then all of unknown type. *)
Theorem analysis_is_coherent readPsd data filename a :
  analyzePSDData readPsd data filename = Normal a ->
  layerCount a = List.length (layers a)
  /\ List.length (layerNames a) = List.length (layers a)
  /\ FileProcessor.filename a = filename
  /\ originalFilename a = filename
  /\ fileSize a = List.length data
  /\ (layerNames a = map name (layers a)
      \/ Forall (fun l => type l = unknown) (layers a)).
Proof. apply analyzePSDData_coherent. Qed.

Lemma analysis_is_coherent_witness :
  exists a,
    analyzePSDData decodeNested sampleHeader "a.psd" = Normal a
    /\ layerCount a = 3%nat
    /\ layerCount a = List.length (layers a)
    /\ layerNames a = map name (layers a).
Proof.
  eexists. split; [reflexivity|]. split; [reflexivity|].
  destruct (@analysis_is_coherent decodeNested sampleHeader "a.psd" _ eq_refl)
    as (H1 & _ & _ & _ & _ & [H2 | H2]).
  - split; [exact H1 | exact H2].
  - exfalso. inversion H2 as [|? ? Ht _]. discriminate Ht.
Defined.

(** Where the walk has thrown the two lists can disagree: an entry without
    a name is "Layer 1" in [layerNames] and "Unnamed Layer" in [layers]. *)
Lemma unnamed_entry_after_layer_error :
  exists a,
    analyzePSDData decodeUnwalkable sampleHeader "a.psd" = Normal a
    /\ layerNames a = ["Layer 1"; "Logo"]
    /\ map name (layers a) = ["Unnamed Layer"; "Logo"]
    /\ map type (layers a) = [unknown; unknown].
Proof. eexists. repeat split. Qed.

(** An entry that is [null] ends the analysis in the outer [catch]. *)
Lemma null_entry_after_layer_error :
  analyzePSDData decodeNullEntry sampleHeader "a.psd"
  = Throw (Error "Failed to extract PSD metadata: Cannot read properties of null (reading 'name')").
Proof. reflexivity. Qed.

(** X4: the first rung that decodes decides, whatever the header reader
    said: the result is the analysis of what it decoded, without a note for
    the first rung and with the note "Used fallback parsing method k" for
    the second and the third; for a tree whose layers can be walked that is
    the analysis [analysisOfPsd] builds. *)
Theorem first_decoding_rung_decides readPsd data filename decoded :
  (rung readPsd data 0 = Some (Normal decoded) ->
   analyzePSDData readPsd data filename
   = analysisOfDecoded decoded filename (List.length data) None)
  /\ (fails (rung readPsd data 0) ->
      rung readPsd data 1 = Some (Normal decoded) ->
      analyzePSDData readPsd data filename
      = analysisOfDecoded decoded filename (List.length data)
          (Some "Used fallback parsing method 2"))
  /\ (fails (rung readPsd data 0) ->
      fails (rung readPsd data 1) ->
      rung readPsd data 2 = Some (Normal decoded) ->
      analyzePSDData readPsd data filename
      = analysisOfDecoded decoded filename (List.length data)
          (Some "Used fallback parsing method 3"))
  /\ (forall psd note,
        decoded = Psd.Tree psd ->
        analysisOfDecoded decoded filename (List.length data) note
        = Normal (analysisOfPsd psd filename (List.length data) note)).
Proof.
  unfold fails, rung, analyzePSDData, parseAttempts; simpl.
  repeat split.
  - intros H. injection H as H. rewrite H. reflexivity.
  - intros [e1 H1] H2. injection H1 as H1. injection H2 as H2.
    rewrite H1, H2. reflexivity.
  - intros [e1 H1] [e2 H2] H3.
    injection H1 as H1. injection H2 as H2. injection H3 as H3.
    rewrite H1, H2, H3. reflexivity.
  - intros psd note ->. reflexivity.
Qed.

Lemma first_decoding_rung_witness :
  analyzePSDData decodeAll (bytes [1; 2; 3]%N) "a.psd"
  = Normal (analysisOfPsd bareTree "a.psd" 3 None).
Proof.
  destruct (@first_decoding_rung_decides decodeAll (bytes [1; 2; 3]%N)
              "a.psd" (Psd.Tree bareTree)) as (H & _ & _ & Htree).
  rewrite H; [|reflexivity].
  apply (Htree bareTree None eq_refl).
Defined.

(** X5: when the three rungs and the header reader all fail, the call
    throws "Unable to analyze PSD file: " followed by the message of the
    last rung; the earlier messages are lost. *)
Theorem unanalyzable_reports_last_error readPsd data filename e1 e2 e3 e :
  rung readPsd data 0 = Some (Throw e1) ->
  rung readPsd data 1 = Some (Throw e2) ->
  rung readPsd data 2 = Some (Throw e3) ->
  extractBasicPSDInfo data = Throw e ->
  analyzePSDData readPsd data filename
  = Throw (Error ("Unable to analyze PSD file: " ++ message e3)).
Proof.
  unfold rung, analyzePSDData, parseAttempts; simpl.
  intros H1 H2 H3 He.
  injection H1 as H1. injection H2 as H2. injection H3 as H3.
  rewrite H1, H2, H3, He. reflexivity.
Qed.

Lemma unanalyzable_witness :
  analyzePSDData refuseByStage (bytes [1; 2; 3]%N) "a.psd"
  = Throw (Error "Unable to analyze PSD file: bad header").
Proof.
  apply (@unanalyzable_reports_last_error refuseByStage (bytes [1; 2; 3]%N)
           "a.psd" (Error "bad layers") (Error "bad resources")
           (Error "bad header") (Error "File too small to be a PSD"));
    reflexivity.
Defined.

End AnalysisExtra.

(** ** Scoring *)

Module ScoringExtra.

Import JsString FileProcessor Statements.

(** *** Totals *)

Lemma sumZ_app l1 l2 : sumZ (l1 ++ l2) = (sumZ l1 + sumZ l2)%Z.
Proof.
  induction l1 as [|x l1 IH]; simpl; [reflexivity|]. rewrite IH. lia.
Qed.

Lemma bounded_evaluate pts ok check t :
  (0 <= pts)%Z -> bounded t -> bounded (evaluate pts ok check t).
Proof.
  destruct t as [[s m] cs]. unfold bounded, evaluate.
  destruct ok; lia.
Qed.

Lemma itemised_evaluate pts ok check t :
  (forall p, points (check p) = p /\ passed (check p) = ok) ->
  itemised t -> itemised (evaluate pts ok check t).
Proof.
  destruct t as [[s m] cs]. unfold itemised, evaluate.
  intros Hc [Hs Hf]. split.
  - rewrite map_app, sumZ_app. simpl.
    destruct (Hc (if ok then pts else 0%Z)) as [-> _].
    destruct ok; lia.
  - apply Forall_app. split; [exact Hf|].
    constructor; [|constructor].
    destruct (Hc (if ok then pts else 0%Z)) as [-> ->].
    destruct ok; [discriminate | reflexivity].
Qed.

(** The totals before the final record is built. *)
Ltac totals_of_gradeFile t E :=
  unfold gradeFile; cbv zeta;
  match goal with
  | |- context [match ?T with (_, _) => _ end] => remember T as t eqn:E
  end.

Ltac walk_bounded :=
  repeat match goal with
         | |- bounded (evaluate _ _ _ _) =>
             apply bounded_evaluate; [assumption|]
         | |- bounded (if ?c then _ else _) => destruct c
         | |- bounded (match ?o with Some _ => _ | None => _ end) =>
             destruct o
         end.

Ltac walk_itemised :=
  repeat match goal with
         | |- itemised (evaluate _ _ _ _) =>
             apply itemised_evaluate; [intros p; split; reflexivity|]
         | |- itemised (if ?c then _ else _) => destruct c
         | |- itemised (match ?o with Some _ => _ | None => _ end) =>
             destruct o
         end.

(** *** Rounding *)

Lemma nearest_even_le a b k :
  (0 < b)%Z -> (a <= k * b)%Z -> (Number.nearest_even a b <= k)%Z.
Proof.
  intros Hb Ha. unfold Number.nearest_even.
  pose proof (Z.div_mod a b ltac:(lia)) as E.
  pose proof (Z.mod_pos_bound a b Hb) as R.
  set (q := (a / b)%Z) in *. set (r := (a mod b)%Z) in *.
  assert (Hq : (q <= k)%Z) by nia.
  destruct (2 * r <? b)%Z eqn:E1; [exact Hq|].
  apply Z.ltb_ge in E1.
  assert (q < k)%Z by nia.
  destruct (b <? 2 * r)%Z; [lia|].
  destruct (Z.even q); lia.
Qed.

Lemma nearest_even_nonneg a b :
  (0 < b)%Z -> (0 <= a)%Z -> (0 <= Number.nearest_even a b)%Z.
Proof.
  intros Hb Ha. unfold Number.nearest_even.
  pose proof (Z.div_pos a b Ha Hb).
  destruct (2 * (a mod b) <? b)%Z; [assumption|].
  destruct (b <? 2 * (a mod b))%Z; [lia|].
  destruct (Z.even (a / b)); lia.
Qed.

(** On the scores of at most 64 points, on negative scores and on some
    larger ones the product of the model is the one that the specification
    of binary64 gives. *)
Lemma product_agrees_with_binary64 :
  forallb
    (fun p =>
       sameValue (Number.mul (Number.div (fst p) (snd p)) 100)
         (specifiedProduct (fst p) (snd p)))
    (pairsUpTo 64
     ++ [(23, 40); (-1, 8); (-5, 8); (7, -11); (29, 200); (113, 200);
         (123456789, 987654321); (3, 2 ^ 40 + 1); (12345678912345, 7);
         (2 ^ 52 + 1, 2 ^ 53 - 1); (2 ^ 53 - 3, 2 ^ 53 - 1);
         (1, 2 ^ 53 - 1); (2 ^ 53 - 1, 1)]%Z)
  = true.
Proof. vm_compute. reflexivity. Qed.

(** A quotient of at most [c] rounds to a double of at most [c]. *)
Lemma positive_nearest_bound a b c :
  (0 < a)%Z -> (0 < b)%Z -> (0 < c)%Z -> (Z.log2 c <= 50)%Z ->
  (a <= c * b)%Z ->
  let x := Number.positive_nearest a b in
  (Number.exponent x < 0)%Z
  /\ (0 <= Number.mantissa x <= c * 2 ^ (- Number.exponent x))%Z.
Proof.
  intros Ha Hb Hc Hlog Hab. cbv zeta.
  assert (He0 : (Z.log2 a - Z.log2 b - 53 + 1 < 0)%Z).
  { assert (Z.log2 a <= Z.log2 (c * b))%Z by (apply Z.log2_le_mono; exact Hab).
    pose proof (Z.log2_mul_above c b ltac:(lia) ltac:(lia)). lia. }
  unfold Number.positive_nearest.
  set (e0 := (Z.log2 a - Z.log2 b - 53)%Z) in *.
  destruct (Number.scaled a b e0) as [n0 d0].
  set (e := if (n0 <? 2 ^ 53 * d0)%Z then e0 else (e0 + 1)%Z).
  assert (He : (e < 0)%Z) by (unfold e; destruct (n0 <? 2 ^ 53 * d0)%Z; lia).
  clearbody e. clear n0 d0.
  unfold Number.scaled.
  replace (0 <=? e)%Z with false by (symmetry; apply Z.leb_gt; exact He).
  cbn [Number.mantissa Number.exponent].
  assert (Hp : (0 < 2 ^ (- e))%Z) by (apply Z.pow_pos_nonneg; lia).
  split; [exact He|]. split.
  - apply nearest_even_nonneg; nia.
  - apply nearest_even_le; [exact Hb | nia].
Qed.

Lemma roundedPercent_range s m :
  (0 <= s <= m)%Z -> (0 < m)%Z -> (0 <= roundedPercent s m <= 100)%Z.
Proof.
  intros Hs Hm. unfold roundedPercent, Number.div, Number.nearest.
  destruct (Z.eq_dec s 0) as [-> | Hs0]; [vm_compute; split; discriminate|].
  replace (Z.sgn s * Z.sgn m)%Z with 1%Z
    by (rewrite (Z.sgn_pos s), (Z.sgn_pos m); lia).
  cbn [Z.eqb]. rewrite Z.mul_1_l, !Z.abs_eq by lia.
  destruct (@positive_nearest_bound s m 1) as (He & Hlo & Hhi);
    [lia | lia | lia | discriminate | lia |].
  destruct (Number.positive_nearest s m) as [x e].
  cbn [Number.mantissa Number.exponent] in *.
  unfold Number.mul. cbn [Number.mantissa Number.exponent].
  replace (0 <=? e)%Z with false by (symmetry; apply Z.leb_gt; exact He).
  assert (Hp : (0 < 2 ^ (- e))%Z) by (apply Z.pow_pos_nonneg; lia).
  unfold Number.nearest.
  destruct (Z.eq_dec x 0) as [-> | Hx0]; [vm_compute; split; discriminate|].
  replace (Z.sgn (x * 100) * Z.sgn (2 ^ (- e)))%Z with 1%Z
    by (rewrite (Z.sgn_pos (x * 100)), (Z.sgn_pos (2 ^ (- e))); lia).
  cbn [Z.eqb]. rewrite !Z.abs_eq by lia.
  destruct (@positive_nearest_bound (x * 100) (2 ^ (- e)) 100)
    as (He' & Hlo' & Hhi'); [lia | lia | lia | discriminate | lia |].
  destruct (Number.positive_nearest (x * 100) (2 ^ (- e))) as [y e'].
  cbn [Number.mantissa Number.exponent] in *.
  unfold Number.round. cbn [Number.mantissa Number.exponent].
  rewrite Z.mul_1_l.
  replace (0 <=? e')%Z with false by (symmetry; apply Z.leb_gt; exact He').
  assert (Hp' : (0 < 2 ^ (- e'))%Z) by (apply Z.pow_pos_nonneg; lia).
  replace (2 ^ (1 - e'))%Z with (2 * 2 ^ (- e'))%Z
    by (replace (1 - e')%Z with (Z.succ (- e')) by lia;
        rewrite Z.pow_succ_r by lia; reflexivity).
  split.
  - apply Z.div_pos; lia.
  - assert ((2 * y + 2 ^ (- e')) / (2 * 2 ^ (- e')) < 101)%Z; [|lia].
    apply Z.div_lt_upper_bound; lia.
Qed.

(** Full marks make 100 percent, whatever the total. *)
Lemma roundedPercent_full t : (0 < t)%Z -> roundedPercent t t = 100%Z.
Proof.
  intros Ht. unfold roundedPercent, Number.div, Number.nearest.
  replace (Z.sgn t * Z.sgn t)%Z with 1%Z by (rewrite (Z.sgn_pos t); lia).
  cbn [Z.eqb]. rewrite Z.abs_eq by lia.
  assert (E : Number.positive_nearest t t
              = {| Number.mantissa := 2 ^ 52; Number.exponent := -52 |}).
  { unfold Number.positive_nearest. rewrite Z.sub_diag.
    change (0 - 53)%Z with (-53)%Z.
    unfold Number.scaled. change (0 <=? -53)%Z with false. cbv iota.
    change (- -53)%Z with 53%Z.
    replace (t * 2 ^ 53 <? 2 ^ 53 * t)%Z with false
      by (symmetry; apply Z.ltb_ge; lia).
    change (-53 + 1)%Z with (-52)%Z. change (0 <=? -52)%Z with false.
    cbv iota. change (- -52)%Z with 52%Z.
    unfold Number.nearest_even.
    rewrite (Z.mul_comm t (2 ^ 52)), Z.div_mul, Z.mod_mul by lia.
    replace (2 * 0 <? t)%Z with true by (symmetry; apply Z.ltb_lt; lia).
    reflexivity. }
  rewrite E. vm_compute. reflexivity.
Qed.

Lemma gradeFile_bounded
  (RegExp_test : string -> bool -> string -> option bool)
  (analysis : Analysis) (criteria : Criteria) :
  (0 <= or_default (pointsPerCriterion criteria) 20)%Z ->
  (0 <= or_default (filenamePoints criteria) 10)%Z ->
  let result := gradeFile RegExp_test analysis criteria in
  (0 <= score result <= maxScore result)%Z
  /\ (0 <= percentage result <= 100)%Z.
Proof.
  intros Hp Hf. cbv zeta.
  totals_of_gradeFile t E.
  assert (H : bounded t).
  { subst t.
    walk_bounded; simpl; lia. }
  clear E. destruct t as [[s m] cs]. simpl in H. cbn [score maxScore percentage].
  split; [exact H|].
  destruct (m >? 0)%Z eqn:Hm; [|lia].
  apply Z.gtb_lt in Hm.
  apply roundedPercent_range; lia.
Qed.

(** X8: when the point values are not negative and the maximum is an
    integer that a double holds exactly (below [2 ^ 53]), the score lies
    between 0 and the maximum, and the percentage, the rounded product of
    doubles, between 0 and 100. *)
Theorem score_within_bounds
  (RegExp_test : string -> bool -> string -> option bool)
  (analysis : Analysis) (criteria : Criteria) :
  (0 <= or_default (pointsPerCriterion criteria) 20)%Z ->
  (0 <= or_default (filenamePoints criteria) 10)%Z ->
  let result := gradeFile RegExp_test analysis criteria in
  (maxScore result < 2 ^ 53)%Z ->
  (0 <= score result <= maxScore result)%Z
  /\ (0 <= percentage result <= 100)%Z.
Proof. intros Hp Hf result _. apply gradeFile_bounded; assumption. Qed.

(** 23 points of 40 make 57 percent: the product of the doubles is just
    below 57.5. *)
Lemma percentage_of_23_of_40 :
  let result := gradeFile RegExp.test sampleAnalysis nameAndWidth in
  score result = 23%Z /\ maxScore result = 40%Z /\ percentage result = 57%Z.
Proof. vm_compute. repeat split. Qed.

Lemma score_within_bounds_witness :
  let result := gradeFile RegExp.test sampleAnalysis nameAndWidth in
  (0 <= score result <= maxScore result)%Z
  /\ (0 <= percentage result <= 100)%Z.
Proof.
  apply (@score_within_bounds RegExp.test sampleAnalysis nameAndWidth);
    [apply Z.leb_le; reflexivity | apply Z.leb_le; reflexivity
     | apply Z.ltb_lt; reflexivity].
Defined.

(** X9: the score is the sum of the points of the reported checks, and a
    check that did not pass carries no points. *)
Theorem score_is_sum_of_checks
  (RegExp_test : string -> bool -> string -> option bool)
  (analysis : Analysis) (criteria : Criteria) :
  let result := gradeFile RegExp_test analysis criteria in
  score result = sumZ (map points (checks result))
  /\ Forall (fun c => passed c = false -> points c = 0%Z) (checks result).
Proof.
  cbv zeta.
  totals_of_gradeFile t E.
  assert (H : itemised t).
  { subst t.
    walk_itemised; simpl; split; (reflexivity || constructor). }
  clear E. destruct t as [[s m] cs]. exact H.
Qed.

Lemma maxOf_evaluate pts ok check t :
  maxOf (evaluate pts ok check t) = (maxOf t + pts)%Z.
Proof. destruct t as [[s m] cs]. reflexivity. Qed.

Ltac split_num o :=
  let z := fresh "z" in
  destruct o as [z|]; cbn [truthy_num]; [destruct (z =? 0)%Z|].

(** X10: the maximum does not depend on the document: it is what
    [getMaxScore] computes from the criteria, except that a required-layers
    field made of white space only counts in [gradeFile] and not in
    [getMaxScore]. *)
Theorem maxScore_and_getMaxScore
  (RegExp_test : string -> bool -> string -> option bool)
  (analysis : Analysis) (criteria : Criteria) :
  maxScore (gradeFile RegExp_test analysis criteria)
  = (getMaxScore criteria
     + match reqLayers criteria with
       | Some names =>
           if blank names then or_default (pointsPerCriterion criteria) 20
           else 0
       | None => 0
       end)%Z.
Proof.
  totals_of_gradeFile t E.
  assert (H : maxScore (let '(s, m, c) := t in
                        {| result_filename := filename analysis;
                           result_originalFilename := originalFilename analysis;
                           score := s; maxScore := m;
                           percentage :=
                             if (m >? 0)%Z then roundedPercent s m else 0%Z;
                           checks := c; analysis := analysis |}) = maxOf t)
    by (destruct t as [[s m] c]; reflexivity).
  rewrite H. clear H. subst t.
  unfold getMaxScore, blank. cbv beta zeta.
  assert (Hblank : trim "" = "") by reflexivity.
  destruct (reqLayers criteria) as [[|ch names]|];
    [ rewrite Hblank;
      change (0 <? String.length "")%nat with false;
      change (String.eqb "" "") with true
    | change (0 <? String.length (String ch names))%nat with true;
      change (String.eqb (String ch names) "") with false;
      destruct (String.eqb (trim (String ch names)) "")
    | ];
    split_num (minLayers criteria);
    destruct (String.eqb (reqColorMode criteria) "");
    split_num (reqHeight criteria);
    split_num (reqWidth criteria);
    destruct (enableFilenameSection criteria);
    cbn [negb andb]; rewrite ?maxOf_evaluate; cbn [maxOf fst snd]; lia.
Qed.

End ScoringExtra.

(** ** Filenames *)

Module FilenameExtra.

Import JsString FileProcessor Statements.

(** *** Strings *)

Lemma append_assoc (a b c : string) :
  ((a ++ b) ++ c)%string = (a ++ (b ++ c))%string.
Proof. induction a as [|x a IH]; simpl; [reflexivity | rewrite IH; reflexivity]. Qed.

Lemma length_append (a b : string) :
  String.length (a ++ b) = (String.length a + String.length b)%nat.
Proof. induction a as [|x a IH]; simpl; [reflexivity | rewrite IH; reflexivity]. Qed.

Lemma lower_idem c : lower (lower c) = lower c.
Proof. destruct c as [[] [] [] [] [] [] [] []]; reflexivity. Qed.

Lemma toLowerCase_idem s : toLowerCase (toLowerCase s) = toLowerCase s.
Proof.
  induction s as [|c s IH]; simpl; [reflexivity|].
  rewrite lower_idem, IH. reflexivity.
Qed.

Lemma toLowerCase_app a b :
  toLowerCase (a ++ b) = (toLowerCase a ++ toLowerCase b)%string.
Proof. induction a as [|x a IH]; simpl; [reflexivity | rewrite IH; reflexivity]. Qed.

Lemma length_toLowerCase s : String.length (toLowerCase s) = String.length s.
Proof. induction s as [|c s IH]; simpl; [reflexivity | rewrite IH; reflexivity]. Qed.

Lemma prefix_lower_toLowerCase p s :
  prefix_by lower p (toLowerCase s) = prefix_by lower p s.
Proof.
  revert s. induction p as [|a p IH]; intros [|b s]; simpl; try reflexivity.
  rewrite lower_idem, IH. reflexivity.
Qed.

(** Stripping the extension commutes with lowering the case. *)
Lemma stripSuffix_toLowerCase suffix s :
  stripSuffix suffix (toLowerCase s) = toLowerCase (stripSuffix suffix s).
Proof.
  induction s as [|c s IH]; [reflexivity|].
  change (toLowerCase (String c s)) with (String (lower c) (toLowerCase s)).
  cbn [stripSuffix].
  change (String (lower c) (toLowerCase s)) with (toLowerCase (String c s)).
  rewrite length_toLowerCase, prefix_lower_toLowerCase.
  destruct (_ && _); [reflexivity|].
  simpl. rewrite IH. reflexivity.
Qed.

(** A suffix that reads ".psd" up to case is removed. *)
Lemma stripSuffix_ext x ext :
  toLowerCase ext = ".psd" -> stripSuffix ".psd" (x ++ ext) = x.
Proof.
  intros H.
  assert (Hlen : String.length ext = 4%nat)
    by (rewrite <- (length_toLowerCase ext), H; reflexivity).
  assert (Hpre : prefix_by lower ".psd" ext = true)
    by (rewrite <- prefix_lower_toLowerCase, H; reflexivity).
  induction x as [|c x IH].
  - destruct ext as [|a ext]; [discriminate Hlen|].
    simpl append. cbn [stripSuffix]. rewrite Hlen, Hpre. reflexivity.
  - simpl append. cbn [stripSuffix].
    replace (String.length (String c (x ++ ext)) =? String.length ".psd")%nat
      with false.
    + simpl. f_equal. exact IH.
    + symmetry. apply Nat.eqb_neq. simpl. rewrite length_append, Hlen. lia.
Qed.

Lemma hasChar_toLowerCase c s :
  lower c = c -> hasChar c s = true -> hasChar c (toLowerCase s) = true.
Proof.
  intros Hc. induction s as [|x s IH]; simpl; [discriminate|].
  intros H. apply orb_true_iff in H as [H | H].
  - apply Ascii.eqb_eq in H. subst x. rewrite Hc, Ascii.eqb_refl. reflexivity.
  - rewrite (IH H). apply orb_true_r.
Qed.

Lemma ext_without c ext :
  lower c = c -> hasChar c ".psd" = false -> toLowerCase ext = ".psd" ->
  hasChar c ext = false.
Proof.
  intros Hc Hn He. destruct (hasChar c ext) eqn:E; [|reflexivity].
  apply (hasChar_toLowerCase _ Hc) in E. rewrite He, Hn in E. discriminate.
Qed.

Lemma baseFilename_ext name ext :
  toLowerCase ext = ".psd" ->
  baseFilename (name ++ ext) = (baseFilename name ++ ext)%string.
Proof.
  intros He. unfold baseFilename.
  rewrite ScoringFacts.pop_split_app.
  rewrite (@ext_without "/" ext eq_refl eq_refl He).
  rewrite ScoringFacts.pop_split_app.
  rewrite (@ext_without "\" ext eq_refl eq_refl He).
  reflexivity.
Qed.

(** X11: the extension is removed whatever its case: a candidate ending
    in [.PSD], [.Psd], ... is checked as the same candidate ending in
    [.psd], in every mode. *)
Theorem extension_case_is_irrelevant
  (RegExp_test : string -> bool -> string -> option bool)
  (name ext pattern patternType caseSensitive : string) :
  toLowerCase ext = ".psd" ->
  stripSuffix ".psd" (baseFilename (name ++ ext)) = baseFilename name
  /\ checkFilename RegExp_test (name ++ ext) pattern patternType caseSensitive
     = checkFilename RegExp_test (name ++ ".psd") pattern patternType
         caseSensitive.
Proof.
  intros He.
  assert (H1 : stripSuffix ".psd" (baseFilename (name ++ ext))
               = baseFilename name)
    by (rewrite (@baseFilename_ext name ext He); apply stripSuffix_ext, He).
  assert (H2 : stripSuffix ".psd" (baseFilename (name ++ ".psd"))
               = baseFilename name)
    by (rewrite (@baseFilename_ext name ".psd" eq_refl);
        apply stripSuffix_ext; reflexivity).
  split; [exact H1|].
  unfold checkFilename. rewrite H1, H2. reflexivity.
Qed.

Lemma extension_case_witness :
  checkFilename RegExp.test "work/Poster.PSD" "poster" "exact" "no"
  = checkFilename RegExp.test "work/Poster.psd" "poster" "exact" "no".
Proof.
  apply (@extension_case_is_irrelevant RegExp.test "work/Poster" ".PSD"
           "poster" "exact" "no").
  reflexivity.
Defined.

(** *** Case *)

Lemma split_toLowerCase c s :
  (forall x, Ascii.eqb (lower x) c = Ascii.eqb x c) ->
  split c (toLowerCase s) = map toLowerCase (split c s).
Proof.
  intros Hc. induction s as [|x s IH]; [reflexivity|].
  simpl. rewrite Hc, IH.
  destruct (Ascii.eqb x c); [reflexivity|].
  destruct (split c s) as [|seg rest] eqn:E; reflexivity.
Qed.

Lemma pop_map_toLowerCase l :
  pop (map toLowerCase l) = toLowerCase (pop l).
Proof.
  unfold pop. change "" with (toLowerCase "") at 1.
  induction l as [|x l IH]; [reflexivity|].
  destruct l as [|y l]; [reflexivity|]. exact IH.
Qed.

Lemma slash_not_lowered x : Ascii.eqb (lower x) "/" = Ascii.eqb x "/".
Proof. destruct x as [[] [] [] [] [] [] [] []]; reflexivity. Qed.

Lemma backslash_not_lowered x : Ascii.eqb (lower x) "\" = Ascii.eqb x "\".
Proof. destruct x as [[] [] [] [] [] [] [] []]; reflexivity. Qed.

Lemma baseFilename_toLowerCase f :
  baseFilename (toLowerCase f) = toLowerCase (baseFilename f).
Proof.
  unfold baseFilename.
  rewrite (@split_toLowerCase "/" f slash_not_lowered).
  rewrite pop_map_toLowerCase.
  rewrite (@split_toLowerCase "\" _ backslash_not_lowered).
  rewrite pop_map_toLowerCase.
  reflexivity.
Qed.

(** X12: for a file name and a pattern written in ASCII, without case
    sensitivity and outside the regex mode, the case of the file name and
    of the pattern does not matter. *)
Theorem case_is_irrelevant
  (RegExp_test : string -> bool -> string -> option bool)
  (filename pattern patternType caseSensitive : string) :
  isAscii filename = true ->
  isAscii pattern = true ->
  caseSensitive <> "yes" ->
  patternType <> "regex" ->
  checkFilename RegExp_test (toLowerCase filename) (toLowerCase pattern)
    patternType caseSensitive
  = checkFilename RegExp_test filename pattern patternType caseSensitive.
Proof.
  intros _ _ Hc Ht. unfold checkFilename.
  apply String.eqb_neq in Hc. apply String.eqb_neq in Ht.
  rewrite Hc, Ht.
  rewrite baseFilename_toLowerCase, stripSuffix_toLowerCase.
  rewrite !toLowerCase_idem. reflexivity.
Qed.

Lemma case_is_irrelevant_witness :
  checkFilename RegExp.test "des222_smith_a01.psd"
    "{class}_{lastname}_{assignment}" "custom" "no"
  = checkFilename RegExp.test "DES222_Smith_A01.psd"
      "{CLASS}_{LASTNAME}_{ASSIGNMENT}" "custom" "no".
Proof.
  apply (@case_is_irrelevant RegExp.test "DES222_Smith_A01.psd"
           "{CLASS}_{LASTNAME}_{ASSIGNMENT}" "custom" "no");
    [reflexivity | reflexivity | discriminate | discriminate].
Defined.

(** *** The examples of the front end *)

Lemma startsWith_app s b : startsWith (s ++ b) s = true.
Proof.
  unfold startsWith. induction s as [|x s IH]; simpl; [reflexivity|].
  rewrite Ascii.eqb_refl. exact IH.
Qed.

Lemma includes_of_startsWith s p : startsWith s p = true -> includes s p = true.
Proof. intros H. destruct s; simpl; rewrite H; reflexivity. Qed.

Lemma includes_after a s p : includes s p = true -> includes (a ++ s) p = true.
Proof.
  intros H. induction a as [|x a IH]; [exact H|].
  simpl. rewrite IH. apply orb_true_r.
Qed.

Lemma includes_middle a p b : includes (a ++ p ++ b) p = true.
Proof. apply includes_after, includes_of_startsWith, startsWith_app. Qed.

(** X13: the example the front end shows for an "exact" or a "contains"
    pattern passes its own validator, whatever the pattern and the case
    switch. *)
Theorem pattern_example_is_accepted
  (RegExp_test : string -> bool -> string -> option bool)
  (pattern : string) (caseSensitive : bool) :
  FilenamePatterns.validateFilename RegExp_test
    (FilenamePatterns.getPatternExample pattern "exact") pattern "exact"
    caseSensitive = true
  /\ FilenamePatterns.validateFilename RegExp_test
       (FilenamePatterns.getPatternExample pattern "contains") pattern
       "contains" caseSensitive = true.
Proof.
  unfold FilenamePatterns.validateFilename, FilenamePatterns.getPatternExample.
  cbn [String.eqb Ascii.eqb Bool.eqb].
  split.
  - rewrite stripSuffix_ext by reflexivity.
    destruct caseSensitive; apply String.eqb_refl.
  - replace ("MyFile_" ++ pattern ++ "_v1.psd")%string
      with (("MyFile_" ++ pattern ++ "_v1") ++ ".psd")%string
      by (rewrite !append_assoc; reflexivity).
    rewrite stripSuffix_ext by reflexivity.
    destruct caseSensitive.
    + apply includes_middle.
    + rewrite !toLowerCase_app. apply includes_middle.
Qed.

End FilenameExtra.

(** ** Archives and batches *)

Module ArchiveExtra.

Import JsString FileProcessor Statements.

(** *** System files *)

Lemma systemFiles_extends :
  FileProcessor.systemFiles
  = FileValidator.systemFiles
    ++ [".com.apple.timemachine.donotpresent"; ".AppleDouble"; ".LSOverride"].
Proof. reflexivity. Qed.

(** X14: every name the front end holds for a system file is a system
    file for the grader too, which skips it in archives. *)
Theorem front_end_system_files_are_skipped (filename : string) :
  FileValidator.isSystemFile filename = true ->
  FileProcessor.isSystemFile filename = true.
Proof.
  unfold FileValidator.isSystemFile, FileProcessor.isSystemFile. cbv zeta.
  rewrite systemFiles_extends, existsb_app.
  destruct (existsb _ FileValidator.systemFiles); [reflexivity|].
  cbn [orb].
  match goal with
  | |- _ -> (if ?c then _ else _) = true => destruct c; [reflexivity|]
  end.
  destruct (startsWith filename "._"), (includes filename "__MACOSX"),
    (startsWith filename "~$"), (endsWith (toLowerCase filename) ".tmp"),
    (includes filename "/.DS_Store"), (includes filename "\Thumbs.db"),
    (endsWith (toLowerCase filename) ".temp");
    cbn [orb]; intros H; first [discriminate H | reflexivity].
Qed.

Lemma front_end_system_files_witness :
  FileProcessor.isSystemFile "__MACOSX/._poster.psd" = true.
Proof.
  apply front_end_system_files_are_skipped. reflexivity.
Defined.

(** *** Archives *)

Section Batch.

Variable readPsd : list byte -> Psd.ReadOptions -> Completion Psd.Decoded.
Variable RegExp_test : string -> bool -> string -> option bool.
Variable readFileSync : string -> Completion (list byte).
Variable loadAsync : list byte -> Completion (list ZipEntry).
Variable uploadPath : string -> string.

Lemma gradeFile_name analysis criteria :
  result_originalFilename (gradeFile RegExp_test analysis criteria)
  = originalFilename analysis.
Proof.
  unfold gradeFile. cbv zeta.
  match goal with
  | |- context [match ?T with (_, _) => _ end] => destruct T as [[s m] c]
  end.
  reflexivity.
Qed.

Lemma processEntry_names criteria entry :
  map recordName (processEntry readPsd RegExp_test criteria entry)
  = if isDocumentEntry entry then [entry_name entry] else [].
Proof.
  unfold processEntry, isDocumentEntry. cbv zeta.
  destruct (isSystemFile (entry_name entry)); [reflexivity|].
  cbn [negb andb].
  destruct (endsWith _ ".psd" && negb (dir entry)); [|reflexivity].
  destruct (async entry) as [psdData | e]; [|reflexivity].
  destruct (analyzePSDData readPsd psdData (entry_name entry)) as [a | e] eqn:E;
    [|reflexivity].
  simpl. rewrite gradeFile_name.
  apply AnalysisExtra.analyzePSDData_coherent in E.
  destruct E as (_ & _ & _ & -> & _). reflexivity.
Qed.

(** X15: an archive gives exactly one record per document entry (a
    [.psd] name, not a directory, not a system file), in the order of the
    entries and under the name of the entry, whether the entry could be
    read and analysed or not; no other entry leaves a record. *)
Theorem one_record_per_document_entry criteria entries :
  map recordName (processEntries readPsd RegExp_test criteria entries)
  = map entry_name (filter isDocumentEntry entries).
Proof.
  unfold processEntries.
  induction entries as [|e entries IH]; [reflexivity|].
  simpl. rewrite map_app, processEntry_names, IH.
  destruct (isDocumentEntry e); reflexivity.
Qed.

Lemma endsWith_psd_not_zip s :
  endsWith s ".psd" = true -> endsWith s ".zip" = false.
Proof.
  induction s as [|c s IH]; [discriminate|].
  cbn [endsWith]. intros H.
  apply orb_true_iff in H as [H | H].
  - apply String.eqb_eq in H. injection H as -> ->. reflexivity.
  - rewrite (IH H), orb_false_r.
    apply String.eqb_neq. intros E. injection E as _ E. subst s.
    discriminate H.
Qed.

Lemma processPSDFile_name filePath name criteria result :
  processPSDFile readPsd RegExp_test readFileSync filePath name criteria
  = Normal result ->
  result_originalFilename result = name.
Proof.
  unfold processPSDFile. cbv zeta.
  destruct (readFileSync filePath) as [psdData | e]; [|discriminate].
  destruct (analyzePSDData readPsd psdData name) as [a | e] eqn:E;
    [|discriminate].
  intros H. injection H as <-. rewrite gradeFile_name.
  apply AnalysisExtra.analyzePSDData_coherent in E.
  destruct E as (_ & _ & _ & -> & _). reflexivity.
Qed.

(** X16: a batch of [.psd] uploads gives exactly one record per upload,
    in order and under the original name, whether the file could be read
    and analysed or not. *)
Theorem one_record_per_document_upload criteria files :
  Forall (fun f => endsWith (toLowerCase (originalName f)) ".psd" = true)
    files ->
  map recordName
    (processFiles readPsd RegExp_test readFileSync loadAsync uploadPath
       files criteria)
  = map originalName files.
Proof.
  unfold processFiles.
  induction 1 as [|f files Hf _ IH]; [reflexivity|].
  simpl. rewrite map_app, IH. f_equal.
  unfold processFile. cbv zeta.
  rewrite (endsWith_psd_not_zip _ Hf), Hf.
  destruct (processPSDFile _ _ _ _ _ _) as [result | e] eqn:E.
  - simpl. rewrite (processPSDFile_name _ _ _ E). reflexivity.
  - reflexivity.
Qed.

Lemma unreadable_container criteria fileInfo e :
  endsWith (toLowerCase (originalName fileInfo)) ".zip" = true ->
  (readFileSync (uploadPath (stored_filename fileInfo)) = Throw e
   \/ exists zipData,
        readFileSync (uploadPath (stored_filename fileInfo)) = Normal zipData
        /\ loadAsync zipData = Throw e) ->
  processFile readPsd RegExp_test readFileSync loadAsync uploadPath
    criteria fileInfo
  = [Failed {| error_filename := originalName fileInfo;
               error_originalFilename := originalName fileInfo;
               error := "Failed to process ZIP file: " ++ message e;
               error_maxScore := getMaxScore criteria |}].
Proof.
  intros Hzip H. unfold processFile, processZipFile. cbv zeta.
  rewrite Hzip.
  destruct H as [-> | (zipData & -> & ->)]; reflexivity.
Qed.

(** X17: a container that cannot be read or opened costs exactly one error
    record, "Failed to process ZIP file: " and the cause, with the maximum
    of [getMaxScore]; the uploads before and after it are processed as if
    it were not there. *)
Theorem unreadable_container_costs_one_record
  criteria before fileInfo after e :
  endsWith (toLowerCase (originalName fileInfo)) ".zip" = true ->
  (readFileSync (uploadPath (stored_filename fileInfo)) = Throw e
   \/ exists zipData,
        readFileSync (uploadPath (stored_filename fileInfo)) = Normal zipData
        /\ loadAsync zipData = Throw e) ->
  processFiles readPsd RegExp_test readFileSync loadAsync uploadPath
    (before ++ fileInfo :: after) criteria
  = processFiles readPsd RegExp_test readFileSync loadAsync uploadPath
      before criteria
    ++ [Failed {| error_filename := originalName fileInfo;
                  error_originalFilename := originalName fileInfo;
                  error := "Failed to process ZIP file: " ++ message e;
                  error_maxScore := getMaxScore criteria |}]
    ++ processFiles readPsd RegExp_test readFileSync loadAsync uploadPath
         after criteria.
Proof.
  intros Hzip H. unfold processFiles.
  rewrite flat_map_app. cbn [flat_map].
  rewrite (unreadable_container criteria fileInfo Hzip H). reflexivity.
Qed.

(** X18: an upload the front end refuses for its extension leaves no
    record in the grader either. *)
Theorem refused_upload_yields_nothing criteria fileInfo :
  FileValidator.isValidFile
    {| FileValidator.file_name := originalName fileInfo;
       FileValidator.size := 0 |} = false ->
  processFile readPsd RegExp_test readFileSync loadAsync uploadPath
    criteria fileInfo = [].
Proof.
  unfold FileValidator.isValidFile, processFile. cbn.
  intros H. rewrite orb_false_r in H.
  apply orb_false_iff in H as [Hpsd Hzip].
  rewrite Hpsd, Hzip. reflexivity.
Qed.

End Batch.

(** The sample archive: an artifact, a document, a text file and a
    document entry that cannot be inflated. *)
Lemma sample_archive_records :
  map recordName
    (processEntries minimalOnly RegExp.test widthOnly sampleArchive)
  = ["poster.psd"; "broken.PSD"].
Proof. reflexivity. Qed.

Lemma one_record_per_document_upload_witness :
  map recordName
    (processFiles minimalOnly RegExp.test sampleDisk brokenZip sampleUploadPath
       [ {| stored_filename := "u1"; originalName := "poster.psd" |};
         {| stored_filename := "u2"; originalName := "missing.PSD" |} ]
       widthOnly)
  = ["poster.psd"; "missing.PSD"].
Proof.
  apply (@one_record_per_document_upload minimalOnly RegExp.test sampleDisk
           brokenZip sampleUploadPath widthOnly).
  repeat constructor.
Defined.

Lemma unreadable_container_witness :
  processFiles minimalOnly RegExp.test sampleDisk brokenZip sampleUploadPath
    ([ {| stored_filename := "u1"; originalName := "poster.psd" |} ]
     ++ {| stored_filename := "u3"; originalName := "class.zip" |}
     :: [ {| stored_filename := "u1"; originalName := "again.psd" |} ])
    widthOnly
  = processFiles minimalOnly RegExp.test sampleDisk brokenZip sampleUploadPath
      [ {| stored_filename := "u1"; originalName := "poster.psd" |} ]
      widthOnly
    ++ [Failed {| error_filename := "class.zip";
                  error_originalFilename := "class.zip";
                  error := "Failed to process ZIP file: "
                           ++ "Can't find end of central directory";
                  error_maxScore := getMaxScore widthOnly |}]
    ++ processFiles minimalOnly RegExp.test sampleDisk brokenZip
         sampleUploadPath
         [ {| stored_filename := "u1"; originalName := "again.psd" |} ]
         widthOnly.
Proof.
  apply (@unreadable_container_costs_one_record minimalOnly RegExp.test
           sampleDisk brokenZip sampleUploadPath widthOnly
           [ {| stored_filename := "u1"; originalName := "poster.psd" |} ]
           {| stored_filename := "u3"; originalName := "class.zip" |}
           [ {| stored_filename := "u1"; originalName := "again.psd" |} ]
           (Error "Can't find end of central directory")).
  - reflexivity.
  - right. exists (Header.bytes [80; 75]%N). split; reflexivity.
Defined.

Lemma refused_upload_witness :
  processFile minimalOnly RegExp.test sampleDisk brokenZip sampleUploadPath
    widthOnly {| stored_filename := "u4"; originalName := "notes.txt" |}
  = [].
Proof.
  apply (@refused_upload_yields_nothing minimalOnly RegExp.test sampleDisk
           brokenZip sampleUploadPath widthOnly
           {| stored_filename := "u4"; originalName := "notes.txt" |}).
  reflexivity.
Defined.

End ArchiveExtra.

(** ** Server rules, decoder and summary *)

Module ServerExtra.

Import JsString Server Statements.

(** *** Splitting and joining *)

Lemma split_app_sep c a b :
  split c (a ++ String c b) = split c a ++ split c b.
Proof.
  induction a as [|x a IH].
  - simpl. rewrite Ascii.eqb_refl. reflexivity.
  - change (String x a ++ String c b)%string with (String x (a ++ String c b)).
    cbn [split]. rewrite IH.
    destruct (Ascii.eqb x c); [reflexivity|].
    destruct (split c a) as [|seg rest] eqn:E; [|reflexivity].
    exfalso. exact (ScoringFacts.split_not_nil _ _ E).
Qed.

Lemma join_split c s : join (String c EmptyString) (split c s) = s.
Proof.
  induction s as [|x s IH]; [reflexivity|].
  cbn [split]. destruct (Ascii.eqb x c) eqn:Hx.
  - apply Ascii.eqb_eq in Hx. subst x.
    destruct (split c s) as [|seg rest] eqn:E;
      [exfalso; exact (ScoringFacts.split_not_nil _ _ E)|].
    cbn [join]. cbn [join] in IH. rewrite IH. reflexivity.
  - destruct (split c s) as [|seg rest] eqn:E;
      [exfalso; exact (ScoringFacts.split_not_nil _ _ E)|].
    destruct rest as [|r rest].
    + simpl in *. rewrite IH. reflexivity.
    + cbn [join] in *. simpl. rewrite <- IH. reflexivity.
Qed.

Lemma stripExtension_psd x : stripExtension (x ++ ".psd") = x.
Proof.
  unfold stripExtension.
  rewrite (@FilenameExtra.stripSuffix_ext x ".psd" eq_refl).
  replace (String.eqb x (x ++ ".psd")) with false; [reflexivity|].
  symmetry. apply String.eqb_neq. intros E.
  apply (f_equal String.length) in E.
  rewrite FilenameExtra.length_append in E. simpl in E. lia.
Qed.

Lemma segments_late student uid sid original :
  hasChar "_" student = false -> hasChar "_" uid = false ->
  hasChar "_" sid = false ->
  split "_" (submissionName true student uid sid original)
  = [student; "LATE"; uid; sid] ++ split "_" original.
Proof.
  intros Hs Hu Hi. unfold submissionName.
  change (student ++ "_" ++ "LATE_" ++ uid ++ "_" ++ sid ++ "_" ++ original)%string
    with (student ++ String "_" ("LATE" ++ String "_" (uid ++ String "_" (sid ++ String "_" original))))%string.
  rewrite !split_app_sep.
  rewrite (ScoringFacts.split_without _ _ Hs), (ScoringFacts.split_without _ _ Hu),
    (ScoringFacts.split_without _ _ Hi).
  reflexivity.
Qed.

Lemma segments_on_time student uid sid original :
  hasChar "_" student = false -> hasChar "_" uid = false ->
  hasChar "_" sid = false ->
  split "_" (submissionName false student uid sid original)
  = [student; uid; sid] ++ split "_" original.
Proof.
  intros Hs Hu Hi. unfold submissionName.
  change (student ++ "_" ++ "" ++ uid ++ "_" ++ sid ++ "_" ++ original)%string
    with (student ++ String "_" (uid ++ String "_" (sid ++ String "_" original)))%string.
  rewrite !split_app_sep.
  rewrite (ScoringFacts.split_without _ _ Hs), (ScoringFacts.split_without _ _ Hu),
    (ScoringFacts.split_without _ _ Hi).
  reflexivity.
Qed.

(** X19: a late submission decodes to what its name was built from: for
    a student token, a user id and a submission id without underscores and
    any original name, [student_LATE_uid_sid_original.psd] gives back the
    student token, the two ids and the original name, underscores
    included. *)
Theorem late_submission_round_trip (student uid sid original : string) :
  hasChar "_" student = false -> hasChar "_" uid = false ->
  hasChar "_" sid = false ->
  exists info,
    parseCanvasFilename
      (submissionName true student uid sid original ++ ".psd") = Some info
    /\ studentName info = student /\ isLate info = true
    /\ userId info = uid /\ submissionId info = sid
    /\ originalFilename info = original.
Proof.
  intros Hs Hu Hi. unfold parseCanvasFilename.
  rewrite stripExtension_psd, (segments_late student uid sid original Hs Hu Hi).
  destruct (split "_" original) as [|seg rest] eqn:E;
    [exfalso; exact (ScoringFacts.split_not_nil _ _ E)|].
  cbn [app List.length Nat.ltb Nat.leb part nth].
  change ("LATE" =? "LATE")%string with true. cbv iota.
  eexists. split; [reflexivity|].
  cbn [studentName isLate userId submissionId originalFilename part nth
         Nat.add skipn].
  repeat split. rewrite <- E. apply join_split.
Qed.

Lemma late_submission_witness :
  exists info,
    parseCanvasFilename "ada_LATE_98765_43210_Poster_v2.psd" = Some info
    /\ userId info = "98765" /\ originalFilename info = "Poster_v2".
Proof.
  destruct (@late_submission_round_trip "ada" "98765" "43210" "Poster_v2"
              eq_refl eq_refl eq_refl)
    as (info & H & _ & _ & Hu & _ & Ho).
  exists info. split; [exact H|]. split; [exact Hu | exact Ho].
Defined.

Lemma split_two c s :
  hasChar c s = true -> exists a b rest, split c s = a :: b :: rest.
Proof.
  induction s as [|x s IH]; [discriminate|].
  cbn [hasChar split]. intros H.
  destruct (Ascii.eqb x c) eqn:Hx.
  - destruct (split c s) as [|seg rest] eqn:E;
      [exfalso; exact (ScoringFacts.split_not_nil _ _ E)|].
    eauto.
  - simpl in H. destruct (IH H) as (a & b & rest & ->). eauto.
Qed.

(** X20: an on-time submission [student_uid_sid_original.psd] is
    recognised only when the original name has an underscore: without one
    the name has four segments and the decoder answers [null]; with one it
    gives back the student token, the two ids and the original name. *)
Theorem on_time_submission (student uid sid original : string) :
  hasChar "_" student = false -> hasChar "_" uid = false ->
  hasChar "_" sid = false -> uid <> "LATE" ->
  (hasChar "_" original = false ->
   parseCanvasFilename
     (submissionName false student uid sid original ++ ".psd") = None)
  /\ (hasChar "_" original = true ->
      exists info,
        parseCanvasFilename
          (submissionName false student uid sid original ++ ".psd")
        = Some info
        /\ studentName info = student /\ isLate info = false
        /\ userId info = uid /\ submissionId info = sid
        /\ originalFilename info = original).
Proof.
  intros Hs Hu Hi Hlate. unfold parseCanvasFilename.
  rewrite stripExtension_psd, (segments_on_time student uid sid original Hs Hu Hi).
  split; intros Ho.
  - rewrite (ScoringFacts.split_without _ _ Ho). reflexivity.
  - destruct (split_two _ _ Ho) as (a & b & rest & E). rewrite E.
    cbn [app List.length Nat.ltb Nat.leb part nth].
    apply String.eqb_neq in Hlate. rewrite Hlate. cbv iota.
    eexists. split; [reflexivity|].
    cbn [studentName isLate userId submissionId originalFilename part nth
           Nat.add skipn].
    repeat split. rewrite <- E. apply join_split.
Qed.

Lemma on_time_submission_witness :
  parseCanvasFilename "ada_98765_43210_Poster.psd" = None.
Proof.
  refine (proj1 (@on_time_submission "ada" "98765" "43210" "Poster"
                   eq_refl eq_refl eq_refl _) eq_refl).
  discriminate.
Defined.

(** *** Fonts *)

Lemma existsb_eqb_In font fonts :
  existsb (String.eqb font) fonts = true <-> In font fonts.
Proof.
  rewrite existsb_exists. split.
  - intros (x & Hx & E). apply String.eqb_eq in E. subst. exact Hx.
  - intros H. exists font. split; [exact H | apply String.eqb_refl].
Qed.

Lemma add_NoDup fonts font : NoDup fonts -> NoDup (add fonts font).
Proof.
  intros H. unfold add.
  destruct (existsb (String.eqb font) fonts) eqn:E; [exact H|].
  apply NoDup_app; [exact H | repeat constructor; intros [] |].
  intros x Hx [<- | []].
  apply existsb_eqb_In in Hx. rewrite Hx in E. discriminate.
Qed.

Lemma fold_add_NoDup adds fonts :
  NoDup fonts -> NoDup (fold_left add adds fonts).
Proof.
  revert fonts. induction adds as [|x adds IH]; intros fonts H; [exact H|].
  simpl. apply IH, add_NoDup, H.
Qed.

Lemma add_In fonts font x : In x (add fonts font) -> In x fonts \/ x = font.
Proof.
  unfold add. destruct (existsb _ fonts); [auto|].
  intros H. apply in_app_or in H as [H | [<- | []]]; auto.
Qed.

Lemma fold_add_In adds fonts x :
  In x (fold_left add adds fonts) -> In x fonts \/ In x adds.
Proof.
  revert fonts. induction adds as [|a adds IH]; intros fonts H; [auto|].
  simpl in H. apply IH in H as [H | H]; [|right; right; exact H].
  apply add_In in H as [H | ->]; [left; exact H | right; left; reflexivity].
Qed.

Lemma truthy_not_empty o x : In x (truthy o) -> x <> "".
Proof.
  unfold truthy. destruct o as [s|]; [|intros []].
  destruct (String.eqb s "") eqn:E; [intros []|].
  intros [<- | []]. apply String.eqb_neq. exact E.
Qed.

Lemma fontsOfText_not_empty t x : In x (fontsOfText t) -> x <> "".
Proof.
  unfold fontsOfText. intros H.
  apply in_app_or in H as [H | H].
  - destruct (Psd.style t) as [st|]; [|destruct H].
    repeat (apply in_app_or in H as [H | H]);
      eapply truthy_not_empty; exact H.
  - destruct (Psd.RunArray t) as [runs|]; [|destruct H].
    apply in_flat_map in H as (run & _ & H).
    destruct (Psd.StyleSheet run) as [[data|]|]; try destruct H.
    eapply truthy_not_empty; exact H.
Qed.

Lemma fontsOfLayer_not_empty layer :
  Forall (fun x => x <> "") (fontsOfLayer layer).
Proof.
  induction layer as [layer IH] using AnalysisExtra.layer_tree_ind.
  destruct layer as [n h o b t a e m pl vm vs cs]; simpl in *.
  apply Forall_app. split.
  - destruct t as [t|]; [|constructor].
    apply Forall_forall. intros x. apply fontsOfText_not_empty.
  - destruct cs as [cs|]; [|constructor].
    apply Forall_flat_map. exact (IH cs eq_refl).
Qed.

(** X21: the fonts reported as used are listed once each, and none of
    them is the empty string. *)
Theorem usedFonts_are_distinct (psdData : Psd.Psd) (criteria : FontCriteria) :
  NoDup (usedFonts (checkFontRequirements psdData criteria))
  /\ Forall (fun font => font <> "")
       (usedFonts (checkFontRequirements psdData criteria)).
Proof.
  assert (H : NoDup (extractFonts (Psd.psd_children psdData))
              /\ Forall (fun font => font <> "")
                   (extractFonts (Psd.psd_children psdData))).
  { unfold extractFonts.
    destruct (Psd.psd_children psdData) as [ls|];
      [|split; constructor].
    split; [apply fold_add_NoDup; constructor|].
    apply Forall_forall. intros x Hx.
    apply fold_add_In in Hx as [[] | Hx].
    apply in_flat_map in Hx as (l & _ & Hx).
    pose proof (fontsOfLayer_not_empty l) as Hl.
    rewrite Forall_forall in Hl. exact (Hl x Hx). }
  unfold checkFontRequirements. cbv zeta.
  destruct (_ =? 0)%nat; exact H.
Qed.



(** *** Technical rules *)

Lemma countAllLayers_positive psdData : (1 <= countAllLayers psdData)%nat.
Proof.
  unfold countAllLayers.
  destruct (_ =? 0)%nat eqn:E; [lia|]. apply Nat.eqb_neq in E. lia.
Qed.

(** X23: a configured minimum of one layer or less is always met, also by
    a document without layer data, because the counter never answers
    zero. *)
Theorem minimum_of_one_layer_is_always_met
  (psdData : PsdData) (criteria : TechnicalCriteria) (m : Z) :
  crit_minLayers criteria = Some m -> (m <= 1)%Z ->
  exists check,
    layersCheck (checkTechnicalRequirements psdData criteria) = Some check
    /\ count_valid check = true /\ (1 <= count check)%nat.
Proof.
  intros Hm Hle. unfold checkTechnicalRequirements. cbn [layersCheck].
  rewrite Hm. eexists. split; [reflexivity|].
  cbn [count_valid count].
  pose proof (countAllLayers_positive psdData).
  split; [|assumption]. apply Z.geb_le. lia.
Qed.



(** *** Summary *)

Section Summary.

Variable atLeast70 : Z -> Z -> bool.

Lemma tally_counts files p f :
  let step := fun (pf : nat * nat) (x : Z * Z) =>
                if (snd x >? 0)%Z then
                  if atLeast70 (fst x) (snd x) then (S (fst pf), snd pf)
                  else (fst pf, S (snd pf))
                else pf in
  (fst (fold_left step files (p, f)) + snd (fold_left step files (p, f))
   = p + f + List.length (filter (fun x => (snd x >? 0)%Z) files))%nat.
Proof.
  cbv zeta. revert p f.
  induction files as [|x files IH]; intros p f; simpl; [lia|].
  destruct (snd x >? 0)%Z.
  - destruct (atLeast70 (fst x) (snd x)); rewrite IH; simpl; lia.
  - rewrite IH. lia.
Qed.

Lemma sum_equal (files : list (Z * Z)) a b :
  Forall (fun x => fst x = snd x) files -> a = b ->
  fold_left (fun sum x => (sum + fst x)%Z) files a
  = fold_left (fun sum x => (sum + snd x)%Z) files b.
Proof.
  intros H. revert a b. induction H as [|x files Hx _ IH]; intros a b E;
    [exact E|].
  simpl. apply IH. rewrite Hx, E. reflexivity.
Qed.

(** X25: the summary counts every result, and every result with a
    positive maximum exactly once, as passed or as failed, whatever the
    outcome of the 70 percent test; results with maximum 0 are in neither
    count.  Without a result of positive maximum the average is 0; when
    every such result has full marks it is 100. *)
Theorem summary_partitions_the_batch (files : list (Z * Z)) :
  let summary := summarize atLeast70 files in
  totalFiles summary = List.length files
  /\ (passedCount summary + failedCount summary
      = List.length (filter (fun f => (snd f >? 0)%Z) files))%nat
  /\ (passedCount summary + failedCount summary <= totalFiles summary)%nat
  /\ (filter (fun f => (snd f >? 0)%Z) files = [] -> averageScore summary = 0%Z)
  /\ (filter (fun f => (snd f >? 0)%Z) files <> [] ->
      Forall (fun f => fst f = snd f)
        (filter (fun f => (snd f >? 0)%Z) files) ->
      averageScore summary = 100%Z).
Proof.
  cbv zeta. unfold summarize. cbv zeta.
  cbn [totalFiles passedCount failedCount averageScore].
  pose proof (tally_counts files 0 0) as H. cbv zeta in H.
  split; [reflexivity|]. split; [rewrite H; reflexivity|].
  split; [rewrite H; simpl; apply filter_length_le|].
  split.
  - intros ->. reflexivity.
  - intros Hne Hall.
    set (valid := filter (fun f => (snd f >? 0)%Z) files) in *.
    assert (Hv : Forall (fun f => fst f = snd f /\ (0 < snd f)%Z) valid).
    { apply Forall_forall. intros x Hx.
      rewrite Forall_forall in Hall. split; [apply Hall, Hx|].
      unfold valid in Hx. apply filter_In in Hx as [_ Hp].
      apply Z.gtb_lt in Hp. lia. }
    destruct valid as [|v valid]; [contradiction|].
    assert (Hpos : forall l a,
              Forall (fun f : Z * Z => fst f = snd f /\ (0 < snd f)%Z) l ->
              (0 < a)%Z ->
              (0 < fold_left (fun sum x => (sum + snd x)%Z) l a)%Z).
    { induction l as [|x l IHl]; intros a Hl Ha; [exact Ha|].
      simpl. inversion Hl as [|? ? [_ Hx] Hl']; subst.
      apply IHl; [exact Hl' | lia]. }
    rewrite (@sum_equal (v :: valid) 0 0);
      [|eapply Forall_impl; [|exact Hv]; intros x [E _]; exact E
       | reflexivity].
    set (total := fold_left (fun sum x => (sum + snd x)%Z) (v :: valid) 0%Z).
    assert (Ht : (0 < total)%Z).
    { unfold total. simpl. inversion Hv as [|? ? [_ Hx] Hl']; subst.
      apply Hpos; [exact Hl' | lia]. }
    replace (total >? 0)%Z with true by (symmetry; apply Z.gtb_lt; lia).
    apply ScoringExtra.roundedPercent_full, Ht.
Qed.

End Summary.

Lemma minimum_of_one_layer_witness :
  exists check,
    layersCheck (checkTechnicalRequirements bareDocument oneLayerAtLeast)
    = Some check
    /\ count_valid check = true.
Proof.
  destruct (@minimum_of_one_layer_is_always_met bareDocument oneLayerAtLeast 1)
    as (check & H & Hv & _).
  - reflexivity.
  - lia.
  - exists check. split; [exact H | exact Hv].
Defined.



Lemma summary_witness :
  let summary := summarize exactAtLeast70 [(20, 20); (0, 0); (20, 20)]%Z in
  (passedCount summary + failedCount summary = 2)%nat
  /\ averageScore summary = 100%Z.
Proof.
  destruct (summary_partitions_the_batch exactAtLeast70
              [(20, 20); (0, 0); (20, 20)]%Z) as (_ & Hc & _ & _ & Ha).
  cbv zeta. split; [exact Hc|].
  apply Ha; [discriminate | repeat constructor].
Defined.

End ServerExtra.

(** ** Front end *)

Module FrontEndExtra.

Import FileProcessor Statements.

(** X26: when the point values are not negative, the percentage the
    front end recomputes from the score and the maximum of a result is the
    percentage the grader put in that result. *)
Theorem recomputed_percentage_agrees
  (RegExp_test : string -> bool -> string -> option bool)
  (analysis : Analysis) (criteria : Criteria) :
  (0 <= or_default (pointsPerCriterion criteria) 20)%Z ->
  (0 <= or_default (filenamePoints criteria) 10)%Z ->
  let result := gradeFile RegExp_test analysis criteria in
  ScoreUtils.calculatePercentage (score result) (maxScore result)
  = percentage result.
Proof.
  intros Hp Hf. cbv zeta.
  pose proof (@ScoringExtra.gradeFile_bounded RegExp_test analysis criteria
                Hp Hf) as [Hb _].
  revert Hb. unfold gradeFile. cbv zeta.
  match goal with
  | |- context [match ?T with (_, _) => _ end] => destruct T as [[s m] c]
  end.
  cbn [score maxScore percentage]. intros Hb.
  unfold ScoreUtils.calculatePercentage.
  destruct (m =? 0)%Z eqn:E0.
  - apply Z.eqb_eq in E0. subst m. reflexivity.
  - apply Z.eqb_neq in E0.
    replace (m >? 0)%Z with true by (symmetry; apply Z.gtb_lt; lia).
    reflexivity.
Qed.

Lemma recomputed_percentage_witness :
  let result := gradeFile RegExp.test sampleAnalysis widthOnly in
  ScoreUtils.calculatePercentage (score result) (maxScore result) = 100%Z.
Proof.
  cbv zeta.
  rewrite (@recomputed_percentage_agrees RegExp.test sampleAnalysis widthOnly).
  - reflexivity.
  - apply Z.leb_le; reflexivity.
  - apply Z.leb_le; reflexivity.
Defined.

(** X27: in the CSV export the status column says "Pass" exactly for the
    letter grades C- and above, and "Needs Review" exactly for D+, D, D-
    and F. *)
Theorem csv_status_and_grade (filename : string) (score maxScore : Z) :
  exists points percent grade status,
    ScoreUtils.csvRow filename score maxScore
    = [filename; points; percent; grade; status]
    /\ (status = "Pass" \/ status = "Needs Review")
    /\ (status = "Pass" <->
        In grade ["A+"; "A"; "A-"; "B+"; "B"; "B-"; "C+"; "C"; "C-"])
    /\ (status = "Needs Review" <-> In grade ["D+"; "D"; "D-"; "F"]).
Proof.
  unfold ScoreUtils.csvRow. cbv zeta.
  set (p := ScoreUtils.calculatePercentage score maxScore).
  do 4 eexists. split; [reflexivity|].
  unfold ScoreUtils.getLetterGrade.
  repeat match goal with
         | |- context [(p >=? ?k)%Z] =>
             let E := fresh "E" in
             destruct (p >=? k)%Z eqn:E;
             [apply Z.geb_le in E | rewrite Z.geb_leb in E;
                                    apply Z.leb_gt in E];
             try lia
         end;
    (split; [auto|]);
    split; split; intros H; simpl in *;
    try discriminate; try reflexivity;
    repeat (destruct H as [H | H]; try discriminate H);
    try contradiction; auto 20.
Qed.

End FrontEndExtra.
